(** * NUST aggregate calculator: the scoring core

  A shallow embedding of the five scoring modules of the application
  (calcAggregate, chancePredictor, meritListPredictor,
  netScoreRecommender and preferenceGenerator) and the properties of
  them that the design document states.

  Modelling conventions.
  - A JavaScript [number] that carries a score, a percentage or an
    aggregate is a rational ([Q]), and the arithmetic on it is given
    twice.  The modules [CalcAggregate], [ChancePredictor],
    [MeritListPredictor], [NetScoreRecommender], [PreferenceGenerator]
    and [AggregateForm] take the operators over the rationals, without
    rounding; they carry the properties of order, bounds, branch
    selection and structure.  The module [Binary64] gives the arithmetic
    functions again with every operator rounded as IEEE-754 binary64
    rounds it (module [Double]: to the nearest number of 53 significant
    bits, a tie to the even one); it carries the properties of the
    computed values themselves.  There a rational stands for the double
    nearest to it, as the decimal [64.1] does in the source.  NaN, the
    infinities, overflow and underflow are outside both, except where a
    definition says otherwise.  Results that the code compares
    numerically are compared with [==].
  - Merit-list numbers, which the data model keeps integral, are [Z];
    array lengths and ranks are [nat].
  - [T | null | undefined] is [nullable T]; an optional property [p?: T]
    that the code tests against [undefined] only is [option T].
  - The prose fields ([explanation], [reasoning]) are display text built
    with template literals; they are left out of the result records.
    Fixed advisory strings (tips, recommendations, validation errors)
    are kept. *)

From Stdlib Require Import QArith Qround Qminmax Qabs Qpower Lqa Lia ZArith.
From Stdlib Require Import List String DecimalString Permutation Sorted.
From stdpp Require Import gmap strings.
Import ListNotations.

Open Scope Q_scope.

(** ** JavaScript primitives *)

Module JS.

(** Comparisons of numbers, as booleans. *)
Definition leb (x y : Q) : bool := Qle_bool x y.
Definition ltb (x y : Q) : bool := negb (Qle_bool y x).
Definition geb (x y : Q) : bool := Qle_bool y x.
Definition gtb (x y : Q) : bool := negb (Qle_bool x y).
(** [===] on two numbers. *)
Definition eqb (x y : Q) : bool := Qeq_bool x y.

(** [Math.round]: nearest integer, a tie goes up. *)
Definition Math_round (x : Q) : Q := inject_Z (Qfloor (x + (1 # 2))).
Definition Math_ceil (x : Q) : Q := inject_Z (Qceiling x).
Definition Math_max (x y : Q) : Q := Qmax x y.
Definition Math_min (x y : Q) : Q := Qmin x y.
Definition Math_abs (x : Q) : Q := Qabs x.

(** [parseFloat(x.toFixed(2))].  [toFixed] treats the sign apart, picks
    the integer [n] with [n / 100] nearest to the magnitude (the larger
    one on a tie), and prints magnitudes from [10^21] on without
    rounding. *)
Definition toFixed2 (x : Q) : Q :=
  let a := Qabs x in
  if leb (inject_Z (10 ^ 21)) a then x
  else
    let n := inject_Z (Qfloor (a * 100 + (1 # 2))) / 100 in
    if ltb x 0 then - n else n.

(** [T | null | undefined]. *)
Inductive nullable (A : Type) : Type :=
| Undefined : nullable A
| Null : nullable A
| Val : A -> nullable A.
Arguments Undefined {A}.
Arguments Null {A}.
Arguments Val {A} _.

(** [a ?? b]. *)
Definition coalesce {A} (a b : nullable A) : nullable A :=
  match a with
  | Val v => Val v
  | _ => b
  end.

(** [x === null || x === undefined]. *)
Definition nullish {A} (x : nullable A) : bool :=
  match x with
  | Val _ => false
  | _ => true
  end.

(** A [T | null] property read into a [T | null | undefined] one. *)
Definition of_option {A} (o : option A) : nullable A :=
  match o with
  | Some v => Val v
  | None => Null
  end.

(** Truthiness of a [number | null]: [null] and [0] are falsy. *)
Definition truthy_num (o : option Q) : bool :=
  match o with
  | Some v => negb (eqb v 0)
  | None => false
  end.

(** Truthiness of an optional boolean. *)
Definition truthy_bool (o : option bool) : bool :=
  match o with
  | Some b => b
  | None => false
  end.

(** Run-time values, as far as the configuration objects need them. *)
#[warnings="-register-all"]
Inductive value : Type :=
| VUndefined : value
| VNumber : Q -> value
| VObject : list (string * value) -> value.

Inductive error : Type :=
| TypeError : error.

(** The outcome of evaluating an expression: a value or a throw. *)
Inductive completion (A : Type) : Type :=
| Normal : A -> completion A
| Throw : error -> completion A.
Arguments Normal {A} _.
Arguments Throw {A} _.

Definition bind {A B} (c : completion A) (k : A -> completion B)
  : completion B :=
  match c with
  | Normal a => k a
  | Throw e => Throw e
  end.

Fixpoint lookup_prop (k : string) (ps : list (string * value)) : value :=
  match ps with
  | [] => VUndefined
  | (k', v) :: ps' => if String.eqb k k' then v else lookup_prop k ps'
  end.

(** [o.k]: reading a property of [undefined] throws a [TypeError]; a
    property that the object does not have reads as [undefined]. *)
Definition get (o : value) (k : string) : completion value :=
  match o with
  | VUndefined => Throw TypeError
  | VNumber _ => Normal VUndefined
  | VObject ps => Normal (lookup_prop k ps)
  end.

(** The number an arithmetic operand stands for; [undefined] and objects
    give NaN, which has no counterpart here. *)
Definition to_number (v : value) : option Q :=
  match v with
  | VNumber q => Some q
  | _ => None
  end.

(** [for (const x of xs) { ... push(f x) }] with a body that may throw. *)
Fixpoint for_of {A B} (f : A -> completion B) (xs : list A)
  : completion (list B) :=
  match xs with
  | [] => Normal []
  | x :: xs' =>
      bind (f x) (fun y => bind (for_of f xs') (fun ys => Normal (y :: ys)))
  end.

(** [Array.prototype.sort(cmp)].  The language fixes the result for a
    consistent comparator: the stable arrangement in which no element is
    followed by one that [cmp] puts before it.  [after a b] is
    [cmp(a, b) > 0].  Insertion from the right computes it. *)
Section Sort.
Context {A : Type} (after : A -> A -> bool).

Fixpoint sort_insert (x : A) (l : list A) : list A :=
  match l with
  | [] => [x]
  | y :: l' => if after x y then y :: sort_insert x l' else x :: y :: l'
  end.

Definition Array_sort (l : list A) : list A :=
  fold_right sort_insert [] l.
End Sort.

(** [xs.indexOf(x)] for an array of numbers ([-1] when absent). *)
Fixpoint indexOf (x : Q) (xs : list Q) : Z :=
  match xs with
  | [] => (-1)%Z
  | y :: xs' =>
      if eqb y x then 0%Z
      else let i := indexOf x xs' in
           if (i <? 0)%Z then (-1)%Z else (i + 1)%Z
  end.

(** [xs.filter((x, i, arr) => p x i arr)]. *)
Fixpoint filter_indexed_from {A} (p : A -> Z -> bool) (i : Z) (xs : list A)
  : list A :=
  match xs with
  | [] => []
  | x :: xs' =>
      if p x i then x :: filter_indexed_from p (i + 1)%Z xs'
      else filter_indexed_from p (i + 1)%Z xs'
  end.

Definition filter_indexed {A} (p : A -> Z -> list A -> bool) (xs : list A)
  : list A :=
  filter_indexed_from (fun x i => p x i xs) 0%Z xs.

(** [xs.forEach((x, i) => ...)] that rewrites each element in place. *)
Fixpoint map_indexed_from {A B} (f : A -> nat -> B) (i : nat) (xs : list A)
  : list B :=
  match xs with
  | [] => []
  | x :: xs' => f x i :: map_indexed_from f (S i) xs'
  end.

End JS.

Notation "'let!' x ':=' c 'in' k" := (JS.bind c (fun x => k))
  (at level 10, x name, c at level 100, k at level 200).

(** ** calcAggregate *)

Module CalcAggregate.
Import JS.

Record AggregateInput := {
  netScore : Q;
  hscPercentage : Q;
  sscPercentage : Q;
  useEquivalence : option bool;
  equivalencePercentage : option Q
}.

Record AggregateBreakdown := {
  netContribution : Q;
  hscContribution : Q;
  sscContribution : Q;
  equivalenceContribution : option Q;
  totalAggregate : Q;
  isOALevel : bool
}.

Record ValidationResult := {
  isValid : bool;
  errors : list string
}.

Record FscWeights := { FSC_NET : Q; FSC_HSC : Q; FSC_SSC : Q }.
Record OALevelWeights := { OA_NET : Q; OA_EQUIVALENCE : Q }.

Record AggregateConfig := {
  MAX_NET_SCORE : Q;
  WEIGHTS_FSC : FscWeights;
  WEIGHTS_OA_LEVEL : OALevelWeights;
  MIN_PERCENTAGE : Q;
  MAX_PERCENTAGE : Q
}.

Definition AGGREGATE_CONFIG : AggregateConfig := {|
  MAX_NET_SCORE := 200;
  WEIGHTS_FSC := {| FSC_NET := 75 # 100; FSC_HSC := 15 # 100; FSC_SSC := 10 # 100 |};
  WEIGHTS_OA_LEVEL := {| OA_NET := 75 # 100; OA_EQUIVALENCE := 25 # 100 |};
  MIN_PERCENTAGE := 0;
  MAX_PERCENTAGE := 100
|}.

(** The same object as other modules see it when they import it: its own
    properties by name, and nothing else. *)
Definition AGGREGATE_CONFIG_object : value :=
  let c := AGGREGATE_CONFIG in
  VObject [
    ("MAX_NET_SCORE"%string, VNumber (MAX_NET_SCORE c));
    ("WEIGHTS_FSC"%string, VObject [
       ("NET"%string, VNumber (FSC_NET (WEIGHTS_FSC c)));
       ("HSC"%string, VNumber (FSC_HSC (WEIGHTS_FSC c)));
       ("SSC"%string, VNumber (FSC_SSC (WEIGHTS_FSC c)))]);
    ("WEIGHTS_OA_LEVEL"%string, VObject [
       ("NET"%string, VNumber (OA_NET (WEIGHTS_OA_LEVEL c)));
       ("EQUIVALENCE"%string, VNumber (OA_EQUIVALENCE (WEIGHTS_OA_LEVEL c)))]);
    ("MIN_PERCENTAGE"%string, VNumber (MIN_PERCENTAGE c));
    ("MAX_PERCENTAGE"%string, VNumber (MAX_PERCENTAGE c))
  ].

(** [errors.push(msg)] under a condition. *)
Definition push_if (c : bool) (msg : string) (errs : list string)
  : list string :=
  if c then errs ++ [msg] else errs.

Definition validateAggregateInput (input : AggregateInput)
  : ValidationResult :=
  let errs := [] in
  let errs := push_if (ltb (netScore input) 0)
                "NET score cannot be negative" errs in
  let errs := push_if (gtb (netScore input) (MAX_NET_SCORE AGGREGATE_CONFIG))
                "NET score cannot exceed 200" errs in
  let errs :=
    if truthy_bool (useEquivalence input) then
      match equivalencePercentage input with
      | None =>
          push_if true
            "Equivalence percentage is required for O/A Level students" errs
      | Some e =>
          let errs := push_if (ltb e (MIN_PERCENTAGE AGGREGATE_CONFIG))
                        "Equivalence percentage cannot be negative" errs in
          push_if (gtb e (MAX_PERCENTAGE AGGREGATE_CONFIG))
            "Equivalence percentage cannot exceed 100%" errs
      end
    else
      let errs := push_if (ltb (hscPercentage input) (MIN_PERCENTAGE AGGREGATE_CONFIG))
                    "HSC/FSc percentage cannot be negative" errs in
      let errs := push_if (gtb (hscPercentage input) (MAX_PERCENTAGE AGGREGATE_CONFIG))
                    "HSC/FSc percentage cannot exceed 100%" errs in
      let errs := push_if (ltb (sscPercentage input) (MIN_PERCENTAGE AGGREGATE_CONFIG))
                    "SSC/Matric percentage cannot be negative" errs in
      push_if (gtb (sscPercentage input) (MAX_PERCENTAGE AGGREGATE_CONFIG))
        "SSC/Matric percentage cannot exceed 100%" errs
  in
  {| isValid := Nat.eqb (List.length errs) 0; errors := errs |}.

Definition netScoreToPercentage (netScore : Q) : Q :=
  (netScore / MAX_NET_SCORE AGGREGATE_CONFIG) * 100.

(** The local constants of [calculateAggregate], before any rounding:
    which formula ran, the weighted terms and their sum. *)
Record RawTerms := {
  raw_isOALevel : bool;
  raw_net : Q;
  raw_hsc : Q;
  raw_ssc : Q;
  raw_equivalence : option Q;
  raw_total : Q
}.

Definition calculateAggregate_terms (input : AggregateInput) : RawTerms :=
  let netPercentage := netScoreToPercentage (netScore input) in
  match truthy_bool (useEquivalence input), equivalencePercentage input with
  | true, Some eqv =>
      let w := WEIGHTS_OA_LEVEL AGGREGATE_CONFIG in
      let netContribution := netPercentage * OA_NET w in
      let equivalenceContribution := eqv * OA_EQUIVALENCE w in
      let totalAggregate := netContribution + equivalenceContribution in
      {| raw_isOALevel := true;
         raw_net := netContribution;
         raw_hsc := 0;
         raw_ssc := 0;
         raw_equivalence := Some equivalenceContribution;
         raw_total := totalAggregate |}
  | _, _ =>
      let w := WEIGHTS_FSC AGGREGATE_CONFIG in
      let netContribution := netPercentage * FSC_NET w in
      let hscContribution := hscPercentage input * FSC_HSC w in
      let sscContribution := sscPercentage input * FSC_SSC w in
      let totalAggregate := netContribution + hscContribution + sscContribution in
      {| raw_isOALevel := false;
         raw_net := netContribution;
         raw_hsc := hscContribution;
         raw_ssc := sscContribution;
         raw_equivalence := None;
         raw_total := totalAggregate |}
  end.

(** The returned record: every term rounded on its own, the total rounded
    from the unrounded sum.  In the O/A Level branch the two school terms
    are the literal [0]. *)
Definition calculateAggregate (input : AggregateInput) : AggregateBreakdown :=
  let t := calculateAggregate_terms input in
  {| netContribution := toFixed2 (raw_net t);
     hscContribution := if raw_isOALevel t then 0 else toFixed2 (raw_hsc t);
     sscContribution := if raw_isOALevel t then 0 else toFixed2 (raw_ssc t);
     equivalenceContribution := option_map toFixed2 (raw_equivalence t);
     totalAggregate := toFixed2 (raw_total t);
     isOALevel := raw_isOALevel t |}.

Record RequiredNetScore := {
  requiredNetScore : Q;
  requiredNetPercentage : Q;
  achievable : bool
}.

(** [useEquivalence] has the default [false], so it is a plain boolean
    here; the last parameter may be left out. *)
Definition calculateRequiredNetScore
    (targetAggregate hscPercentage sscPercentage : Q)
    (useEquivalence : bool) (equivalencePercentage : option Q)
  : RequiredNetScore :=
  let c := AGGREGATE_CONFIG in
  let requiredNetPercentage :=
    match useEquivalence, equivalencePercentage with
    | true, Some eqv =>
        let equivalenceContribution := eqv * OA_EQUIVALENCE (WEIGHTS_OA_LEVEL c) in
        (targetAggregate - equivalenceContribution) / OA_NET (WEIGHTS_OA_LEVEL c)
    | _, _ =>
        let hscContribution := hscPercentage * FSC_HSC (WEIGHTS_FSC c) in
        let sscContribution := sscPercentage * FSC_SSC (WEIGHTS_FSC c) in
        (targetAggregate - hscContribution - sscContribution) / FSC_NET (WEIGHTS_FSC c)
    end in
  let requiredNetScore := (requiredNetPercentage / 100) * MAX_NET_SCORE c in
  let achievable :=
    geb requiredNetScore 0 && leb requiredNetScore (MAX_NET_SCORE c) in
  {| requiredNetScore :=
       Math_max 0 (Math_min (MAX_NET_SCORE c) (Math_ceil requiredNetScore));
     requiredNetPercentage :=
       toFixed2 (Math_max 0 (Math_min 100 requiredNetPercentage));
     achievable := achievable |}.

End CalcAggregate.

(** ** chancePredictor *)

Module ChancePredictor.
Import JS.

Inductive ChanceCategory : Type :=
| HighChance
| MediumChance
| LowChance
| VeryLowChance.

Record PredictionInput := {
  userAggregate : Q;
  programId : string;
  programName : string;
  lastYearClosingAggregate : nullable Q;
  lastYearClosingPosition : nullable Q;
  averageClosingAggregate : nullable Q
}.

Record PredictionMetadata := {
  md_userAggregate : Q;
  md_lastYearClosingAggregate : option Q;
  md_difference : option Q;
  dataAvailable : bool
}.

Record PredictionResult := {
  chancePercentage : Q;
  category : ChanceCategory;
  categoryColor : string;
  tips : list string;
  metadata : PredictionMetadata
}.

Record Thresholds := {
  HIGH_ABOVE : Q;
  MEDIUM_HIGH_ABOVE : Q;
  MEDIUM_BELOW : Q;
  LOW_BELOW : Q
}.

Record Range := { r_min : Q; r_max : Q }.

Record ChanceRanges := {
  HIGH : Range;
  MEDIUM_HIGH : Range;
  MEDIUM : Range;
  LOW : Range;
  VERY_LOW : Range
}.

Record PredictionConfig := {
  THRESHOLDS : Thresholds;
  CHANCE_RANGES : ChanceRanges;
  SAFETY_MARGIN : Q
}.

Definition PREDICTION_CONFIG : PredictionConfig := {|
  THRESHOLDS := {|
    HIGH_ABOVE := 2;
    MEDIUM_HIGH_ABOVE := 0;
    MEDIUM_BELOW := -1;
    LOW_BELOW := -3 |};
  CHANCE_RANGES := {|
    HIGH := {| r_min := 80; r_max := 95 |};
    MEDIUM_HIGH := {| r_min := 60; r_max := 79 |};
    MEDIUM := {| r_min := 40; r_max := 59 |};
    LOW := {| r_min := 15; r_max := 39 |};
    VERY_LOW := {| r_min := 5; r_max := 14 |} |};
  SAFETY_MARGIN := 2
|}.

Definition calculateChanceFromDifference (difference : Q)
  : ChanceCategory * Q :=
  let T := THRESHOLDS PREDICTION_CONFIG in
  let R := CHANCE_RANGES PREDICTION_CONFIG in
  if geb difference (HIGH_ABOVE T) then
    let range := HIGH R in
    let chancePercentage :=
      Math_min (r_max range)
               (r_min range + (difference - HIGH_ABOVE T) * 3) in
    (HighChance, Math_round chancePercentage)
  else if geb difference (MEDIUM_HIGH_ABOVE T) then
    let range := MEDIUM_HIGH R in
    let factor :=
      (difference - MEDIUM_HIGH_ABOVE T) / (HIGH_ABOVE T - MEDIUM_HIGH_ABOVE T) in
    let chancePercentage := r_min range + (r_max range - r_min range) * factor in
    (MediumChance, Math_round chancePercentage)
  else if geb difference (MEDIUM_BELOW T) then
    let range := MEDIUM R in
    let factor :=
      (difference - MEDIUM_BELOW T) / (MEDIUM_HIGH_ABOVE T - MEDIUM_BELOW T) in
    let chancePercentage := r_min range + (r_max range - r_min range) * factor in
    (MediumChance, Math_round chancePercentage)
  else if geb difference (LOW_BELOW T) then
    let range := LOW R in
    let factor :=
      (difference - LOW_BELOW T) / (MEDIUM_BELOW T - LOW_BELOW T) in
    let chancePercentage := r_min range + (r_max range - r_min range) * factor in
    (LowChance, Math_round chancePercentage)
  else
    let range := VERY_LOW R in
    let chancePercentage :=
      Math_max (r_min range)
               (r_max range + (difference - LOW_BELOW T) * 2) in
    (VeryLowChance, Math_round chancePercentage).

Definition getCategoryColor (category : ChanceCategory) : string :=
  match category with
  | HighChance => "text-green-600 bg-green-100"
  | MediumChance => "text-amber-600 bg-amber-100"
  | LowChance => "text-orange-600 bg-orange-100"
  | VeryLowChance => "text-red-600 bg-red-100"
  end.

Definition createNoDataPrediction (userAggregate : Q) (programName : string)
  : PredictionResult :=
  {| chancePercentage := 50;
     category := MediumChance;
     categoryColor := getCategoryColor MediumChance;
     tips := [
       "Check official NUST announcements for previous year closing merits";
       "Consider this program as a moderate-risk option in your preferences";
       "Keep improving your NET score to increase your chances"
     ]%string;
     metadata := {|
       md_userAggregate := userAggregate;
       md_lastYearClosingAggregate := None;
       md_difference := None;
       dataAvailable := false |} |}.

Definition generateTips (category : ChanceCategory) (difference userAggregate : Q)
  : list string :=
  let tips :=
    match category with
    | HighChance => [
        "Keep this program high in your preference list";
        "You may also qualify for more competitive programs";
        "Stay prepared for document verification" ]
    | MediumChance => [
        "Include this program in your middle preferences";
        "Have backup options with lower cutoffs";
        "Monitor merit list releases carefully" ]
    | LowChance => [
        "Consider this as a reach/stretch option";
        "Prioritize programs with lower closing merits";
        "Look at alternative campuses for similar programs" ]
    | VeryLowChance => [
        "Strongly consider alternative programs";
        "Check programs at other NUST campuses";
        "Consider retaking NET if possible" ]
    end%string in
  if ltb userAggregate 60
  then tips ++ ["Focus on programs with historically lower cutoffs"%string]
  else tips.

(** The reference the prediction is made against:
    [lastYearClosingAggregate ?? averageClosingAggregate ?? null]. *)
Definition referenceAggregate (input : PredictionInput) : nullable Q :=
  coalesce (coalesce (lastYearClosingAggregate input)
                     (averageClosingAggregate input))
           Null.

(** The body of [predictChance] once a reference is at hand. *)
Definition predictAgainst (userAggregate referenceAggregate : Q)
  : PredictionResult :=
  let difference := userAggregate - referenceAggregate in
  let '(category, chancePercentage) := calculateChanceFromDifference difference in
  let tips := generateTips category difference userAggregate in
  {| chancePercentage := chancePercentage;
     category := category;
     categoryColor := getCategoryColor category;
     tips := tips;
     metadata := {|
       md_userAggregate := userAggregate;
       md_lastYearClosingAggregate := Some referenceAggregate;
       md_difference := Some difference;
       dataAvailable := true |} |}.

(** The test is [referenceAggregate === null]; the trailing [?? null] has
    already turned [undefined] into [null], so the third case below never
    runs. *)
Definition predictChance (input : PredictionInput) : PredictionResult :=
  match referenceAggregate input with
  | Null => createNoDataPrediction (userAggregate input) (programName input)
  | Val reference => predictAgainst (userAggregate input) reference
  | Undefined => createNoDataPrediction (userAggregate input) (programName input)
  end.

(** The value of [x / y] where [y] may be zero: a number, an infinity, or
    NaN for [0 / 0]. *)
Inductive quotient : Type :=
| Finite : Q -> quotient
| PlusInfinity : quotient
| MinusInfinity : quotient
| NotANumber : quotient.

Definition divide (x y : Q) : quotient :=
  if eqb y 0 then
    if eqb x 0 then NotANumber
    else if ltb x 0 then MinusInfinity
    else PlusInfinity
  else Finite (x / y).

(** [None] is NaN, which comes out of [0 / 0] unchanged.  With
    [Infinity] for the ratio, [Math.min(ratio, 2)] is [2]; with
    [-Infinity] it stays [-Infinity], the estimate [90 - ratio * 20] is
    [Infinity] and [Math.min(95, estimate)] is [95]. *)
Definition estimateAggregateFromPosition (meritPosition programTotalSeats : Q)
  : option Q :=
  match divide meritPosition programTotalSeats with
  | Finite ratio =>
      let positionRatio := Math_min ratio 2 in
      let estimatedAggregate := 90 - (positionRatio * 20) in
      Some (Math_max 50 (Math_min 95 estimatedAggregate))
  | PlusInfinity =>
      let positionRatio := 2 in
      let estimatedAggregate := 90 - (positionRatio * 20) in
      Some (Math_max 50 (Math_min 95 estimatedAggregate))
  | MinusInfinity => Some (Math_max 50 95)
  | NotANumber => None
  end.


End ChancePredictor.

(** ** meritListPredictor *)

Module MeritListPredictor.
Import JS.

Record MeritListThreshold := {
  meritListNumber : Z;
  closingAggregate : option Q;
  closingPosition : option Q
}.

Record MeritListPredictionInput := {
  userAggregate : Q;
  programId : string;
  programName : string;
  thresholds : list MeritListThreshold
}.

Inductive Confidence : Type :=
| High
| Medium
| Low.

Record MeritListPredictionResult := {
  predictedList : option Z;
  confidence : Confidence;
  confidenceColor : string;
  alternatives : list Z;
  isEstimate : bool
}.

Record ConfidenceThresholds := { CT_HIGH : Q; CT_MEDIUM : Q; CT_LOW : Q }.

Record MeritListConfig := {
  MAX_LISTS : Z;
  CONFIDENCE_THRESHOLDS : ConfidenceThresholds;
  DEFAULT_AGGREGATE_DROP_PER_LIST : Q
}.

Definition MERIT_LIST_CONFIG : MeritListConfig := {|
  MAX_LISTS := 8;
  CONFIDENCE_THRESHOLDS := {| CT_HIGH := 2; CT_MEDIUM := 0; CT_LOW := -2 |};
  DEFAULT_AGGREGATE_DROP_PER_LIST := 15 # 10
|}.

Definition getConfidence (difference : Q) : Confidence :=
  let T := CONFIDENCE_THRESHOLDS MERIT_LIST_CONFIG in
  if geb difference (CT_HIGH T) then High
  else if geb difference (CT_MEDIUM T) then Medium
  else Low.

Definition getConfidenceColor (confidence : Confidence) : string :=
  match confidence with
  | High => "text-green-600 bg-green-100"
  | Medium => "text-amber-600 bg-amber-100"
  | Low => "text-red-600 bg-red-100"
  end.

Definition createNoDataPrediction (userAggregate : Q) (programName : string)
  : MeritListPredictionResult :=
  let estimatedList : option Z :=
    if geb userAggregate 80 then Some 1%Z
    else if geb userAggregate 75 then Some 2%Z
    else if geb userAggregate 70 then Some 4%Z
    else if geb userAggregate 65 then Some 6%Z
    else None in
  {| predictedList := estimatedList;
     confidence := Low;
     confidenceColor := getConfidenceColor Low;
     alternatives :=
       match estimatedList with
       | Some e =>
           if (e =? 0)%Z then []
           else List.filter (fun n => (n <=? 8)%Z) [(e + 1)%Z; (e + 2)%Z]
       | None => []
       end;
     isEstimate := true |}.

(** The variables the scan over the sorted thresholds updates.
    [closestDifference] starts at [Infinity], which is [None] here. *)
Record ScanState := {
  st_predictedList : option Z;
  st_confidence : Confidence;
  st_alternatives : list Z;
  st_closestDifference : option Q
}.

Definition initialScan : ScanState := {|
  st_predictedList := None;
  st_confidence := Low;
  st_alternatives := [];
  st_closestDifference := None
|}.

(** [x < closestDifference]. *)
Definition below_closest (x : Q) (closest : option Q) : bool :=
  match closest with
  | None => true
  | Some c => ltb x c
  end.

(** One turn of the [for ... of sortedThresholds] loop. *)
Definition scanThreshold (userAggregate : Q) (st : ScanState)
    (threshold : MeritListThreshold) : ScanState :=
  match closingAggregate threshold with
  | None => st
  | Some closing =>
      let difference := userAggregate - closing in
      if geb difference 0 then
        match st_predictedList st with
        | None =>
            {| st_predictedList := Some (meritListNumber threshold);
               st_confidence := getConfidence difference;
               st_alternatives := st_alternatives st;
               st_closestDifference := Some difference |}
        | Some previous =>
            if below_closest (Math_abs difference) (st_closestDifference st) then
              {| st_predictedList := Some (meritListNumber threshold);
                 st_confidence := getConfidence difference;
                 st_alternatives := st_alternatives st ++ [previous];
                 st_closestDifference := Some difference |}
            else
              {| st_predictedList := st_predictedList st;
                 st_confidence := st_confidence st;
                 st_alternatives :=
                   st_alternatives st ++ [meritListNumber threshold];
                 st_closestDifference := st_closestDifference st |}
        end
      else
        match st_predictedList st with
        | None =>
            if ltb (Math_abs difference) 3 then
              {| st_predictedList := st_predictedList st;
                 st_confidence := st_confidence st;
                 st_alternatives :=
                   st_alternatives st ++ [meritListNumber threshold];
                 st_closestDifference := st_closestDifference st |}
            else st
        | Some _ => st
        end
  end.

(** [(a, b) => a.meritListNumber - b.meritListNumber] is positive. *)
Definition byListNumber (a b : MeritListThreshold) : bool :=
  (0 <? meritListNumber a - meritListNumber b)%Z.

Definition predictMeritList (input : MeritListPredictionInput)
  : MeritListPredictionResult :=
  match thresholds input with
  | [] => createNoDataPrediction (userAggregate input) (programName input)
  | _ :: _ =>
      let sortedThresholds := Array_sort byListNumber (thresholds input) in
      let st :=
        fold_left (scanThreshold (userAggregate input)) sortedThresholds
                  initialScan in
      {| predictedList := st_predictedList st;
         confidence := st_confidence st;
         confidenceColor := getConfidenceColor (st_confidence st);
         alternatives := firstn 2 (st_alternatives st);
         isEstimate := false |}
  end.

(** [for (let i = 1; i <= numLists; i++)]: the values [i] takes. *)
Definition listNumbers (numLists : Z) : list Z :=
  List.map (fun k => Z.of_nat k) (seq 1 (Z.to_nat numLists)).

Definition generateEstimatedThresholds (baseAggregate : Q) (numLists : Z)
  : list MeritListThreshold :=
  List.map
    (fun i =>
       {| meritListNumber := i;
          closingAggregate :=
            Some (Math_max 50
                    (baseAggregate
                     - inject_Z (i - 1)
                       * DEFAULT_AGGREGATE_DROP_PER_LIST MERIT_LIST_CONFIG));
          closingPosition := None |})
    (listNumbers numLists).

(** The default of the second parameter. *)
Definition DEFAULT_NUM_LISTS : Z := 8.

(** [String(n)] for an integer that a number holds exactly and prints in
    plain digits (below [2^53] in magnitude). *)
Definition numberToString (n : Z) : string :=
  NilZero.string_of_int (Z.to_int n).

(** [arr[i]] for a numeric index: [undefined] outside the array. *)
Definition elementAt (arr : list string) (i : Z) : option string :=
  if (i <? 0)%Z then None else nth_error arr (Z.to_nat i).

(** [a || b] where [a] is a string or [undefined]: the empty string is
    falsy too. *)
Definition orElse (a : option string) (b : string) : string :=
  match a with
  | Some EmptyString => b
  | Some s => s
  | None => b
  end.

(** The suffix [getOrdinal] appends; [%] is the remainder with the sign of
    the dividend, and [suffixes[0]] is the last resort. *)
Definition ordinalSuffix (n : Z) : string :=
  let suffixes := ["th"; "st"; "nd"; "rd"]%string in
  let v := Z.rem n 100 in
  orElse (elementAt suffixes (Z.rem (v - 20) 10))
         (orElse (elementAt suffixes v)
                 (match elementAt suffixes 0 with
                  | Some s => s
                  | None => "undefined"
                  end)).

Definition getOrdinal (n : Z) : string :=
  (numberToString n ++ ordinalSuffix n)%string.

Definition predictMeritListBatch (userAggregate : Q)
    (programs : list (string * string * list MeritListThreshold))
  : list (string * string * MeritListPredictionResult) :=
  List.map
    (fun program =>
       let '(pid, pname, ts) := program in
       (pid, pname,
        predictMeritList {| userAggregate := userAggregate;
                            programId := pid;
                            programName := pname;
                            thresholds := ts |}))
    programs.


(** The alternatives collected so far are list numbers of [seen], and none
    of them is the current prediction. *)
Definition alternativesSoFar (seen : list MeritListThreshold) (st : ScanState)
  : Prop :=
  (forall n : Z, In n (st_alternatives st) ->
                 In n (List.map meritListNumber seen)) /\
  (forall p : Z, st_predictedList st = Some p ->
                 In p (List.map meritListNumber seen) /\
                 ~ In p (st_alternatives st)).

End MeritListPredictor.

(** ** netScoreRecommender *)

Module NetScoreRecommender.
Import JS.
Import CalcAggregate.

Record NetScoreRecommendationInput := {
  programName : string;
  lastYearClosingAggregate : Q;
  hscPercentage : Q;
  sscPercentage : Q;
  useEquivalence : option bool;
  equivalencePercentage : option Q
}.

Inductive Achievability : Type :=
| Easy
| Moderate
| Challenging
| VeryChallenging
| NotAchievable.

(** [resultingAggregate] is [None] where the arithmetic yields NaN. *)
Record NetScoreScenario := {
  sc_netScore : Q;
  resultingAggregate : option Q;
  chanceCategory : string;
  description : string
}.

Record NetScoreRecommendation := {
  minimumNetScore : Q;
  recommendedNetScore : Q;
  targetNetScore : Q;
  maxNetScore : Q;
  achievability : Achievability;
  achievabilityColor : string;
  scenarios : list NetScoreScenario
}.

Record Margins := { MINIMUM : Q; RECOMMENDED : Q; TARGET : Q }.

Record AchievabilityCutoffs := {
  EASY : Q;
  MODERATE : Q;
  CHALLENGING : Q;
  VERY_CHALLENGING : Q
}.

Record NetRecommenderConfig := {
  MARGINS : Margins;
  ACHIEVABILITY : AchievabilityCutoffs
}.

Definition NET_RECOMMENDER_CONFIG : NetRecommenderConfig := {|
  MARGINS := {| MINIMUM := -1; RECOMMENDED := 1; TARGET := 3 |};
  ACHIEVABILITY := {|
    EASY := 120;
    MODERATE := 150;
    CHALLENGING := 175;
    VERY_CHALLENGING := 190 |}
|}.

Definition getAchievability (requiredScore : Q) : Achievability :=
  let A := ACHIEVABILITY NET_RECOMMENDER_CONFIG in
  let maxScore := MAX_NET_SCORE AGGREGATE_CONFIG in
  if gtb requiredScore maxScore then NotAchievable
  else if leb requiredScore (EASY A) then Easy
  else if leb requiredScore (MODERATE A) then Moderate
  else if leb requiredScore (CHALLENGING A) then Challenging
  else if leb requiredScore (VERY_CHALLENGING A) then VeryChallenging
  else VeryChallenging.

Definition getAchievabilityColor (a : Achievability) : string :=
  match a with
  | Easy => "text-green-600 bg-green-100"
  | Moderate => "text-blue-600 bg-blue-100"
  | Challenging => "text-amber-600 bg-amber-100"
  | VeryChallenging => "text-orange-600 bg-orange-100"
  | NotAchievable => "text-red-600 bg-red-100"
  end.

(** [x * v] where [v] was read from an object: NaN unless [v] is a
    number. *)
Definition times (x : Q) (v : value) : option Q :=
  option_map (fun w => x * w) (to_number v).

Definition plus_nan (a b : option Q) : option Q :=
  match a, b with
  | Some x, Some y => Some (x + y)
  | _, _ => None
  end.

(** The NET scores the scenario table is drawn at, duplicates dropped by
    [arr.indexOf(score) === index]. *)
Definition scorePoints (recommendedScore : Q) : list Q :=
  let MAX := MAX_NET_SCORE AGGREGATE_CONFIG in
  filter_indexed
    (fun score index arr => (indexOf score arr =? index)%Z)
    [ Math_max 80 (recommendedScore - 30);
      Math_max 100 (recommendedScore - 15);
      recommendedScore;
      Math_min MAX (recommendedScore + 15);
      Math_min MAX (recommendedScore + 30) ].

(** The body of the loop of [generateScenarios] for one NET score;
    [WEIGHTS] is what the destructuring bound. *)
Definition scenarioAt (WEIGHTS : value) (hscPercentage sscPercentage
    closingAggregate netScore : Q) : completion NetScoreScenario :=
  let netPercentage := (netScore / MAX_NET_SCORE AGGREGATE_CONFIG) * 100 in
  let! wNET := get WEIGHTS "NET" in
  let! wHSC := get WEIGHTS "HSC" in
  let! wSSC := get WEIGHTS "SSC" in
  let aggregate :=
    plus_nan (plus_nan (times netPercentage wNET) (times hscPercentage wHSC))
             (times sscPercentage wSSC) in
  let diff := option_map (fun a => a - closingAggregate) aggregate in
  let ge (k : Q) := match diff with Some d => geb d k | None => false end in
  let '(chanceCategory, description) :=
    if ge 2 then ("High Chance", "Strong position for admission")
    else if ge 0 then ("Medium Chance", "Competitive, good chance")
    else if ge (-2) then ("Low Chance", "Below cutoff, risky")
    else ("Very Low Chance", "Significantly below cutoff") in
  Normal {| sc_netScore := netScore;
            resultingAggregate := option_map toFixed2 aggregate;
            chanceCategory := chanceCategory;
            description := description |}.

(** [const { MAX_NET_SCORE, WEIGHTS } = AGGREGATE_CONFIG]: the first name is
    a property of the imported object, the second is looked up by name at
    run time like any other. *)
Definition generateScenarios (hscPercentage sscPercentage closingAggregate
    recommendedScore : Q) : completion (list NetScoreScenario) :=
  let! WEIGHTS := get AGGREGATE_CONFIG_object "WEIGHTS" in
  for_of (scenarioAt WEIGHTS hscPercentage sscPercentage closingAggregate)
         (scorePoints recommendedScore).

Definition getNetScoreRecommendation (input : NetScoreRecommendationInput)
  : completion NetScoreRecommendation :=
  let effectiveHsc :=
    match truthy_bool (useEquivalence input), equivalencePercentage input with
    | true, Some e => e
    | _, _ => hscPercentage input
    end in
  let M := MARGINS NET_RECOMMENDER_CONFIG in
  let minimumTarget := lastYearClosingAggregate input + MINIMUM M in
  let recommendedTarget := lastYearClosingAggregate input + RECOMMENDED M in
  let highTarget := lastYearClosingAggregate input + TARGET M in
  let minimumResult :=
    calculateRequiredNetScore minimumTarget effectiveHsc (sscPercentage input)
                              false None in
  let recommendedResult :=
    calculateRequiredNetScore recommendedTarget effectiveHsc (sscPercentage input)
                              false None in
  let targetResult :=
    calculateRequiredNetScore highTarget effectiveHsc (sscPercentage input)
                              false None in
  let achievability := getAchievability (requiredNetScore recommendedResult) in
  let achievabilityColor := getAchievabilityColor achievability in
  let! scenarios :=
    generateScenarios effectiveHsc (sscPercentage input)
                      (lastYearClosingAggregate input)
                      (requiredNetScore recommendedResult) in
  Normal {| minimumNetScore := requiredNetScore minimumResult;
            recommendedNetScore := requiredNetScore recommendedResult;
            targetNetScore := requiredNetScore targetResult;
            maxNetScore := MAX_NET_SCORE AGGREGATE_CONFIG;
            achievability := achievability;
            achievabilityColor := achievabilityColor;
            scenarios := scenarios |}.

Definition getNetForTargetAggregate (targetAggregate hscPercentage
    sscPercentage : Q) : Q :=
  requiredNetScore
    (calculateRequiredNetScore targetAggregate hscPercentage sscPercentage
                               false None).

Record ProgramAchievable := {
  pa_achievable : bool;
  maxPossibleAggregate : option Q;
  gap : option Q
}.

Definition isProgramAchievable (closingAggregate hscPercentage sscPercentage : Q)
  : completion ProgramAchievable :=
  let! WEIGHTS := get AGGREGATE_CONFIG_object "WEIGHTS" in
  let maxNetPercentage := 100 in
  let! wNET := get WEIGHTS "NET" in
  let! wHSC := get WEIGHTS "HSC" in
  let! wSSC := get WEIGHTS "SSC" in
  let maxAggregate :=
    plus_nan (plus_nan (times maxNetPercentage wNET) (times hscPercentage wHSC))
             (times sscPercentage wSSC) in
  let gap := option_map (fun m => closingAggregate - m) maxAggregate in
  Normal {| pa_achievable :=
              match gap with Some g => leb g 0 | None => false end;
            maxPossibleAggregate := option_map toFixed2 maxAggregate;
            gap := option_map (fun g => toFixed2 (Math_max 0 g)) gap |}.

End NetScoreRecommender.

(** ** preferenceGenerator *)

Module PreferenceGenerator.
Import JS.

Inductive RiskCategory : Type :=
| Safe
| Moderate
| Ambitious.

Record ProgramOption := {
  programId : string;
  programName : string;
  campus : string;
  school : string;
  disciplineGroup : string;
  lastYearClosingAggregate : option Q;
  seats : nullable Q
}.

Inductive RiskTolerance : Type :=
| Conservative
| ModerateTolerance
| Aggressive.

Record UserInterests := {
  disciplineScores : gmap string Q;
  preferredCampuses : list string;
  riskTolerance : RiskTolerance
}.

Record PreferenceItem := {
  rank : nat;
  program : ProgramOption;
  riskCategory : RiskCategory;
  riskColor : string;
  chancePercentage : Q;
  predictedMeritList : option Z;
  interestScore : Q;
  overallScore : Q
}.

Record ByRisk := {
  safe : list PreferenceItem;
  moderate : list PreferenceItem;
  ambitious : list PreferenceItem
}.

Record Summary := {
  totalPrograms : nat;
  safeCount : nat;
  moderateCount : nat;
  ambitiousCount : nat;
  averageChance : Q
}.

Record PreferenceListResult := {
  rankedList : list PreferenceItem;
  byRisk : ByRisk;
  summary : Summary;
  recommendations : list string
}.

Record RiskThresholds := { RT_SAFE : Q; RT_MODERATE : Q }.

Record ScoringWeights := {
  CHANCE : Q;
  INTEREST : Q;
  CAMPUS_PREF : Q;
  MERIT_LIST : Q
}.

Record Mix := { mix_safe : Q; mix_moderate : Q; mix_ambitious : Q }.

Record PreferenceConfig := {
  RISK_THRESHOLDS : RiskThresholds;
  SCORING_WEIGHTS : ScoringWeights;
  RECOMMENDED_MIX : RiskTolerance -> Mix
}.

Definition PREFERENCE_CONFIG : PreferenceConfig := {|
  RISK_THRESHOLDS := {| RT_SAFE := 70; RT_MODERATE := 40 |};
  SCORING_WEIGHTS := {|
    CHANCE := 4 # 10;
    INTEREST := 35 # 100;
    CAMPUS_PREF := 15 # 100;
    MERIT_LIST := 10 # 100 |};
  RECOMMENDED_MIX := fun t =>
    match t with
    | Conservative =>
        {| mix_safe := 6 # 10; mix_moderate := 3 # 10; mix_ambitious := 1 # 10 |}
    | ModerateTolerance =>
        {| mix_safe := 4 # 10; mix_moderate := 4 # 10; mix_ambitious := 2 # 10 |}
    | Aggressive =>
        {| mix_safe := 2 # 10; mix_moderate := 4 # 10; mix_ambitious := 4 # 10 |}
    end
|}.

(** A count or an index as a number. *)
Definition of_nat (n : nat) : Q := inject_Z (Z.of_nat n).

(** [disciplineScores[group] || 3]: a missing entry and a [0] both give
    the neutral [3]. *)
Definition getInterestScore (program : ProgramOption) (interests : UserInterests)
  : Q :=
  let disciplineScore :=
    match disciplineScores interests !! disciplineGroup program with
    | Some v => if eqb v 0 then 3 else v
    | None => 3
    end in
  (disciplineScore / 5) * 100.

(** [preferredCampuses.indexOf(campus)], [None] for [-1]. *)
Fixpoint indexOfString (s : string) (l : list string) : option nat :=
  match l with
  | [] => None
  | x :: l' =>
      if String.eqb x s then Some O
      else option_map S (indexOfString s l')
  end.

Definition getCampusPreferenceScore (campus : string)
    (preferredCampuses : list string) : Q :=
  match indexOfString campus preferredCampuses with
  | None => 50
  | Some index => Math_max 10 (100 - (of_nat index * 15))
  end.

Definition getMeritListScore (predictedList : option Z) : Q :=
  match predictedList with
  | None => 20
  | Some l => Math_max 10 (100 - ((inject_Z l - 1) * 12))
  end.

Definition calculateOverallScore (chancePercentage interestScore campusScore
    meritListScore : Q) : Q :=
  let W := SCORING_WEIGHTS PREFERENCE_CONFIG in
  chancePercentage * CHANCE W
  + interestScore * INTEREST W
  + campusScore * CAMPUS_PREF W
  + meritListScore * MERIT_LIST W.

Definition getRiskCategory (chancePercentage : Q) : RiskCategory :=
  let T := RISK_THRESHOLDS PREFERENCE_CONFIG in
  if geb chancePercentage (RT_SAFE T) then Safe
  else if geb chancePercentage (RT_MODERATE T) then Moderate
  else Ambitious.

Definition getRiskColor (category : RiskCategory) : string :=
  match category with
  | Safe => "text-green-600 bg-green-100 border-green-200"
  | Moderate => "text-amber-600 bg-amber-100 border-amber-200"
  | Ambitious => "text-red-600 bg-red-100 border-red-200"
  end.

(** The [summary] argument of [generateRecommendations] is the summary
    record; only its counts are read. *)
Definition generateRecommendations (summary : Summary)
    (riskTolerance : RiskTolerance) : list string :=
  let recommended := RECOMMENDED_MIX PREFERENCE_CONFIG riskTolerance in
  let safeRatio := of_nat (safeCount summary) / of_nat (totalPrograms summary) in
  let ambitiousRatio :=
    of_nat (ambitiousCount summary) / of_nat (totalPrograms summary) in
  let push (c : bool) (msg : string) (l : list string) :=
    if c then l ++ [msg] else l in
  let recs := [] in
  let recs := push (ltb safeRatio (mix_safe recommended - (1 # 10)))
    "Consider adding more safe options to your list for better security."
    recs in
  let recs := push (Nat.eqb (safeCount summary) 0)
    "⚠️ You have no safe options. Strongly consider adding programs with high admission chances."
    recs in
  let recs := push (gtb ambitiousRatio (mix_ambitious recommended + (2 # 10)))
    "Your list is heavy on ambitious choices. This is risky - ensure you have backups."
    recs in
  let recs := push (Nat.ltb (totalPrograms summary) 5)
    "Consider adding more program options to increase your chances of admission."
    recs in
  let recs := push (Nat.ltb 15 (totalPrograms summary))
    "You have many options selected. Focus on your top 10-12 preferences."
    recs in
  push (Nat.eqb (List.length recs) 0)
    "Your preference list has a good balance of safe, moderate, and ambitious choices."
    recs.

Definition createEmptyResult : PreferenceListResult := {|
  rankedList := [];
  byRisk := {| safe := []; moderate := []; ambitious := [] |};
  summary := {|
    totalPrograms := 0;
    safeCount := 0;
    moderateCount := 0;
    ambitiousCount := 0;
    averageChance := 0 |};
  recommendations :=
    ["Please select some programs to generate a preference list."%string]
|}.

(** The callback of [programs.map]: one program scored, its rank still
    [0]. *)
Definition scoreProgram (userAggregate : Q) (interests : UserInterests)
    (program : ProgramOption) : PreferenceItem :=
  let chancePrediction :=
    ChancePredictor.predictChance {|
      ChancePredictor.userAggregate := userAggregate;
      ChancePredictor.programId := programId program;
      ChancePredictor.programName := programName program;
      ChancePredictor.lastYearClosingAggregate :=
        of_option (lastYearClosingAggregate program);
      ChancePredictor.lastYearClosingPosition := Undefined;
      ChancePredictor.averageClosingAggregate := Undefined |} in
  let thresholds :=
    match lastYearClosingAggregate program with
    | Some c =>
        if truthy_num (Some c)
        then MeritListPredictor.generateEstimatedThresholds
               c MeritListPredictor.DEFAULT_NUM_LISTS
        else []
    | None => []
    end in
  let meritListPrediction :=
    MeritListPredictor.predictMeritList {|
      MeritListPredictor.userAggregate := userAggregate;
      MeritListPredictor.programId := programId program;
      MeritListPredictor.programName := programName program;
      MeritListPredictor.thresholds := thresholds |} in
  let interestScore := getInterestScore program interests in
  let campusScore :=
    getCampusPreferenceScore (campus program) (preferredCampuses interests) in
  let meritListScore :=
    getMeritListScore (MeritListPredictor.predictedList meritListPrediction) in
  let overallScore :=
    calculateOverallScore (ChancePredictor.chancePercentage chancePrediction)
                          interestScore campusScore meritListScore in
  let riskCategory :=
    getRiskCategory (ChancePredictor.chancePercentage chancePrediction) in
  {| rank := 0;
     program := program;
     riskCategory := riskCategory;
     riskColor := getRiskColor riskCategory;
     chancePercentage := ChancePredictor.chancePercentage chancePrediction;
     predictedMeritList := MeritListPredictor.predictedList meritListPrediction;
     interestScore := interestScore;
     overallScore := overallScore |}.

(** [(a, b) => b.overallScore - a.overallScore] is positive. *)
Definition byOverallScore (a b : PreferenceItem) : bool :=
  gtb (overallScore b - overallScore a) 0.

(** [item.rank = index + 1]. *)
Definition setRank (item : PreferenceItem) (index : nat) : PreferenceItem :=
  {| rank := index + 1;
     program := program item;
     riskCategory := riskCategory item;
     riskColor := riskColor item;
     chancePercentage := chancePercentage item;
     predictedMeritList := predictedMeritList item;
     interestScore := interestScore item;
     overallScore := overallScore item |}.

Definition isRisk (c : RiskCategory) (p : PreferenceItem) : bool :=
  match c, riskCategory p with
  | Safe, Safe => true
  | Moderate, Moderate => true
  | Ambitious, Ambitious => true
  | _, _ => false
  end.

Definition generatePreferenceList (userAggregate : Q)
    (programs : list ProgramOption) (interests : UserInterests)
  : PreferenceListResult :=
  match programs with
  | [] => createEmptyResult
  | _ :: _ =>
      let scoredPrograms := List.map (scoreProgram userAggregate interests) programs in
      let scoredPrograms := Array_sort byOverallScore scoredPrograms in
      let scoredPrograms := map_indexed_from setRank 0 scoredPrograms in
      let byRisk := {|
        safe := List.filter (isRisk Safe) scoredPrograms;
        moderate := List.filter (isRisk Moderate) scoredPrograms;
        ambitious := List.filter (isRisk Ambitious) scoredPrograms |} in
      let summary := {|
        totalPrograms := List.length scoredPrograms;
        safeCount := List.length (safe byRisk);
        moderateCount := List.length (moderate byRisk);
        ambitiousCount := List.length (ambitious byRisk);
        averageChance :=
          fold_left (fun sum p => sum + chancePercentage p) scoredPrograms 0
          / of_nat (List.length scoredPrograms) |} in
      let recommendations :=
        generateRecommendations summary (riskTolerance interests) in
      {| rankedList := scoredPrograms;
         byRisk := byRisk;
         summary := summary;
         recommendations := recommendations |}
  end.

End PreferenceGenerator.

(** ** AggregateForm: from the form's state to a calculation *)

Module AggregateForm.
Import JS.
Import CalcAggregate.
















End AggregateForm.

(** ** Double arithmetic *)

Module Double.

(** [2^z], also for a negative [z]. *)
Definition pow2 (z : Z) : Q := 2 ^ z.

(** The binade of a positive number [a]: the [e] with
    [2^e <= a < 2^(e+1)]. *)
Definition binade (a : Q) : Z :=
  let e := (Z.log2 (Qnum a) - Z.log2 (Zpos (Qden a)))%Z in
  if Qle_bool (pow2 e) a then e else (e - 1)%Z.

(** The integer nearest to [s], the even one on a tie. *)
Definition nearest_even (s : Q) : Z :=
  let f := Qfloor s in
  match Qcompare (s - inject_Z f) (1 # 2) with
  | Lt => f
  | Gt => (f + 1)%Z
  | Eq => if Z.even f then f else (f + 1)%Z
  end.

(** A positive number rounded to 53 significant bits. *)
Definition round_positive (a : Q) : Q :=
  let e := binade a in
  inject_Z (nearest_even (a * pow2 (52 - e))) * pow2 (e - 52).

(** The double nearest to [x], as a fraction in lowest terms. *)
Definition double (x : Q) : Q :=
  match Qcompare x 0 with
  | Eq => 0
  | Gt => Qred (round_positive x)
  | Lt => Qred (- round_positive (- x))
  end.

(** The operators of the language.  Each reads its operands as doubles
    and rounds the exact result. *)
Definition add (x y : Q) : Q := double (double x + double y).
Definition sub (x y : Q) : Q := double (double x - double y).
Definition mul (x y : Q) : Q := double (double x * double y).
(** [x / y] for a divisor other than zero. *)
Definition div (x y : Q) : Q := double (double x / double y).

Definition leb (x y : Q) : bool := Qle_bool (double x) (double y).
Definition ltb (x y : Q) : bool := negb (Qle_bool (double y) (double x)).
Definition geb (x y : Q) : bool := Qle_bool (double y) (double x).
Definition gtb (x y : Q) : bool := negb (Qle_bool (double x) (double y)).
Definition eqb (x y : Q) : bool := Qeq_bool (double x) (double y).

(** [Math.round], [Math.ceil], [Math.max], [Math.min] and [Math.abs] are
    exact on doubles. *)
Definition Math_round (x : Q) : Q := inject_Z (Qfloor (double x + (1 # 2))).
Definition Math_ceil (x : Q) : Q := inject_Z (Qceiling (double x)).
Definition Math_max (x y : Q) : Q := Qmax (double x) (double y).
Definition Math_min (x y : Q) : Q := Qmin (double x) (double y).
Definition Math_abs (x : Q) : Q := Qabs (double x).

(** [parseFloat(x.toFixed(2))]: [toFixed] works on the exact value of
    the double, and [parseFloat] reads the printed decimal back as a
    double. *)
Definition toFixed2 (x : Q) : Q :=
  let d := double x in
  let a := Qabs d in
  if Qle_bool (inject_Z (10 ^ 21)) a then d
  else
    let n := inject_Z (Qfloor (a * 100 + (1 # 2))) / 100 in
    double (if Qle_bool 0 d then n else - n).

End Double.

(** ** The arithmetic functions, in double arithmetic *)

Module Binary64.

Module calcAggregate.
Import JS.
Import CalcAggregate.

Definition validateAggregateInput (input : AggregateInput)
  : ValidationResult :=
  let errs := [] in
  let errs := push_if (Double.ltb (netScore input) 0)
                "NET score cannot be negative" errs in
  let errs := push_if (Double.gtb (netScore input) (MAX_NET_SCORE AGGREGATE_CONFIG))
                "NET score cannot exceed 200" errs in
  let errs :=
    if truthy_bool (useEquivalence input) then
      match equivalencePercentage input with
      | None =>
          push_if true
            "Equivalence percentage is required for O/A Level students" errs
      | Some e =>
          let errs := push_if (Double.ltb e (MIN_PERCENTAGE AGGREGATE_CONFIG))
                        "Equivalence percentage cannot be negative" errs in
          push_if (Double.gtb e (MAX_PERCENTAGE AGGREGATE_CONFIG))
            "Equivalence percentage cannot exceed 100%" errs
      end
    else
      let errs := push_if (Double.ltb (hscPercentage input) (MIN_PERCENTAGE AGGREGATE_CONFIG))
                    "HSC/FSc percentage cannot be negative" errs in
      let errs := push_if (Double.gtb (hscPercentage input) (MAX_PERCENTAGE AGGREGATE_CONFIG))
                    "HSC/FSc percentage cannot exceed 100%" errs in
      let errs := push_if (Double.ltb (sscPercentage input) (MIN_PERCENTAGE AGGREGATE_CONFIG))
                    "SSC/Matric percentage cannot be negative" errs in
      push_if (Double.gtb (sscPercentage input) (MAX_PERCENTAGE AGGREGATE_CONFIG))
        "SSC/Matric percentage cannot exceed 100%" errs
  in
  {| isValid := Nat.eqb (List.length errs) 0; errors := errs |}.

Definition netScoreToPercentage (netScore : Q) : Q :=
  Double.mul (Double.div netScore (MAX_NET_SCORE AGGREGATE_CONFIG)) 100.

Definition calculateAggregate_terms (input : AggregateInput) : RawTerms :=
  let netPercentage := netScoreToPercentage (netScore input) in
  match truthy_bool (useEquivalence input), equivalencePercentage input with
  | true, Some eqv =>
      let w := WEIGHTS_OA_LEVEL AGGREGATE_CONFIG in
      let netContribution := Double.mul netPercentage (OA_NET w) in
      let equivalenceContribution := Double.mul eqv (OA_EQUIVALENCE w) in
      let totalAggregate := Double.add netContribution equivalenceContribution in
      {| raw_isOALevel := true;
         raw_net := netContribution;
         raw_hsc := 0;
         raw_ssc := 0;
         raw_equivalence := Some equivalenceContribution;
         raw_total := totalAggregate |}
  | _, _ =>
      let w := WEIGHTS_FSC AGGREGATE_CONFIG in
      let netContribution := Double.mul netPercentage (FSC_NET w) in
      let hscContribution := Double.mul (hscPercentage input) (FSC_HSC w) in
      let sscContribution := Double.mul (sscPercentage input) (FSC_SSC w) in
      let totalAggregate :=
        Double.add (Double.add netContribution hscContribution) sscContribution in
      {| raw_isOALevel := false;
         raw_net := netContribution;
         raw_hsc := hscContribution;
         raw_ssc := sscContribution;
         raw_equivalence := None;
         raw_total := totalAggregate |}
  end.

Definition calculateAggregate (input : AggregateInput) : AggregateBreakdown :=
  let t := calculateAggregate_terms input in
  {| netContribution := Double.toFixed2 (raw_net t);
     hscContribution := if raw_isOALevel t then 0 else Double.toFixed2 (raw_hsc t);
     sscContribution := if raw_isOALevel t then 0 else Double.toFixed2 (raw_ssc t);
     equivalenceContribution := option_map Double.toFixed2 (raw_equivalence t);
     totalAggregate := Double.toFixed2 (raw_total t);
     isOALevel := raw_isOALevel t |}.

Definition calculateRequiredNetScore
    (targetAggregate hscPercentage sscPercentage : Q)
    (useEquivalence : bool) (equivalencePercentage : option Q)
  : RequiredNetScore :=
  let c := AGGREGATE_CONFIG in
  let requiredNetPercentage :=
    match useEquivalence, equivalencePercentage with
    | true, Some eqv =>
        let equivalenceContribution :=
          Double.mul eqv (OA_EQUIVALENCE (WEIGHTS_OA_LEVEL c)) in
        Double.div (Double.sub targetAggregate equivalenceContribution)
                   (OA_NET (WEIGHTS_OA_LEVEL c))
    | _, _ =>
        let hscContribution :=
          Double.mul hscPercentage (FSC_HSC (WEIGHTS_FSC c)) in
        let sscContribution :=
          Double.mul sscPercentage (FSC_SSC (WEIGHTS_FSC c)) in
        Double.div
          (Double.sub (Double.sub targetAggregate hscContribution)
                      sscContribution)
          (FSC_NET (WEIGHTS_FSC c))
    end in
  let requiredNetScore :=
    Double.mul (Double.div requiredNetPercentage 100) (MAX_NET_SCORE c) in
  let achievable :=
    Double.geb requiredNetScore 0
    && Double.leb requiredNetScore (MAX_NET_SCORE c) in
  {| requiredNetScore :=
       Double.Math_max 0
         (Double.Math_min (MAX_NET_SCORE c) (Double.Math_ceil requiredNetScore));
     requiredNetPercentage :=
       Double.toFixed2
         (Double.Math_max 0 (Double.Math_min 100 requiredNetPercentage));
     achievable := achievable |}.

End calcAggregate.

Module chancePredictor.
Import JS.
Import ChancePredictor.

Definition calculateChanceFromDifference (difference : Q)
  : ChanceCategory * Q :=
  let T := THRESHOLDS PREDICTION_CONFIG in
  let R := CHANCE_RANGES PREDICTION_CONFIG in
  if Double.geb difference (HIGH_ABOVE T) then
    let range := HIGH R in
    let chancePercentage :=
      Double.Math_min (r_max range)
        (Double.add (r_min range)
                    (Double.mul (Double.sub difference (HIGH_ABOVE T)) 3)) in
    (HighChance, Double.Math_round chancePercentage)
  else if Double.geb difference (MEDIUM_HIGH_ABOVE T) then
    let range := MEDIUM_HIGH R in
    let factor :=
      Double.div (Double.sub difference (MEDIUM_HIGH_ABOVE T))
                 (Double.sub (HIGH_ABOVE T) (MEDIUM_HIGH_ABOVE T)) in
    let chancePercentage :=
      Double.add (r_min range)
                 (Double.mul (Double.sub (r_max range) (r_min range)) factor) in
    (MediumChance, Double.Math_round chancePercentage)
  else if Double.geb difference (MEDIUM_BELOW T) then
    let range := MEDIUM R in
    let factor :=
      Double.div (Double.sub difference (MEDIUM_BELOW T))
                 (Double.sub (MEDIUM_HIGH_ABOVE T) (MEDIUM_BELOW T)) in
    let chancePercentage :=
      Double.add (r_min range)
                 (Double.mul (Double.sub (r_max range) (r_min range)) factor) in
    (MediumChance, Double.Math_round chancePercentage)
  else if Double.geb difference (LOW_BELOW T) then
    let range := LOW R in
    let factor :=
      Double.div (Double.sub difference (LOW_BELOW T))
                 (Double.sub (MEDIUM_BELOW T) (LOW_BELOW T)) in
    let chancePercentage :=
      Double.add (r_min range)
                 (Double.mul (Double.sub (r_max range) (r_min range)) factor) in
    (LowChance, Double.Math_round chancePercentage)
  else
    let range := VERY_LOW R in
    let chancePercentage :=
      Double.Math_max (r_min range)
        (Double.add (r_max range)
                    (Double.mul (Double.sub difference (LOW_BELOW T)) 2)) in
    (VeryLowChance, Double.Math_round chancePercentage).

Definition generateTips (category : ChanceCategory) (difference userAggregate : Q)
  : list string :=
  let tips :=
    match category with
    | HighChance => [
        "Keep this program high in your preference list";
        "You may also qualify for more competitive programs";
        "Stay prepared for document verification" ]
    | MediumChance => [
        "Include this program in your middle preferences";
        "Have backup options with lower cutoffs";
        "Monitor merit list releases carefully" ]
    | LowChance => [
        "Consider this as a reach/stretch option";
        "Prioritize programs with lower closing merits";
        "Look at alternative campuses for similar programs" ]
    | VeryLowChance => [
        "Strongly consider alternative programs";
        "Check programs at other NUST campuses";
        "Consider retaking NET if possible" ]
    end%string in
  if Double.ltb userAggregate 60
  then tips ++ ["Focus on programs with historically lower cutoffs"%string]
  else tips.

Definition predictAgainst (userAggregate referenceAggregate : Q)
  : PredictionResult :=
  let difference := Double.sub userAggregate referenceAggregate in
  let '(category, chancePercentage) := calculateChanceFromDifference difference in
  let tips := generateTips category difference userAggregate in
  {| chancePercentage := chancePercentage;
     category := category;
     categoryColor := getCategoryColor category;
     tips := tips;
     metadata := {|
       md_userAggregate := userAggregate;
       md_lastYearClosingAggregate := Some referenceAggregate;
       md_difference := Some difference;
       dataAvailable := true |} |}.

Definition predictChance (input : PredictionInput) : PredictionResult :=
  match referenceAggregate input with
  | Null => createNoDataPrediction (userAggregate input) (programName input)
  | Val reference => predictAgainst (userAggregate input) reference
  | Undefined => createNoDataPrediction (userAggregate input) (programName input)
  end.

End chancePredictor.

Module meritListPredictor.
Import JS.
Import MeritListPredictor.

Definition getConfidence (difference : Q) : Confidence :=
  let T := CONFIDENCE_THRESHOLDS MERIT_LIST_CONFIG in
  if Double.geb difference (CT_HIGH T) then High
  else if Double.geb difference (CT_MEDIUM T) then Medium
  else Low.

Definition createNoDataPrediction (userAggregate : Q) (programName : string)
  : MeritListPredictionResult :=
  let estimatedList : option Z :=
    if Double.geb userAggregate 80 then Some 1%Z
    else if Double.geb userAggregate 75 then Some 2%Z
    else if Double.geb userAggregate 70 then Some 4%Z
    else if Double.geb userAggregate 65 then Some 6%Z
    else None in
  {| predictedList := estimatedList;
     confidence := Low;
     confidenceColor := getConfidenceColor Low;
     alternatives :=
       match estimatedList with
       | Some e =>
           if (e =? 0)%Z then []
           else List.filter (fun n => (n <=? 8)%Z) [(e + 1)%Z; (e + 2)%Z]
       | None => []
       end;
     isEstimate := true |}.

(** [x < closestDifference], where [None] is the initial [Infinity]. *)
Definition below_closest (x : Q) (closest : option Q) : bool :=
  match closest with
  | None => true
  | Some c => Double.ltb x c
  end.

(** One turn of the [for ... of sortedThresholds] loop. *)
Definition scanThreshold (userAggregate : Q) (st : ScanState)
    (threshold : MeritListThreshold) : ScanState :=
  match closingAggregate threshold with
  | None => st
  | Some closing =>
      let difference := Double.sub userAggregate closing in
      if Double.geb difference 0 then
        match st_predictedList st with
        | None =>
            {| st_predictedList := Some (meritListNumber threshold);
               st_confidence := getConfidence difference;
               st_alternatives := st_alternatives st;
               st_closestDifference := Some difference |}
        | Some previous =>
            if below_closest (Double.Math_abs difference)
                             (st_closestDifference st) then
              {| st_predictedList := Some (meritListNumber threshold);
                 st_confidence := getConfidence difference;
                 st_alternatives := st_alternatives st ++ [previous];
                 st_closestDifference := Some difference |}
            else
              {| st_predictedList := st_predictedList st;
                 st_confidence := st_confidence st;
                 st_alternatives :=
                   st_alternatives st ++ [meritListNumber threshold];
                 st_closestDifference := st_closestDifference st |}
        end
      else
        match st_predictedList st with
        | None =>
            if Double.ltb (Double.Math_abs difference) 3 then
              {| st_predictedList := st_predictedList st;
                 st_confidence := st_confidence st;
                 st_alternatives :=
                   st_alternatives st ++ [meritListNumber threshold];
                 st_closestDifference := st_closestDifference st |}
            else st
        | Some _ => st
        end
  end.

Definition predictMeritList (input : MeritListPredictionInput)
  : MeritListPredictionResult :=
  match thresholds input with
  | [] => createNoDataPrediction (userAggregate input) (programName input)
  | _ :: _ =>
      let sortedThresholds := Array_sort byListNumber (thresholds input) in
      let st :=
        fold_left (scanThreshold (userAggregate input)) sortedThresholds
                  initialScan in
      {| predictedList := st_predictedList st;
         confidence := st_confidence st;
         confidenceColor := getConfidenceColor (st_confidence st);
         alternatives := firstn 2 (st_alternatives st);
         isEstimate := false |}
  end.

(** The loop counter [i] is a small integer, so [i - 1] is exact. *)
Definition generateEstimatedThresholds (baseAggregate : Q) (numLists : Z)
  : list MeritListThreshold :=
  List.map
    (fun i =>
       {| meritListNumber := i;
          closingAggregate :=
            Some (Double.Math_max 50
                    (Double.sub baseAggregate
                       (Double.mul (inject_Z (i - 1))
                          (DEFAULT_AGGREGATE_DROP_PER_LIST MERIT_LIST_CONFIG))));
          closingPosition := None |})
    (listNumbers numLists).

(** What the scan maintains about its prediction: the predicted number is
    that of a threshold of [ts] with a closing aggregate the user reaches,
    and the confidence was taken from the computed margin. *)
Definition predictionCleared (userAggregate : Q) (ts : list MeritListThreshold)
    (st : ScanState) : Prop :=
  forall p : Z,
    st_predictedList st = Some p ->
    exists (t : MeritListThreshold) (closing : Q),
      In t ts /\
      meritListNumber t = p /\
      closingAggregate t = Some closing /\
      Double.double closing <= Double.double userAggregate /\
      st_confidence st = getConfidence (Double.sub userAggregate closing).

End meritListPredictor.

Module preferenceGenerator.
Import JS.
Import PreferenceGenerator.

(** [disciplineScores[group] || 3]: a missing entry and a [0] both give
    the neutral [3]. *)
Definition getInterestScore (program : ProgramOption) (interests : UserInterests)
  : Q :=
  let disciplineScore :=
    match disciplineScores interests !! disciplineGroup program with
    | Some v => if Double.eqb v 0 then 3 else v
    | None => 3
    end in
  Double.mul (Double.div disciplineScore 5) 100.

Definition getCampusPreferenceScore (campus : string)
    (preferredCampuses : list string) : Q :=
  match indexOfString campus preferredCampuses with
  | None => 50
  | Some index =>
      Double.Math_max 10 (Double.sub 100 (Double.mul (of_nat index) 15))
  end.

Definition getMeritListScore (predictedList : option Z) : Q :=
  match predictedList with
  | None => 20
  | Some l =>
      Double.Math_max 10
        (Double.sub 100 (Double.mul (Double.sub (inject_Z l) 1) 12))
  end.

Definition calculateOverallScore (chancePercentage interestScore campusScore
    meritListScore : Q) : Q :=
  let W := SCORING_WEIGHTS PREFERENCE_CONFIG in
  Double.add
    (Double.add
       (Double.add (Double.mul chancePercentage (CHANCE W))
                   (Double.mul interestScore (INTEREST W)))
       (Double.mul campusScore (CAMPUS_PREF W)))
    (Double.mul meritListScore (MERIT_LIST W)).

Definition getRiskCategory (chancePercentage : Q) : RiskCategory :=
  let T := RISK_THRESHOLDS PREFERENCE_CONFIG in
  if Double.geb chancePercentage (RT_SAFE T) then Safe
  else if Double.geb chancePercentage (RT_MODERATE T) then Moderate
  else Ambitious.

Definition generateRecommendations (summary : Summary)
    (riskTolerance : RiskTolerance) : list string :=
  let recommended := RECOMMENDED_MIX PREFERENCE_CONFIG riskTolerance in
  let safeRatio :=
    Double.div (of_nat (safeCount summary)) (of_nat (totalPrograms summary)) in
  let ambitiousRatio :=
    Double.div (of_nat (ambitiousCount summary))
               (of_nat (totalPrograms summary)) in
  let push (c : bool) (msg : string) (l : list string) :=
    if c then l ++ [msg] else l in
  let recs := [] in
  let recs := push (Double.ltb safeRatio
                      (Double.sub (mix_safe recommended) (1 # 10)))
    "Consider adding more safe options to your list for better security."
    recs in
  let recs := push (Nat.eqb (safeCount summary) 0)
    "⚠️ You have no safe options. Strongly consider adding programs with high admission chances."
    recs in
  let recs := push (Double.gtb ambitiousRatio
                      (Double.add (mix_ambitious recommended) (2 # 10)))
    "Your list is heavy on ambitious choices. This is risky - ensure you have backups."
    recs in
  let recs := push (Nat.ltb (totalPrograms summary) 5)
    "Consider adding more program options to increase your chances of admission."
    recs in
  let recs := push (Nat.ltb 15 (totalPrograms summary))
    "You have many options selected. Focus on your top 10-12 preferences."
    recs in
  push (Nat.eqb (List.length recs) 0)
    "Your preference list has a good balance of safe, moderate, and ambitious choices."
    recs.

(** The callback of [programs.map]: one program scored, its rank still
    [0].  The closing aggregate is tested for truthiness before the
    estimated thresholds are built. *)
Definition scoreProgram (userAggregate : Q) (interests : UserInterests)
    (program : ProgramOption) : PreferenceItem :=
  let chancePrediction :=
    chancePredictor.predictChance {|
      ChancePredictor.userAggregate := userAggregate;
      ChancePredictor.programId := programId program;
      ChancePredictor.programName := programName program;
      ChancePredictor.lastYearClosingAggregate :=
        of_option (lastYearClosingAggregate program);
      ChancePredictor.lastYearClosingPosition := Undefined;
      ChancePredictor.averageClosingAggregate := Undefined |} in
  let thresholds :=
    match lastYearClosingAggregate program with
    | Some c =>
        if negb (Double.eqb c 0)
        then meritListPredictor.generateEstimatedThresholds
               c MeritListPredictor.DEFAULT_NUM_LISTS
        else []
    | None => []
    end in
  let meritListPrediction :=
    meritListPredictor.predictMeritList {|
      MeritListPredictor.userAggregate := userAggregate;
      MeritListPredictor.programId := programId program;
      MeritListPredictor.programName := programName program;
      MeritListPredictor.thresholds := thresholds |} in
  let interestScore := getInterestScore program interests in
  let campusScore :=
    getCampusPreferenceScore (campus program) (preferredCampuses interests) in
  let meritListScore :=
    getMeritListScore (MeritListPredictor.predictedList meritListPrediction) in
  let overallScore :=
    calculateOverallScore (ChancePredictor.chancePercentage chancePrediction)
                          interestScore campusScore meritListScore in
  let riskCategory :=
    getRiskCategory (ChancePredictor.chancePercentage chancePrediction) in
  {| rank := 0;
     program := program;
     riskCategory := riskCategory;
     riskColor := getRiskColor riskCategory;
     chancePercentage := ChancePredictor.chancePercentage chancePrediction;
     predictedMeritList := MeritListPredictor.predictedList meritListPrediction;
     interestScore := interestScore;
     overallScore := overallScore |}.

(** [(a, b) => b.overallScore - a.overallScore] is positive. *)
Definition byOverallScore (a b : PreferenceItem) : bool :=
  Double.gtb (Double.sub (overallScore b) (overallScore a)) 0.

Definition generatePreferenceList (userAggregate : Q)
    (programs : list ProgramOption) (interests : UserInterests)
  : PreferenceListResult :=
  match programs with
  | [] => createEmptyResult
  | _ :: _ =>
      let scoredPrograms := List.map (scoreProgram userAggregate interests) programs in
      let scoredPrograms := Array_sort byOverallScore scoredPrograms in
      let scoredPrograms := map_indexed_from setRank 0 scoredPrograms in
      let byRisk := {|
        safe := List.filter (isRisk Safe) scoredPrograms;
        moderate := List.filter (isRisk Moderate) scoredPrograms;
        ambitious := List.filter (isRisk Ambitious) scoredPrograms |} in
      let summary := {|
        totalPrograms := List.length scoredPrograms;
        safeCount := List.length (safe byRisk);
        moderateCount := List.length (moderate byRisk);
        ambitiousCount := List.length (ambitious byRisk);
        averageChance :=
          Double.div
            (fold_left (fun sum p => Double.add sum (chancePercentage p))
                       scoredPrograms 0)
            (of_nat (List.length scoredPrograms)) |} in
      let recommendations :=
        generateRecommendations summary (riskTolerance interests) in
      {| rankedList := scoredPrograms;
         byRisk := byRisk;
         summary := summary;
         recommendations := recommendations |}
  end.

End preferenceGenerator.

End Binary64.

(** * Properties *)

(** ** Facts about the primitives *)

(** Division by a literal, turned into a product so that linear
    arithmetic applies. *)
Ltac literal_inverses :=
  unfold Qdiv in *;
  repeat match goal with
    | |- context [Qinv ?c] =>
        let v := eval vm_compute in (Qinv c) in change (Qinv c) with v
    | H : context [Qinv ?c] |- _ =>
        let v := eval vm_compute in (Qinv c) in change (Qinv c) with v in H
    end.

Section PrimitiveFacts.
Import JS.

Lemma leb_spec (x y : Q) : BoolSpec (x <= y) (y < x) (Qle_bool x y).
Proof.
  destruct (Qle_bool x y) eqn:E; constructor.
  - now apply Qle_bool_iff.
  - apply Qnot_le_lt. intro H. apply Qle_bool_iff in H. congruence.
Qed.






(** Within the percentage range the rounded value stays in the range. *)
Lemma toFixed2_percentage (x : Q) :
  0 <= x <= 100 -> 0 <= toFixed2 x <= 100.
Proof.
  intros [H0 H100]. unfold toFixed2, leb, ltb.
  destruct (leb_spec (inject_Z (10 ^ 21)) (Qabs x)); cbn [negb]; [lra|].
  destruct (leb_spec 0 x); cbn [negb]; [|lra].
  pose proof (Qabs_pos x H0) as Ha.
  assert (Hlo : (0 <= Qfloor (Qabs x * 100 + (1 # 2)))%Z).
  { change 0%Z with (Qfloor 0). apply Qfloor_resp_le. lra. }
  assert (Hhi : (Qfloor (Qabs x * 100 + (1 # 2)) <= 10000)%Z).
  { change 10000%Z with (Qfloor (100 * 100 + (1 # 2))).
    apply Qfloor_resp_le. lra. }
  rewrite Zle_Qle in Hlo, Hhi.
  change (inject_Z 0) with 0 in Hlo. change (inject_Z 10000) with 10000 in Hhi.
  literal_inverses. lra.
Qed.


End PrimitiveFacts.

(** ** calcAggregate: the forward formula and its inverse *)

Section CalcAggregateFacts.
Import JS.
Import CalcAggregate.

Ltac aggregate_config :=
  cbv [MAX_NET_SCORE AGGREGATE_CONFIG WEIGHTS_FSC WEIGHTS_OA_LEVEL
       FSC_NET FSC_HSC FSC_SSC OA_NET OA_EQUIVALENCE
       MIN_PERCENTAGE MAX_PERCENTAGE] in *.

Lemma push_if_empty (c : bool) (msg : string) (l : list string) :
  List.length (push_if c msg l) = 0%nat -> c = false /\ List.length l = 0%nat.
Proof.
  destruct c; simpl; [|now auto].
  rewrite length_app. simpl. lia.
Qed.

Lemma ltb_false (x y : Q) : ltb x y = false -> y <= x.
Proof.
  unfold ltb. destruct (leb_spec y x); [trivial|discriminate].
Qed.

Lemma gtb_false (x y : Q) : gtb x y = false -> x <= y.
Proof.
  unfold gtb. destruct (leb_spec x y); [trivial|discriminate].
Qed.

(** What a passing validation guarantees. *)
Lemma valid_input_ranges (input : AggregateInput) :
  isValid (validateAggregateInput input) = true ->
  0 <= netScore input <= 200 /\
  match truthy_bool (useEquivalence input), equivalencePercentage input with
  | true, Some e => 0 <= e <= 100
  | true, None => False
  | false, _ =>
      0 <= hscPercentage input <= 100 /\ 0 <= sscPercentage input <= 100
  end.
Proof.
  unfold validateAggregateInput. cbn [isValid]. intro H.
  apply Nat.eqb_eq in H. aggregate_config.
  destruct (truthy_bool (useEquivalence input));
    [destruct (equivalencePercentage input)|];
    repeat (apply push_if_empty in H; destruct H as [? H]);
    repeat match goal with
      | E : ltb _ _ = false |- _ => apply ltb_false in E
      | E : gtb _ _ = false |- _ => apply gtb_false in E
      end;
    try discriminate; repeat split; assumption.
Qed.






End CalcAggregateFacts.

(** ** chancePredictor: the band map *)

Section ChancePredictorFacts.
Import JS.
Import ChancePredictor.

Ltac prediction_config :=
  cbv [THRESHOLDS CHANCE_RANGES PREDICTION_CONFIG HIGH_ABOVE
       MEDIUM_HIGH_ABOVE MEDIUM_BELOW LOW_BELOW HIGH MEDIUM_HIGH MEDIUM LOW
       VERY_LOW r_min r_max] in *.










Lemma predictChance_no_data (input : PredictionInput) :
  nullish (lastYearClosingAggregate input) = true ->
  nullish (averageClosingAggregate input) = true ->
  predictChance input
  = createNoDataPrediction (userAggregate input) (programName input).
Proof.
  intros Hly Havg. unfold predictChance, referenceAggregate.
  destruct (lastYearClosingAggregate input); try discriminate;
    destruct (averageClosingAggregate input); try discriminate; reflexivity.
Qed.



End ChancePredictorFacts.

(** ** Sorting *)

Section SortFacts.
Import JS.
Context {A : Type} (after : A -> A -> bool).

Lemma sort_insert_perm (x : A) (l : list A) :
  Permutation (sort_insert after x l) (x :: l).
Proof.
  induction l as [|y l IH]; simpl; [reflexivity|].
  destruct (after x y); [|reflexivity].
  rewrite IH. apply perm_swap.
Qed.

Lemma Array_sort_perm (l : list A) : Permutation (Array_sort after l) l.
Proof.
  induction l as [|x l IH]; simpl; [reflexivity|].
  rewrite sort_insert_perm. now constructor.
Qed.

Lemma Array_sort_In (x : A) (l : list A) :
  In x (Array_sort after l) <-> In x l.
Proof.
  split; apply Permutation_in;
    [apply Array_sort_perm | symmetry; apply Array_sort_perm].
Qed.

Lemma Array_sort_length (l : list A) :
  List.length (Array_sort after l) = List.length l.
Proof. apply Permutation_length, Array_sort_perm. Qed.

End SortFacts.

(** ** meritListPredictor: list numbers *)

Section MeritListPredictorFacts.
Import JS.
Import MeritListPredictor.

Lemma distinct_numbers_identify (ts : list MeritListThreshold)
    (a b : MeritListThreshold) :
  List.NoDup (List.map meritListNumber ts) ->
  In a ts -> In b ts -> meritListNumber a = meritListNumber b -> a = b.
Proof.
  induction ts as [|t ts IH]; intros Hnd Ha Hb Heq; [easy|].
  cbn [List.map] in Hnd. apply List.NoDup_cons_iff in Hnd. destruct Hnd as [Hfresh Hnd].
  destruct Ha as [<-|Ha]; destruct Hb as [<-|Hb]; trivial.
  - exfalso. apply Hfresh. rewrite Heq. now apply in_map.
  - exfalso. apply Hfresh. rewrite <- Heq. now apply in_map.
  - now apply IH.
Qed.

End MeritListPredictorFacts.

(** ** netScoreRecommender: the scenario table *)

Section NetScoreRecommenderFacts.
Import JS.
Import CalcAggregate.
Import NetScoreRecommender.

(** The configuration object has no property called [WEIGHTS]; its weight
    tables are [WEIGHTS_FSC] and [WEIGHTS_OA_LEVEL]. *)
Lemma AGGREGATE_CONFIG_has_no_WEIGHTS :
  get AGGREGATE_CONFIG_object "WEIGHTS" = Normal VUndefined /\
  get AGGREGATE_CONFIG_object "WEIGHTS_FSC"
  = Normal (VObject [("NET"%string, VNumber (75 # 100));
                     ("HSC"%string, VNumber (15 # 100));
                     ("SSC"%string, VNumber (10 # 100))]).
Proof. split; reflexivity. Qed.

(** The first score point always survives the removal of duplicates, so
    the loop body runs at least once. *)
Lemma scorePoints_first (recommendedScore : Q) :
  exists rest : list Q,
    scorePoints recommendedScore
    = Math_max 80 (recommendedScore - 30) :: rest.
Proof.
  unfold scorePoints, filter_indexed.
  cbn [filter_indexed_from indexOf].
  unfold eqb at 1. rewrite Qeq_bool_refl. cbn [Z.eqb].
  eexists. reflexivity.
Qed.

(** Without duplicates between three and five score points remain, for
    every recommended score. *)
Lemma scorePoints_count (recommendedScore : Q) :
  (3 <= List.length (scorePoints recommendedScore) <= 5)%nat.
Proof.
  unfold scorePoints, filter_indexed.
  cbv [MAX_NET_SCORE AGGREGATE_CONFIG].
  unfold Math_max, Math_min.
  destruct (Q.max_spec 80 (recommendedScore - 30)) as [[? Ha]|[? Ha]];
  destruct (Q.max_spec 100 (recommendedScore - 15)) as [[? Hb]|[? Hb]];
  destruct (Q.min_spec 200 (recommendedScore + 15)) as [[? Hd]|[? Hd]];
  destruct (Q.min_spec 200 (recommendedScore + 30)) as [[? He]|[? He]];
  try (exfalso; lra);
  set (a := Qmax 80 (recommendedScore - 30)) in *;
  set (b := Qmax 100 (recommendedScore - 15)) in *;
  set (d := Qmin 200 (recommendedScore + 15)) in *;
  set (e := Qmin 200 (recommendedScore + 30)) in *;
  cbn [filter_indexed_from indexOf]; unfold eqb;
  repeat match goal with
    | |- context [Qeq_bool ?x ?y] =>
        let E := fresh "E" in
        destruct (Qeq_bool x y) eqn:E;
        [apply Qeq_bool_iff in E | apply Qeq_bool_neq in E];
        try (exfalso; lra)
    end;
  clearbody a b d e; vm_compute; lia.
Qed.

Lemma generateScenarios_throws (hsc ssc closing recommendedScore : Q) :
  generateScenarios hsc ssc closing recommendedScore = Throw TypeError.
Proof.
  unfold generateScenarios.
  destruct AGGREGATE_CONFIG_has_no_WEIGHTS as [-> _]. cbn [bind].
  destruct (scorePoints_first recommendedScore) as [rest ->].
  reflexivity.
Qed.

(** C1. [getNetScoreRecommendation] does not return a record: on every
    input, [generateScenarios] reads [WEIGHTS.NET] where [WEIGHTS] is the
    property of that name of [AGGREGATE_CONFIG], which the object does not
    have, so the first scenario row already throws a [TypeError]; this is
    so in particular for a closing aggregate of 75 with HSC 85 and SSC 90.
    [isProgramAchievable] throws in the same way. *)
Theorem getNetScoreRecommendation_throws :
  (forall input : NetScoreRecommendationInput,
      getNetScoreRecommendation input = Throw TypeError) /\
  getNetScoreRecommendation
    {| programName := "Software Engineering";
       lastYearClosingAggregate := 75;
       hscPercentage := 85;
       sscPercentage := 90;
       useEquivalence := None;
       equivalencePercentage := None |} = Throw TypeError /\
  (forall closing hsc ssc : Q,
      isProgramAchievable closing hsc ssc = Throw TypeError).
Proof.
  assert (H : forall input, getNetScoreRecommendation input = Throw TypeError).
  { intro input. unfold getNetScoreRecommendation.
    rewrite generateScenarios_throws. reflexivity. }
  split; [exact H|]. split; [apply H|].
  intros. reflexivity.
Qed.

End NetScoreRecommenderFacts.

(** ** Sorting by a descending numeric key *)

Section DescendingSortFacts.
Import JS.
Context {A : Type} (key : A -> Q).

(** The comparator [(a, b) => key b - key a], as [Array_sort] takes it. *)
Let after (a b : A) : bool := gtb (key b - key a) 0.

Lemma after_true (a b : A) : after a b = true -> key a < key b.
Proof.
  unfold after, gtb. destruct (leb_spec (key b - key a) 0); [discriminate|].
  intros _. lra.
Qed.

Lemma after_false (a b : A) : after a b = false -> key b <= key a.
Proof.
  unfold after, gtb. destruct (leb_spec (key b - key a) 0); [|discriminate].
  intros _. lra.
Qed.

Lemma sort_insert_descending (x : A) (l : list A) :
  StronglySorted (fun a b => key b <= key a) l ->
  StronglySorted (fun a b => key b <= key a) (sort_insert after x l).
Proof.
  induction l as [|y l IH]; intro Hs; simpl.
  - repeat constructor.
  - inversion Hs as [|? ? Hs' Hall]; subst.
    destruct (after x y) eqn:E.
    + apply after_true in E. constructor; [now apply IH|].
      apply (Permutation_Forall (x := x :: l)).
      * symmetry. apply sort_insert_perm.
      * constructor; [lra | exact Hall].
    + apply after_false in E. constructor; [exact Hs|].
      constructor; [exact E|].
      revert Hall. apply List.Forall_impl. intros. lra.
Qed.

Lemma Array_sort_descending (l : list A) :
  StronglySorted (fun a b => key b <= key a) (Array_sort after l).
Proof.
  induction l as [|x l IH]; simpl; [constructor|].
  now apply sort_insert_descending.
Qed.

(** Stability: the elements whose key is [s] keep their order. *)
Lemma sort_insert_stable (s : Q) (x : A) (l : list A) :
  List.filter (fun a => eqb (key a) s) (sort_insert after x l)
  = List.filter (fun a => eqb (key a) s) (x :: l).
Proof.
  induction l as [|y l IH]; [reflexivity|].
  cbn [sort_insert]. destruct (after x y) eqn:E; [|reflexivity].
  apply after_true in E.
  cbn [List.filter] in *. rewrite IH.
  unfold eqb.
  destruct (Qeq_bool (key x) s) eqn:Ex; destruct (Qeq_bool (key y) s) eqn:Ey;
    try reflexivity.
  apply Qeq_bool_iff in Ex, Ey. lra.
Qed.

Lemma Array_sort_stable (s : Q) (l : list A) :
  List.filter (fun a => eqb (key a) s) (Array_sort after l)
  = List.filter (fun a => eqb (key a) s) l.
Proof.
  induction l as [|x l IH]; [reflexivity|].
  cbn [Array_sort fold_right]. rewrite sort_insert_stable.
  cbn [List.filter]. fold (Array_sort after l). now rewrite IH.
Qed.

End DescendingSortFacts.

Section IndexedMapFacts.
Import JS.
Context {A B : Type} (f : A -> nat -> B).

Lemma map_indexed_from_length (i : nat) (l : list A) :
  List.length (map_indexed_from f i l) = List.length l.
Proof.
  revert i. induction l as [|x l IH]; intro i; simpl; [reflexivity|].
  now rewrite IH.
Qed.

Lemma map_indexed_from_nth (i k : nat) (l : list A) :
  nth_error (map_indexed_from f i l) k
  = option_map (fun x => f x (i + k)%nat) (nth_error l k).
Proof.
  revert i k. induction l as [|x l IH]; intros i k.
  - destruct k; reflexivity.
  - destruct k as [|k]; simpl.
    + now rewrite Nat.add_0_r.
    + rewrite IH. now rewrite Nat.add_succ_r.
Qed.

Lemma map_indexed_from_map {C : Type} (g : B -> C) (h : A -> C) (i : nat)
    (l : list A) :
  (forall x k, g (f x k) = h x) ->
  List.map g (map_indexed_from f i l) = List.map h l.
Proof.
  intro H. revert i. induction l as [|x l IH]; intro i; simpl; [reflexivity|].
  now rewrite H, IH.
Qed.

Lemma map_indexed_from_filter {C : Type} (p : B -> bool) (q : A -> bool)
    (g : B -> C) (h : A -> C) (i : nat) (l : list A) :
  (forall x k, p (f x k) = q x) ->
  (forall x k, g (f x k) = h x) ->
  List.map g (List.filter p (map_indexed_from f i l))
  = List.map h (List.filter q l).
Proof.
  intros Hp Hg. revert i.
  induction l as [|x l IH]; intro i; simpl; [reflexivity|].
  rewrite Hp. destruct (q x); simpl; now rewrite ?Hg, IH.
Qed.

End IndexedMapFacts.

Section IndexedMapMembership.
Import JS.
Context {A B : Type} (f : A -> nat -> B).

Lemma map_indexed_from_In (y : B) (i : nat) (l : list A) :
  In y (map_indexed_from f i l) -> exists x k, In x l /\ y = f x k.
Proof.
  revert i. induction l as [|x l IH]; intros i Hin; simpl in Hin; [easy|].
  destruct Hin as [<-|Hin].
  - exists x, i. split; [now left|reflexivity].
  - destruct (IH _ Hin) as (x' & k & Hx' & ->).
    exists x', k. split; [now right|reflexivity].
Qed.

Lemma map_indexed_from_sorted (R : A -> A -> Prop) (R' : B -> B -> Prop)
    (i : nat) (l : list A) :
  (forall x y k k', R x y -> R' (f x k) (f y k')) ->
  StronglySorted R l -> StronglySorted R' (map_indexed_from f i l).
Proof.
  intros HR Hs. revert i.
  induction Hs as [|x l Hs IH Hall]; intro i; simpl; constructor.
  - apply IH.
  - apply List.Forall_forall. intros y Hy.
    destruct (map_indexed_from_In _ _ _ Hy) as (x' & k & Hx' & ->).
    apply HR. rewrite List.Forall_forall in Hall. now apply Hall.
Qed.

End IndexedMapMembership.

(** ** preferenceGenerator: ranking and summary *)

Section PreferenceGeneratorFacts.
Import JS.
Import PreferenceGenerator.

(** The three risk groups partition any list of items. *)
Lemma risk_groups_partition (l : list PreferenceItem) :
  (List.length (List.filter (isRisk Safe) l)
   + List.length (List.filter (isRisk Moderate) l)
   + List.length (List.filter (isRisk Ambitious) l))%nat
  = List.length l.
Proof.
  induction l as [|it l IH]; [reflexivity|].
  cbn [List.filter]. unfold isRisk in *.
  destruct (riskCategory it); cbn [List.length]; lia.
Qed.

End PreferenceGeneratorFacts.

(** ** Missing reference data *)

Section FallbackFacts.
Import JS.

(** C8. Missing reference data gives a fixed fallback value, not an error.
    Without a reference closing aggregate [predictChance] returns chance
    50, Medium Chance and [dataAvailable = false].  With no thresholds
    [predictMeritList] returns the estimate keyed on the aggregate alone
    (list 1 from 80, 2 from 75, 4 from 70, 6 from 65, none below), with
    [isEstimate = true].  With no programs [generatePreferenceList]
    returns an empty ranked list, [totalPrograms = 0] and the single
    recommendation asking to select some programs. *)
Theorem missing_reference_data_falls_back :
  (forall input : ChancePredictor.PredictionInput,
      nullish (ChancePredictor.lastYearClosingAggregate input) = true ->
      nullish (ChancePredictor.averageClosingAggregate input) = true ->
      let res := ChancePredictor.predictChance input in
      ChancePredictor.chancePercentage res = 50 /\
      ChancePredictor.category res = ChancePredictor.MediumChance /\
      ChancePredictor.dataAvailable (ChancePredictor.metadata res) = false) /\
  (forall input : MeritListPredictor.MeritListPredictionInput,
      MeritListPredictor.thresholds input = [] ->
      let u := MeritListPredictor.userAggregate input in
      let res := MeritListPredictor.predictMeritList input in
      MeritListPredictor.isEstimate res = true /\
      MeritListPredictor.confidence res = MeritListPredictor.Low /\
      (80 <= u -> MeritListPredictor.predictedList res = Some 1%Z) /\
      (75 <= u < 80 -> MeritListPredictor.predictedList res = Some 2%Z) /\
      (70 <= u < 75 -> MeritListPredictor.predictedList res = Some 4%Z) /\
      (65 <= u < 70 -> MeritListPredictor.predictedList res = Some 6%Z) /\
      (u < 65 -> MeritListPredictor.predictedList res = None)) /\
  (forall (u : Q) (interests : PreferenceGenerator.UserInterests),
      let res := PreferenceGenerator.generatePreferenceList u [] interests in
      PreferenceGenerator.rankedList res = [] /\
      PreferenceGenerator.totalPrograms (PreferenceGenerator.summary res) = 0%nat /\
      PreferenceGenerator.recommendations res
      = ["Please select some programs to generate a preference list."%string]).
Proof.
  split; [|split].
  - intros input Hly Havg res. subst res.
    rewrite (predictChance_no_data input Hly Havg). repeat split.
  - intros input Hts u res. subst res u.
    unfold MeritListPredictor.predictMeritList. rewrite Hts.
    unfold MeritListPredictor.createNoDataPrediction, geb.
    cbn [MeritListPredictor.isEstimate MeritListPredictor.confidence
         MeritListPredictor.predictedList].
    repeat match goal with
      | |- context [Qle_bool ?a ?b] => destruct (leb_spec a b)
      end;
      repeat split; intros; try reflexivity; lra.
  - intros u interests res. repeat split.
Qed.

Lemma missing_reference_data_falls_back_witness :
  let chanceInput := {| ChancePredictor.userAggregate := 76;
                        ChancePredictor.programId := "p1";
                        ChancePredictor.programName := "Software Engineering";
                        ChancePredictor.lastYearClosingAggregate := Null;
                        ChancePredictor.lastYearClosingPosition := Undefined;
                        ChancePredictor.averageClosingAggregate := Undefined |} in
  let listInput := {| MeritListPredictor.userAggregate := 76;
                      MeritListPredictor.programId := "p1";
                      MeritListPredictor.programName := "Software Engineering";
                      MeritListPredictor.thresholds := [] |} in
  nullish (ChancePredictor.lastYearClosingAggregate chanceInput) = true /\
  nullish (ChancePredictor.averageClosingAggregate chanceInput) = true /\
  ChancePredictor.chancePercentage (ChancePredictor.predictChance chanceInput) = 50 /\
  MeritListPredictor.thresholds listInput = [] /\
  MeritListPredictor.isEstimate (MeritListPredictor.predictMeritList listInput)
  = true /\
  MeritListPredictor.predictedList (MeritListPredictor.predictMeritList listInput)
  = Some 2%Z.
Proof.
  intros chanceInput listInput.
  destruct missing_reference_data_falls_back as (Hchance & Hlist & _).
  split; [reflexivity|]. split; [reflexivity|].
  split; [exact (proj1 (Hchance chanceInput eq_refl eq_refl))|].
  split; [reflexivity|].
  destruct (Hlist listInput eq_refl) as (Hest & _ & _ & H75 & _).
  split; [exact Hest|].
  apply H75. split; [discriminate | reflexivity].
Defined.

End FallbackFacts.

(** * The computed values: double arithmetic *)

(** ** Rounding to a double *)

Section DoubleRounding.
Import Double.

Lemma pow2_pos (z : Z) : 0 < pow2 z.
Proof. apply Qpower_0_lt. reflexivity. Qed.

Lemma pow2_add (a b : Z) : pow2 (a + b) == pow2 a * pow2 b.
Proof. apply Qpower_plus. discriminate. Qed.

Lemma pow2_opp (z : Z) : pow2 (- z) == / pow2 z.
Proof. apply Qpower_opp. Qed.

Lemma pow2_Z (z : Z) : (0 <= z)%Z -> pow2 z == inject_Z (2 ^ z).
Proof. intros H. unfold pow2. rewrite Zpower_Qpower by exact H. reflexivity. Qed.

Lemma pow2_le (a b : Z) : (a <= b)%Z -> pow2 a <= pow2 b.
Proof. intros H. apply Qpower_le_compat_l; [exact H | discriminate]. Qed.

Lemma pow2_lt (a b : Z) : (a < b)%Z -> pow2 a < pow2 b.
Proof. intros H. apply Qpower_lt_compat_l; [exact H | reflexivity]. Qed.

Lemma pow2_lt_inv (a b : Z) : pow2 a < pow2 b -> (a < b)%Z.
Proof. intros H. apply (Qpower_lt_compat_l_inv 2); [exact H | reflexivity]. Qed.

Lemma pow2_cancel (a b : Z) : pow2 a * pow2 (b - a) == pow2 b.
Proof. rewrite <- pow2_add. replace (a + (b - a))%Z with b by ring. reflexivity. Qed.

(** Scaling by a power of two and back. *)
Lemma pow2_scale_back (x : Q) (k : Z) : x * pow2 k * pow2 (- k) == x.
Proof.
  rewrite <- Qmult_assoc, <- pow2_add.
  replace (k + - k)%Z with 0%Z by ring. unfold pow2; simpl. ring.
Qed.

Lemma binade_bounds (a : Q) :
  0 < a -> pow2 (binade a) <= a /\ a < pow2 (binade a + 1).
Proof.
  intros Ha. destruct a as [p q]. unfold binade. cbn [Qnum Qden].
  assert (Hp : (0 < p)%Z).
  { unfold Qlt in Ha. cbn in Ha. lia. }
  set (lp := Z.log2 p). set (lq := Z.log2 (Z.pos q)).
  assert (Hlp : (2 ^ lp <= p < 2 ^ (lp + 1))%Z).
  { pose proof (Z.log2_spec p Hp) as H. unfold lp. replace (Z.log2 p + 1)%Z with (Z.succ (Z.log2 p)) by lia. exact H. }
  assert (Hlq : (2 ^ lq <= Z.pos q < 2 ^ (lq + 1))%Z).
  { pose proof (Z.log2_spec (Z.pos q) ltac:(lia)) as H. unfold lq. replace (Z.log2 (Z.pos q) + 1)%Z with (Z.succ (Z.log2 (Z.pos q))) by lia. exact H. }
  assert (H0p : (0 <= lp)%Z) by apply Z.log2_nonneg.
  assert (H0q : (0 <= lq)%Z) by apply Z.log2_nonneg.
  (* the number lies strictly between 2^(e-1) and 2^(e+1) *)
  assert (Hlow : pow2 (lp - lq - 1) < p # q).
  { rewrite (Qmake_Qdiv p q).
    apply Qlt_shift_div_l; [reflexivity|].
    apply Qlt_le_trans with (pow2 (lp - lq - 1) * pow2 (lq + 1)).
    - apply Qmult_lt_l; [apply pow2_pos|].
      rewrite pow2_Z by lia. rewrite <- Zlt_Qlt. lia.
    - rewrite <- pow2_add. replace (lp - lq - 1 + (lq + 1))%Z with lp by ring.
      rewrite pow2_Z by lia. rewrite <- Zle_Qle. lia. }
  assert (Hhigh : p # q < pow2 (lp - lq + 1)).
  { rewrite (Qmake_Qdiv p q).
    apply Qlt_shift_div_r; [reflexivity|].
    apply Qlt_le_trans with (pow2 (lp + 1)).
    - rewrite pow2_Z by lia. rewrite <- Zlt_Qlt. lia.
    - replace (lp + 1)%Z with (lp - lq + 1 + lq)%Z at 1 by ring.
      rewrite pow2_add. apply Qmult_le_l; [apply pow2_pos|].
      rewrite pow2_Z by lia. rewrite <- Zle_Qle. lia. }
  destruct (Qle_bool (pow2 (lp - lq)) (p # q)) eqn:E.
  - apply Qle_bool_iff in E. split; assumption.
  - assert (E' : p # q < pow2 (lp - lq)).
    { apply Qnot_le_lt. intros H. apply Qle_bool_iff in H. congruence. }
    split.
    + apply Qlt_le_weak. exact Hlow.
    + replace (lp - lq - 1 + 1)%Z with (lp - lq)%Z by ring. exact E'.
Qed.

Lemma binade_unique (a : Q) (e : Z) :
  pow2 e <= a -> a < pow2 (e + 1) -> binade a = e.
Proof.
  intros Hl Hu.
  assert (Ha : 0 < a) by (eapply Qlt_le_trans; [apply pow2_pos | exact Hl]).
  destruct (binade_bounds a Ha) as [Bl Bu].
  assert (H1 : (e < binade a + 1)%Z).
  { apply pow2_lt_inv. eapply Qle_lt_trans; eassumption. }
  assert (H2 : (binade a < e + 1)%Z).
  { apply pow2_lt_inv. eapply Qle_lt_trans; eassumption. }
  lia.
Qed.

Lemma binade_eq (a b : Q) : 0 < a -> a == b -> binade a = binade b.
Proof.
  intros Ha E. symmetry. apply binade_unique.
  - rewrite <- E. apply binade_bounds, Ha.
  - rewrite <- E. apply binade_bounds, Ha.
Qed.

Lemma binade_le (a b : Q) : 0 < a -> a <= b -> (binade a <= binade b)%Z.
Proof.
  intros Ha H.
  assert (Hb : 0 < b) by (eapply Qlt_le_trans; eassumption).
  destruct (binade_bounds a Ha) as [Al _].
  destruct (binade_bounds b Hb) as [_ Bu].
  assert (binade a < binade b + 1)%Z; [|lia].
  apply pow2_lt_inv. eapply Qle_lt_trans; [exact Al|].
  eapply Qle_lt_trans; eassumption.
Qed.

(** *** Rounding to the nearest integer, ties to even *)

Lemma nearest_even_cases (s : Q) :
  let f := Qfloor s in
  (s - inject_Z f < 1 # 2 /\ nearest_even s = f) \/
  (s - inject_Z f == 1 # 2 /\
   nearest_even s = if Z.even f then f else (f + 1)%Z) \/
  (1 # 2 < s - inject_Z f /\ nearest_even s = (f + 1)%Z).
Proof.
  intros f. unfold nearest_even. fold f.
  destruct (Qcompare_spec (s - inject_Z f) (1 # 2)) as [E|E|E]; auto.
Qed.

Lemma floor_bounds (s : Q) : inject_Z (Qfloor s) <= s /\ s < inject_Z (Qfloor s) + 1.
Proof.
  split; [apply Qfloor_le|].
  pose proof (Qlt_floor s) as H. rewrite inject_Z_plus in H. exact H.
Qed.

Lemma nearest_even_eq (s t : Q) : s == t -> nearest_even s = nearest_even t.
Proof.
  intros E. unfold nearest_even. rewrite (Qfloor_comp s t E).
  assert (E' : s - inject_Z (Qfloor t) == t - inject_Z (Qfloor t)) by (rewrite E; reflexivity).
  rewrite (Qcompare_comp _ _ E' (1 # 2) (1 # 2) (Qeq_refl _)). reflexivity.
Qed.

Lemma nearest_even_Z (z : Z) : nearest_even (inject_Z z) = z.
Proof.
  destruct (nearest_even_cases (inject_Z z)) as [[H E]|[[H E]|[H E]]];
    rewrite Qfloor_Z in *; try exact E; exfalso.
  - assert (inject_Z z - inject_Z z == 0) by ring. rewrite H0 in H. discriminate.
  - assert (inject_Z z - inject_Z z == 0) by ring. rewrite H0 in H. discriminate.
Qed.

Lemma nearest_even_near (s : Q) :
  s - (1 # 2) <= inject_Z (nearest_even s) <= s + (1 # 2).
Proof.
  destruct (floor_bounds s) as [L U].
  destruct (nearest_even_cases s) as [[H E]|[[H E]|[H E]]]; rewrite E.
  - split; lra.
  - destruct (Z.even (Qfloor s));
      [|rewrite inject_Z_plus; change (inject_Z 1) with 1]; split; lra.
  - rewrite inject_Z_plus. change (inject_Z 1) with 1. split; lra.
Qed.

Lemma nearest_even_mono (s t : Q) : s <= t -> (nearest_even s <= nearest_even t)%Z.
Proof.
  intros H.
  pose proof (Qfloor_resp_le s t H) as Hf.
  destruct (floor_bounds s) as [Ls Us]. destruct (floor_bounds t) as [Lt Ut].
  destruct (Z.eq_dec (Qfloor s) (Qfloor t)) as [E|N].
  - destruct (nearest_even_cases s) as [[Hs Es]|[[Hs Es]|[Hs Es]]];
    destruct (nearest_even_cases t) as [[Ht Et]|[[Ht Et]|[Ht Et]]];
    rewrite Es, Et; rewrite <- ?E in *;
    try (destruct (Z.even (Qfloor s)); lia); try lia; exfalso;
    rewrite <- ?E in Ht; lra.
  - assert (Hlt : (Qfloor s + 1 <= Qfloor t)%Z) by lia.
    assert (A : (nearest_even s <= Qfloor s + 1)%Z).
    { destruct (nearest_even_cases s) as [[_ Es]|[[_ Es]|[_ Es]]]; rewrite Es;
        try destruct (Z.even (Qfloor s)); lia. }
    assert (B : (Qfloor t <= nearest_even t)%Z).
    { destruct (nearest_even_cases t) as [[_ Et]|[[_ Et]|[_ Et]]]; rewrite Et;
        try destruct (Z.even (Qfloor t)); lia. }
    lia.
Qed.

(** *** Rounding a positive number *)

Lemma scaled_bounds (a : Q) :
  0 < a ->
  pow2 52 <= a * pow2 (52 - binade a) /\ a * pow2 (52 - binade a) < pow2 53.
Proof.
  intros Ha. destruct (binade_bounds a Ha) as [L U].
  set (e := binade a) in *.
  split.
  - rewrite <- (pow2_cancel e 52).
    apply Qmult_le_compat_r; [exact L | apply Qlt_le_weak, pow2_pos].
  - replace 53%Z with (e + 1 + (52 - e))%Z by ring. rewrite (pow2_add (e + 1)).
    apply Qmult_lt_compat_r; [apply pow2_pos | exact U].
Qed.

Lemma mantissa_bounds (a : Q) :
  0 < a ->
  (2 ^ 52 <= nearest_even (a * pow2 (52 - binade a)) <= 2 ^ 53)%Z.
Proof.
  intros Ha. destruct (scaled_bounds a Ha) as [L U].
  split.
  - rewrite <- (nearest_even_Z (2 ^ 52)). apply nearest_even_mono. exact L.
  - rewrite <- (nearest_even_Z (2 ^ 53)). apply nearest_even_mono.
    apply Qlt_le_weak. exact U.
Qed.

Lemma round_positive_bounds (a : Q) :
  0 < a ->
  pow2 (binade a) <= round_positive a <= pow2 (binade a + 1).
Proof.
  intros Ha. destruct (mantissa_bounds a Ha) as [L U]. unfold round_positive.
  set (e := binade a) in *. set (m := nearest_even _) in *.
  split.
  - rewrite <- (pow2_cancel 52 e).
    apply Qmult_le_compat_r; [|apply Qlt_le_weak, pow2_pos].
    change (pow2 52) with (inject_Z (2 ^ 52)). rewrite <- Zle_Qle. exact L.
  - replace (e + 1)%Z with (53 + (e - 52))%Z by ring. rewrite pow2_add.
    apply Qmult_le_compat_r; [|apply Qlt_le_weak, pow2_pos].
    change (pow2 53) with (inject_Z (2 ^ 53)). rewrite <- Zle_Qle. exact U.
Qed.

Lemma round_positive_pos (a : Q) : 0 < a -> 0 < round_positive a.
Proof.
  intros Ha. eapply Qlt_le_trans; [apply (pow2_pos (binade a))|].
  apply round_positive_bounds, Ha.
Qed.

Lemma round_positive_eq (a b : Q) :
  0 < a -> a == b -> round_positive a == round_positive b.
Proof.
  intros Ha E. unfold round_positive. cbv zeta. rewrite <- (binade_eq a b Ha E).
  rewrite (nearest_even_eq (a * pow2 (52 - binade a)) (b * pow2 (52 - binade a))).
  - reflexivity.
  - apply Qmult_comp; [exact E | reflexivity].
Qed.

Lemma round_positive_mono (a b : Q) :
  0 < a -> a <= b -> round_positive a <= round_positive b.
Proof.
  intros Ha H.
  assert (Hb : 0 < b) by (eapply Qlt_le_trans; eassumption).
  pose proof (binade_le a b Ha H) as He.
  destruct (Z.eq_dec (binade a) (binade b)) as [E|N].
  - unfold round_positive. cbv zeta. rewrite <- E.
    apply Qmult_le_compat_r; [|apply Qlt_le_weak, pow2_pos].
    rewrite <- Zle_Qle. apply nearest_even_mono.
    apply Qmult_le_compat_r; [exact H | apply Qlt_le_weak, pow2_pos].
  - destruct (round_positive_bounds a Ha) as [_ U].
    destruct (round_positive_bounds b Hb) as [L _].
    eapply Qle_trans; [exact U|]. eapply Qle_trans; [|exact L].
    apply pow2_le. lia.
Qed.

(** A number with at most 53 significant bits is kept. *)
Lemma round_positive_dyadic (m k : Z) :
  (0 < m < 2 ^ 53)%Z ->
  round_positive (inject_Z m * pow2 k) == inject_Z m * pow2 k.
Proof.
  intros Hm. set (a := inject_Z m * pow2 k).
  assert (Ha : 0 < a).
  { apply Qmult_lt_0_compat; [|apply pow2_pos].
    change 0 with (inject_Z 0). rewrite <- Zlt_Qlt. lia. }
  destruct (binade_bounds a Ha) as [L U]. unfold round_positive.
  set (e := binade a) in *.
  assert (He : (e < 53 + k)%Z).
  { apply pow2_lt_inv. eapply Qle_lt_trans; [exact L|].
    unfold a. rewrite pow2_add.
    apply Qmult_lt_compat_r; [apply pow2_pos|].
    change (pow2 53) with (inject_Z (2 ^ 53)). rewrite <- Zlt_Qlt. lia. }
  assert (Hs : a * pow2 (52 - e) == inject_Z (m * 2 ^ (k + 52 - e))).
  { unfold a. rewrite <- Qmult_assoc, <- pow2_add.
    replace (k + (52 - e))%Z with (k + 52 - e)%Z by ring.
    rewrite pow2_Z by lia. rewrite inject_Z_mult. reflexivity. }
  rewrite (nearest_even_eq _ _ Hs), nearest_even_Z.
  rewrite inject_Z_mult, <- pow2_Z by lia.
  rewrite <- Qmult_assoc, <- pow2_add.
  replace (k + 52 - e + (e - 52))%Z with k by ring. reflexivity.
Qed.

Lemma round_positive_idem (a : Q) :
  0 < a -> round_positive (round_positive a) == round_positive a.
Proof.
  intros Ha. destruct (mantissa_bounds a Ha) as [L U].
  unfold round_positive at 2 3.
  set (e := binade a) in *. set (m := nearest_even _) in *.
  destruct (Z.eq_dec m (2 ^ 53)%Z) as [E|N].
  - assert (R : inject_Z m * pow2 (e - 52) == inject_Z (2 ^ 52) * pow2 (e - 51)).
    { rewrite E. replace (e - 51)%Z with (1 + (e - 52))%Z by ring.
      rewrite (pow2_add 1). change (pow2 1) with 2.
      change (inject_Z (2 ^ 53)) with (inject_Z (2 ^ 52) * 2). ring. }
    assert (P : 0 < inject_Z m * pow2 (e - 52)).
    { apply Qmult_lt_0_compat; [|apply pow2_pos].
      change 0 with (inject_Z 0). rewrite <- Zlt_Qlt. lia. }
    eapply Qeq_trans; [apply (round_positive_eq _ _ P R)|].
    eapply Qeq_trans; [|symmetry; exact R].
    apply round_positive_dyadic. lia.
  - apply round_positive_dyadic. lia.
Qed.

Lemma round_positive_error (a : Q) :
  0 < a -> Qabs (round_positive a - a) <= pow2 (binade a - 53).
Proof.
  intros Ha. unfold round_positive. set (e := binade a).
  pose proof (nearest_even_near (a * pow2 (52 - e))) as [L U].
  set (m := inject_Z (nearest_even (a * pow2 (52 - e)))) in *.
  assert (P : 0 < pow2 (e - 52)) by apply pow2_pos.
  assert (Hback : a * pow2 (52 - e) * pow2 (e - 52) == a).
  { replace (e - 52)%Z with (- (52 - e))%Z by ring. apply pow2_scale_back. }
  assert (Hhalf : (1 # 2) * pow2 (e - 52) == pow2 (e - 53)).
  { replace (e - 52)%Z with (1 + (e - 53))%Z by ring. rewrite pow2_add.
    change (pow2 1) with 2. ring. }
  set (p := pow2 (52 - e)) in *. set (q := pow2 (e - 52)) in *.
  set (r := pow2 (e - 53)) in *.
  apply Qabs_Qle_condition. split.
  - assert (X : (a * p - (1 # 2)) * q <= m * q).
    { apply Qmult_le_compat_r; [exact L | apply Qlt_le_weak, P]. }
    lra.
  - assert (X : m * q <= (a * p + (1 # 2)) * q).
    { apply Qmult_le_compat_r; [exact U | apply Qlt_le_weak, P]. }
    lra.
Qed.

(** *** Rounding any number *)

Lemma double_cases (x : Q) :
  (x == 0 /\ double x == 0) \/
  (0 < x /\ double x == round_positive x) \/
  (x < 0 /\ double x == - round_positive (- x)).
Proof.
  unfold double. destruct (Qcompare_spec x 0) as [E|E|E].
  - left. split; [exact E | reflexivity].
  - right. right. split; [exact E | apply Qred_correct].
  - right. left. split; [exact E | apply Qred_correct].
Qed.

(** Equal numbers have the very same double. *)
Lemma double_canonical (x y : Q) : x == y -> double x = double y.
Proof.
  intros E. unfold double.
  rewrite (Qcompare_comp x y E 0 0 (Qeq_refl 0)).
  destruct (Qcompare_spec y 0) as [E0|E0|E0]; [reflexivity| |].
  - apply Qred_complete. apply Qopp_comp.
    apply round_positive_eq; [lra | rewrite E; reflexivity].
  - apply Qred_complete. apply round_positive_eq; [lra | exact E].
Qed.

End DoubleRounding.

#[global] Instance double_proper : Proper (Qeq ==> Qeq) Double.double.
Proof. intros x y E. rewrite (double_canonical x y E). reflexivity. Qed.

Section DoubleOrder.
Import Double.

Lemma double_eq (x y : Q) : x == y -> double x == double y.
Proof. intros E. rewrite E. reflexivity. Qed.

Lemma double_opp (x : Q) : double (- x) == - double x.
Proof.
  destruct (double_cases x) as [[Hx Ex]|[[Hx Ex]|[Hx Ex]]];
  destruct (double_cases (- x)) as [[Hy Ey]|[[Hy Ey]|[Hy Ey]]];
  rewrite Ex, Ey; try reflexivity; try (exfalso; lra).
  - apply Qopp_comp. apply round_positive_eq; [lra | ring].
  - rewrite Qopp_involutive. reflexivity.
Qed.

Lemma double_pos (x : Q) : 0 < x -> 0 < double x.
Proof.
  intros H. destruct (double_cases x) as [[Hx Ex]|[[Hx Ex]|[Hx Ex]]];
    try (exfalso; lra).
  rewrite Ex. apply round_positive_pos, H.
Qed.

Lemma double_neg (x : Q) : x < 0 -> double x < 0.
Proof.
  intros H. destruct (double_cases x) as [[Hx Ex]|[[Hx Ex]|[Hx Ex]]];
    try (exfalso; lra).
  rewrite Ex. pose proof (round_positive_pos (- x) ltac:(lra)). lra.
Qed.

Lemma double_zero (x : Q) : x == 0 -> double x == 0.
Proof. intros H. rewrite (double_eq x 0 H). reflexivity. Qed.

Lemma double_nonneg (x : Q) : 0 <= double x <-> 0 <= x.
Proof.
  split; intros H.
  - destruct (Qlt_le_dec x 0) as [N|P]; [|exact P].
    pose proof (double_neg x N). lra.
  - destruct (Qlt_le_dec 0 x) as [P|N].
    + apply Qlt_le_weak, double_pos, P.
    + rewrite (double_zero x) by lra. lra.
Qed.

Lemma double_positive (x : Q) : 0 < double x <-> 0 < x.
Proof.
  split; intros H.
  - destruct (Qlt_le_dec 0 x) as [P|N]; [exact P|].
    destruct (Qlt_le_dec x 0) as [N'|P'].
    + pose proof (double_neg x N'). lra.
    + rewrite (double_zero x) in H by lra. lra.
  - apply double_pos, H.
Qed.

Lemma double_mono (x y : Q) : x <= y -> double x <= double y.
Proof.
  intros H.
  destruct (double_cases x) as [[Hx Ex]|[[Hx Ex]|[Hx Ex]]];
  destruct (double_cases y) as [[Hy Ey]|[[Hy Ey]|[Hy Ey]]];
  rewrite Ex, Ey; try lra.
  - apply Qlt_le_weak, round_positive_pos, Hy.
  - apply round_positive_mono; assumption.
  - pose proof (round_positive_pos (- x) ltac:(lra)). lra.
  - pose proof (round_positive_pos (- x) ltac:(lra)).
    pose proof (round_positive_pos y Hy). lra.
  - pose proof (round_positive_mono (- y) (- x) ltac:(lra) ltac:(lra)). lra.
Qed.

Lemma double_idem (x : Q) : double (double x) == double x.
Proof.
  destruct (double_cases x) as [[Hx Ex]|[[Hx Ex]|[Hx Ex]]]; rewrite Ex.
  - reflexivity.
  - pose proof (round_positive_pos x Hx) as P.
    destruct (double_cases (round_positive x)) as [[Hy Ey]|[[Hy Ey]|[Hy Ey]]];
      try (exfalso; lra).
    rewrite Ey. apply round_positive_idem, Hx.
  - pose proof (round_positive_pos (- x) ltac:(lra)) as P.
    rewrite double_opp. apply Qopp_comp.
    destruct (double_cases (round_positive (- x))) as [[Hy Ey]|[[Hy Ey]|[Hy Ey]]];
      try (exfalso; lra).
    rewrite Ey. apply round_positive_idem. lra.
Qed.

Lemma double_dyadic (m k : Z) :
  (Z.abs m < 2 ^ 53)%Z -> double (inject_Z m * pow2 k) == inject_Z m * pow2 k.
Proof.
  intros Hm. pose proof (pow2_pos k) as P.
  destruct (Z.lt_trichotomy m 0) as [N|[E|G]].
  - assert (R : inject_Z m * pow2 k == - (inject_Z (- m) * pow2 k)).
    { rewrite inject_Z_opp. ring. }
    rewrite R, double_opp. apply Qopp_comp.
    assert (Hp : 0 < inject_Z (- m) * pow2 k).
    { apply Qmult_lt_0_compat; [|exact P].
      change 0 with (inject_Z 0). rewrite <- Zlt_Qlt. lia. }
    destruct (double_cases (inject_Z (- m) * pow2 k)) as [[Hy Ey]|[[Hy Ey]|[Hy Ey]]];
      try (exfalso; lra).
    rewrite Ey. apply round_positive_dyadic. lia.
  - subst m. assert (Z0 : inject_Z 0 * pow2 k == 0) by ring.
    rewrite Z0. reflexivity.
  - assert (Hp : 0 < inject_Z m * pow2 k).
    { apply Qmult_lt_0_compat; [|exact P].
      change 0 with (inject_Z 0). rewrite <- Zlt_Qlt. lia. }
    destruct (double_cases (inject_Z m * pow2 k)) as [[Hy Ey]|[[Hy Ey]|[Hy Ey]]];
      try (exfalso; lra).
    rewrite Ey. apply round_positive_dyadic. lia.
Qed.

(** Integers below [2^53] in magnitude are doubles. *)
Lemma double_Z (z : Z) : (Z.abs z < 2 ^ 53)%Z -> double (inject_Z z) == inject_Z z.
Proof.
  intros H. pose proof (double_dyadic z 0 H) as D.
  change (pow2 0) with 1 in D. rewrite Qmult_1_r in D. exact D.
Qed.

Lemma double_error (x : Q) (k : Z) :
  Qabs x <= pow2 k -> Qabs (double x - x) <= pow2 (k - 53).
Proof.
  intros H. pose proof (pow2_pos (k - 53)) as P.
  assert (Hpos : forall a, 0 < a -> a <= pow2 k ->
                           Qabs (round_positive a - a) <= pow2 (k - 53)).
  { intros a Ha Hk. eapply Qle_trans; [apply round_positive_error, Ha|].
    apply pow2_le. destruct (binade_bounds a Ha) as [L _].
    assert (binade a < k + 1)%Z; [|lia].
    apply pow2_lt_inv. eapply Qle_lt_trans; [exact L|].
    eapply Qle_lt_trans; [exact Hk|]. apply pow2_lt. lia. }
  destruct (double_cases x) as [[Hx Ex]|[[Hx Ex]|[Hx Ex]]]; rewrite Ex.
  - rewrite Hx. apply Qlt_le_weak. exact P.
  - apply Hpos; [exact Hx|]. rewrite Qabs_pos in H by lra. exact H.
  - rewrite Qabs_neg in H by lra.
    assert (R : - round_positive (- x) - x == - (round_positive (- x) - - x)) by ring.
    rewrite R, Qabs_opp. apply Hpos; [lra | exact H].
Qed.

(** A double is kept in lowest terms, so equal doubles are the same
    fraction. *)
Lemma double_reduced (x : Q) : Qred (double x) = double x.
Proof.
  unfold double. destruct (Qcompare x 0); [reflexivity| |];
    apply Qred_complete, Qred_correct.
Qed.

Lemma double_same (x y : Q) : double x == double y -> double x = double y.
Proof.
  intros E. rewrite <- (double_reduced x), <- (double_reduced y).
  apply Qred_complete, E.
Qed.

Lemma double_fixed (x : Q) : double (double x) = double x.
Proof. apply double_same, double_idem. Qed.

(** Bounds by numbers that are doubles themselves. *)
Lemma double_lower (c x : Q) : double c == c -> c <= x -> c <= double x.
Proof. intros E H. rewrite <- E. apply double_mono, H. Qed.

Lemma double_upper (c x : Q) : double c == c -> x <= c -> double x <= c.
Proof. intros E H. rewrite <- E. apply double_mono, H. Qed.

(** The rounding error of a number of moderate size. *)
Lemma double_within (x : Q) :
  -256 <= x <= 256 ->
  x - (1 # 35184372088832) <= double x <= x + (1 # 35184372088832).
Proof.
  intros [L U].
  assert (H : Qabs x <= pow2 8).
  { apply Qabs_Qle_condition. change (pow2 8) with 256. split; lra. }
  apply double_error in H. apply Qabs_Qle_condition in H.
  change (pow2 (8 - 53)) with (1 # 35184372088832) in H.
  destruct H as [H1 H2]. split; lra.
Qed.

Lemma double_within_wide (x : Q) :
  -1024 <= x <= 1024 ->
  x - (1 # 8796093022208) <= double x <= x + (1 # 8796093022208).
Proof.
  intros [L U].
  assert (H : Qabs x <= pow2 10).
  { apply Qabs_Qle_condition. change (pow2 10) with 1024. split; lra. }
  apply double_error in H. apply Qabs_Qle_condition in H.
  change (pow2 (10 - 53)) with (1 # 8796093022208) in H.
  destruct H as [H1 H2]. split; lra.
Qed.

End DoubleOrder.

(** ** Proof automation for double arithmetic *)

(** A closed numeral expression. *)
Ltac closed_positive p :=
  lazymatch p with
  | xH => idtac
  | xO ?q => closed_positive q
  | xI ?q => closed_positive q
  end.

Ltac closed_integer z :=
  lazymatch z with
  | Z0 => idtac
  | Zpos ?p => closed_positive p
  | Zneg ?p => closed_positive p
  end.

Ltac closed_number t :=
  lazymatch t with
  | Qmake ?n ?d => closed_integer n; closed_positive d
  | Qplus ?a ?b => closed_number a; closed_number b
  | Qminus ?a ?b => closed_number a; closed_number b
  | Qmult ?a ?b => closed_number a; closed_number b
  | Qdiv ?a ?b => closed_number a; closed_number b
  | Qopp ?a => closed_number a
  | inject_Z ?z => closed_integer z
  | Double.double ?a => closed_number a
  end.

(** The double of a literal, worked out. *)
Ltac literal_doubles :=
  repeat match goal with
    | |- context [Double.double ?t] =>
        closed_number t;
        let v := eval vm_compute in (Double.double t) in
        let E := fresh "E" in
        assert (E : Double.double t = v) by (vm_compute; reflexivity);
        rewrite !E; clear E
    end.

(** Every rounding in the goal, innermost first, replaced by a variable
    with the bound of [double_within] and its sign. *)
Ltac bound_doubles :=
  repeat match goal with
    | |- context [Double.double ?t] =>
        lazymatch t with
        | context [Double.double _] => fail
        | _ => idtac
        end;
        let R := fresh "R" in
        pose proof (double_within t ltac:(split; lra)) as R;
        try (let S := fresh "S" in
             assert (S : 0 <= Double.double t)
               by (apply double_nonneg; lra));
        let v := fresh "v" in
        set (v := Double.double t) in *; clearbody v
    end.

(** The same for numbers up to 1024. *)
Ltac bound_doubles_wide :=
  repeat match goal with
    | |- context [Double.double ?t] =>
        lazymatch t with
        | context [Double.double _] => fail
        | _ => idtac
        end;
        let R := fresh "R" in
        pose proof (double_within_wide t ltac:(split; lra)) as R;
        let v := fresh "v" in
        set (v := Double.double t) in *; clearbody v
    end.

(** A case for each way a minimum or maximum in the goal can fall. *)
Ltac min_max_split :=
  repeat match goal with
    | |- context [Qmin ?a ?b] =>
        let H := fresh in
        destruct (Q.min_spec a b) as [[? H]|[? H]]; rewrite H; clear H
    | |- context [Qmax ?a ?b] =>
        let H := fresh in
        destruct (Q.max_spec a b) as [[? H]|[? H]]; rewrite H; clear H
    end.

(** ** The rounded operators *)

Section DoubleOperatorFacts.
Import Double.

Lemma sub_zero (d : Q) : double d = d -> sub d 0 = d.
Proof.
  intros E. unfold sub. rewrite E. rewrite <- E at 2.
  apply double_canonical. change (double 0) with 0. ring.
Qed.

Lemma div_one (x : Q) : double x = x -> div x 1 = x.
Proof.
  intros E. unfold div. rewrite E. rewrite <- E at 2.
  apply double_canonical. change (double 1) with 1. field.
Qed.

Lemma sub_opp (x c : Q) : sub x (- c) = add x c.
Proof.
  unfold sub, add. apply double_canonical. rewrite double_opp. ring.
Qed.

Lemma mul_comm (x y : Q) : mul x y = mul y x.
Proof. unfold mul. apply double_canonical. ring. Qed.

Lemma sub_fixed (x y : Q) : double (sub x y) = sub x y.
Proof. apply double_fixed. Qed.

Lemma geb_spec (x y : Q) :
  BoolSpec (double y <= double x) (double x < double y) (geb x y).
Proof. unfold geb. apply leb_spec. Qed.

Lemma add_fixed (x y : Q) : double (add x y) = add x y.
Proof. apply double_fixed. Qed.

Lemma mul_fixed (x y : Q) : double (mul x y) = mul x y.
Proof. apply double_fixed. Qed.

Lemma Math_max_fixed (x y : Q) :
  Double.double (Double.Math_max x y) = Double.Math_max x y.
Proof.
  unfold Double.Math_max, Qmax, GenericMinMax.gmax.
  destruct (Qcompare _ _); apply double_fixed.
Qed.

Lemma Math_min_fixed (x y : Q) :
  Double.double (Double.Math_min x y) = Double.Math_min x y.
Proof.
  unfold Double.Math_min, Qmin, GenericMinMax.gmin.
  destruct (Qcompare _ _); apply double_fixed.
Qed.

End DoubleOperatorFacts.

(** ** calcAggregate: the weighted total *)

Section CalcAggregateDoubleFacts.
Import JS.
Import CalcAggregate.
Import Binary64.calcAggregate.

Ltac aggregate_config :=
  cbv [MAX_NET_SCORE AGGREGATE_CONFIG WEIGHTS_FSC WEIGHTS_OA_LEVEL
       FSC_NET FSC_HSC FSC_SSC OA_NET OA_EQUIVALENCE
       MIN_PERCENTAGE MAX_PERCENTAGE] in *.

Lemma double_ltb_false (x y : Q) :
  Double.ltb x y = false -> Double.double y <= Double.double x.
Proof.
  unfold Double.ltb. destruct (leb_spec (Double.double y) (Double.double x)); [trivial|discriminate].
Qed.

Lemma double_gtb_false (x y : Q) :
  Double.gtb x y = false -> Double.double x <= Double.double y.
Proof.
  unfold Double.gtb. destruct (leb_spec (Double.double x) (Double.double y)); [trivial|discriminate].
Qed.

(** A number whose double lies in [[0, 200]] is close to that range. *)
Lemma double_in_range (x hi : Q) :
  0 <= hi <= 200 -> Double.double hi == hi ->
  0 <= Double.double x <= hi ->
  0 <= x <= hi + (1 # 35184372088832).
Proof.
  intros Hhi Ehi [L U]. split; [now apply double_nonneg|].
  destruct (Qlt_le_dec 256 x) as [Big|Small].
  - pose proof (double_mono 256 x ltac:(lra)) as M.
    change (Double.double 256) with 256 in M. lra.
  - assert (0 <= x) by now apply double_nonneg.
    pose proof (double_within x ltac:(split; lra)). lra.
Qed.

Lemma valid_input_doubles (input : AggregateInput) :
  isValid (validateAggregateInput input) = true ->
  0 <= Double.double (netScore input) <= 200 /\
  match truthy_bool (useEquivalence input), equivalencePercentage input with
  | true, Some e => 0 <= Double.double e <= 100
  | true, None => False
  | false, _ =>
      0 <= Double.double (hscPercentage input) <= 100 /\
      0 <= Double.double (sscPercentage input) <= 100
  end.
Proof.
  unfold validateAggregateInput. cbn [isValid]. intro H.
  apply Nat.eqb_eq in H. aggregate_config.
  destruct (truthy_bool (useEquivalence input));
    [destruct (equivalencePercentage input)|];
    repeat (apply push_if_empty in H; destruct H as [? H]);
    repeat match goal with
      | E : Double.ltb _ _ = false |- _ => apply double_ltb_false in E
      | E : Double.gtb _ _ = false |- _ => apply double_gtb_false in E
      end;
    try discriminate; repeat split; assumption.
Qed.

Lemma integer_step (a b : Z) : (a < b)%Z -> inject_Z a + 1 <= inject_Z b.
Proof.
  intros H. change 1 with (inject_Z 1). rewrite <- inject_Z_plus.
  rewrite <- Zle_Qle. lia.
Qed.

(** [toFixed(2)] of a double between 0 and 100: the nearest hundredth,
    the upper one on a tie, read back as a double. *)
Lemma toFixed2_hundredth (x : Q) :
  0 <= Double.double x <= 101 ->
  exists n : Z,
    Double.toFixed2 x = Double.double (inject_Z n / 100) /\
    inject_Z n <= Double.double x * 100 + (1 # 2) < inject_Z n + 1.
Proof.
  intros [L U]. unfold Double.toFixed2.
  set (d := Double.double x) in *.
  assert (Ea : Qabs d == d) by (apply Qabs_pos, L).
  destruct (leb_spec (inject_Z (10 ^ 21)) (Qabs d)) as [Big|_].
  { rewrite Ea in Big.
    assert (101 < inject_Z (10 ^ 21)) by reflexivity. lra. }
  destruct (leb_spec 0 d) as [_|Neg]; [|lra].
  assert (Ef : Qfloor (Qabs d * 100 + (1 # 2)) = Qfloor (d * 100 + (1 # 2))).
  { apply Qfloor_comp. rewrite Ea. reflexivity. }
  rewrite Ef. exists (Qfloor (d * 100 + (1 # 2))).
  split; [reflexivity|]. apply floor_bounds.
Qed.

Lemma toFixed2_percentage_double (x : Q) :
  0 <= Double.double x <= 100 + (1 # 400) ->
  0 <= Double.toFixed2 x <= 100.
Proof.
  intros [L U].
  destruct (toFixed2_hundredth x ltac:(split; lra)) as (n & -> & Hn1 & Hn2).
  assert (Hlo : (0 <= n)%Z).
  { rewrite Zle_Qle. apply Qnot_lt_le. intros N.
    pose proof (integer_step n 0 ltac:(rewrite Zlt_Qlt; exact N)) as S.
    change (inject_Z 0) with 0 in S. lra. }
  assert (Hhi : (n <= 10000)%Z).
  { rewrite Zle_Qle. apply Qnot_lt_le. intros N.
    pose proof (integer_step 10000 n ltac:(rewrite Zlt_Qlt; exact N)) as S.
    change (inject_Z 10000) with 10000 in *. lra. }
  rewrite Zle_Qle in Hlo, Hhi.
  change (inject_Z 0) with 0 in Hlo. change (inject_Z 10000) with 10000 in Hhi.
  split.
  - apply double_nonneg. literal_inverses. lra.
  - assert (E100 : Double.double 100 = 100) by (vm_compute; reflexivity).
    rewrite <- E100. apply double_mono. literal_inverses. lra.
Qed.

(** The unrounded terms of each variant. *)
Lemma terms_equivalence (input : AggregateInput) (e : Q) :
  truthy_bool (useEquivalence input) = true ->
  equivalencePercentage input = Some e ->
  let netPct := Double.mul (Double.div (netScore input) 200) 100 in
  calculateAggregate_terms input =
  {| raw_isOALevel := true;
     raw_net := Double.mul netPct (75 # 100);
     raw_hsc := 0;
     raw_ssc := 0;
     raw_equivalence := Some (Double.mul e (25 # 100));
     raw_total :=
       Double.add (Double.mul netPct (75 # 100)) (Double.mul e (25 # 100)) |}.
Proof.
  intros H1 H2. unfold calculateAggregate_terms. rewrite H1, H2. reflexivity.
Qed.

Lemma terms_local (input : AggregateInput) :
  truthy_bool (useEquivalence input) = false \/
  equivalencePercentage input = None ->
  let netPct := Double.mul (Double.div (netScore input) 200) 100 in
  calculateAggregate_terms input =
  {| raw_isOALevel := false;
     raw_net := Double.mul netPct (75 # 100);
     raw_hsc := Double.mul (hscPercentage input) (15 # 100);
     raw_ssc := Double.mul (sscPercentage input) (10 # 100);
     raw_equivalence := None;
     raw_total :=
       Double.add
         (Double.add (Double.mul netPct (75 # 100))
                     (Double.mul (hscPercentage input) (15 # 100)))
         (Double.mul (sscPercentage input) (10 # 100)) |}.
Proof.
  intros H. unfold calculateAggregate_terms.
  destruct H as [H|H]; rewrite H; [|destruct (truthy_bool _)]; reflexivity.
Qed.

(** The computed sum stays within [10^-11] of the formula over the
    reals. *)
Lemma total_equivalence_near (n e : Q) :
  0 <= Double.double n <= 200 -> 0 <= Double.double e <= 100 ->
  let raw :=
    Double.add
      (Double.mul (Double.mul (Double.div n 200) 100) (75 # 100))
      (Double.mul e (25 # 100)) in
  Qabs (raw - (n / 200 * 100 * (75 # 100) + e * (25 # 100)))
  <= 1 # 100000000000 /\
  0 <= raw <= 100 + (1 # 400).
Proof.
  intros Hn He raw.
  pose proof (double_in_range n 200 ltac:(split; lra)
                ltac:(vm_compute; reflexivity) Hn) as Bn.
  pose proof (double_in_range e 100 ltac:(split; lra)
                ltac:(vm_compute; reflexivity) He) as Be.
  subst raw. unfold Double.add, Double.mul, Double.div.
  rewrite !double_fixed. literal_doubles. literal_inverses.
  bound_doubles. split; [apply Qabs_Qle_condition|]; split; lra.
Qed.

Lemma total_local_near (n h s : Q) :
  0 <= Double.double n <= 200 ->
  0 <= Double.double h <= 100 -> 0 <= Double.double s <= 100 ->
  let raw :=
    Double.add
      (Double.add
         (Double.mul (Double.mul (Double.div n 200) 100) (75 # 100))
         (Double.mul h (15 # 100)))
      (Double.mul s (10 # 100)) in
  Qabs (raw - (n / 200 * 100 * (75 # 100) + h * (15 # 100) + s * (10 # 100)))
  <= 1 # 100000000000 /\
  0 <= raw <= 100 + (1 # 400).
Proof.
  intros Hn Hh Hs raw.
  pose proof (double_in_range n 200 ltac:(split; lra)
                ltac:(vm_compute; reflexivity) Hn) as Bn.
  pose proof (double_in_range h 100 ltac:(split; lra)
                ltac:(vm_compute; reflexivity) Hh) as Bh.
  pose proof (double_in_range s 100 ltac:(split; lra)
                ltac:(vm_compute; reflexivity) Hs) as Bs.
  subst raw. unfold Double.add, Double.mul, Double.div.
  rewrite !double_fixed. literal_doubles. literal_inverses.
  bound_doubles. split; [apply Qabs_Qle_condition|]; split; lra.
Qed.

(** The computed total against the sum of the computed terms over the
    reals. *)
Lemma sum_equivalence_near (n e : Q) :
  0 <= Double.double n <= 200 -> 0 <= Double.double e <= 100 ->
  let a := Double.mul (Double.mul (Double.div n 200) 100) (75 # 100) in
  let b := Double.mul e (25 # 100) in
  Qabs (Double.add a b - (a + b)) <= 1 # 100000000000.
Proof.
  intros Hn He a b.
  pose proof (double_in_range n 200 ltac:(split; lra)
                ltac:(vm_compute; reflexivity) Hn) as Bn.
  pose proof (double_in_range e 100 ltac:(split; lra)
                ltac:(vm_compute; reflexivity) He) as Be.
  subst a b. unfold Double.add, Double.mul, Double.div.
  rewrite !double_fixed. literal_doubles. literal_inverses.
  bound_doubles. apply Qabs_Qle_condition; split; lra.
Qed.

Lemma sum_local_near (n h s : Q) :
  0 <= Double.double n <= 200 ->
  0 <= Double.double h <= 100 -> 0 <= Double.double s <= 100 ->
  let a := Double.mul (Double.mul (Double.div n 200) 100) (75 # 100) in
  let b := Double.mul h (15 # 100) in
  let c := Double.mul s (10 # 100) in
  Qabs (Double.add (Double.add a b) c - (a + b + c)) <= 1 # 100000000000.
Proof.
  intros Hn Hh Hs a b c.
  pose proof (double_in_range n 200 ltac:(split; lra)
                ltac:(vm_compute; reflexivity) Hn) as Bn.
  pose proof (double_in_range h 100 ltac:(split; lra)
                ltac:(vm_compute; reflexivity) Hh) as Bh.
  pose proof (double_in_range s 100 ltac:(split; lra)
                ltac:(vm_compute; reflexivity) Hs) as Bs.
  subst a b c. unfold Double.add, Double.mul, Double.div.
  rewrite !double_fixed. literal_doubles. literal_inverses.
  bound_doubles. apply Qabs_Qle_condition; split; lra.
Qed.

(** C2. For an input that passes validation, [calculateAggregate] returns
    the total of the variant's formula, computed in double arithmetic: NET
    percentage times 0.75 plus equivalence times 0.25, or NET percentage
    times 0.75 plus HSC times 0.15 plus SSC times 0.10, where the NET
    percentage is [netScore / 200 * 100].  The unrounded total is the sum
    of the unrounded terms as the code adds them, within [10^-11] of their
    sum over the reals and within [10^-11] of the formula over the reals.
    The returned total is the unrounded total rounded to two decimals: the
    double of [n / 100] for the integer [n] nearest to a hundred times the
    unrounded total, the upper one on a tie; it lies in [0, 100].  For NET
    150, HSC 85 and SSC 90 the terms are 56.25, 12.75 and 9.00 and the
    total is 78.00. *)
Theorem calculateAggregate_weighted_total :
  (forall input : AggregateInput,
      isValid (validateAggregateInput input) = true ->
      let netPct := Double.mul (Double.div (netScore input) 200) 100 in
      let r := calculateAggregate input in
      let t := calculateAggregate_terms input in
      match truthy_bool (useEquivalence input), equivalencePercentage input with
      | true, Some e =>
          isOALevel r = true /\
          raw_total t
          = Double.add (Double.mul netPct (75 # 100)) (Double.mul e (25 # 100)) /\
          raw_equivalence t = Some (Double.mul e (25 # 100)) /\
          raw_total t = Double.add (raw_net t) (Double.mul e (25 # 100)) /\
          Qabs (raw_total t - (raw_net t + Double.mul e (25 # 100)))
          <= 1 # 100000000000 /\
          Qabs (raw_total t
                - (netScore input / 200 * 100 * (75 # 100) + e * (25 # 100)))
          <= 1 # 100000000000
      | _, _ =>
          isOALevel r = false /\
          raw_total t
          = Double.add
              (Double.add (Double.mul netPct (75 # 100))
                          (Double.mul (hscPercentage input) (15 # 100)))
              (Double.mul (sscPercentage input) (10 # 100)) /\
          raw_total t
          = Double.add (Double.add (raw_net t) (raw_hsc t)) (raw_ssc t) /\
          Qabs (raw_total t - (raw_net t + raw_hsc t + raw_ssc t))
          <= 1 # 100000000000 /\
          Qabs (raw_total t
                - (netScore input / 200 * 100 * (75 # 100)
                   + hscPercentage input * (15 # 100)
                   + sscPercentage input * (10 # 100)))
          <= 1 # 100000000000
      end /\
      (exists n : Z,
          totalAggregate r = Double.double (inject_Z n / 100) /\
          inject_Z n <= raw_total t * 100 + (1 # 2) < inject_Z n + 1) /\
      0 <= totalAggregate r <= 100) /\
  (let r := calculateAggregate
              {| netScore := 150; hscPercentage := 85; sscPercentage := 90;
                 useEquivalence := None; equivalencePercentage := None |} in
   netContribution r == 5625 # 100 /\
   hscContribution r == 1275 # 100 /\
   sscContribution r == 9 /\
   totalAggregate r == 78).
Proof.
  split; [|vm_compute; repeat split; reflexivity].
  intros input Hvalid netPct r t.
  destruct (valid_input_doubles input Hvalid) as [Hnet Hrest].
  assert (Htotal : totalAggregate r = Double.toFixed2 (raw_total t)) by reflexivity.
  assert (Hflag : isOALevel r = raw_isOALevel t) by reflexivity.
  rewrite Htotal, Hflag. clear Htotal Hflag. subst t. clearbody r. clear r.
  assert (Hround : forall raw : Q,
             0 <= Double.double raw <= 100 + (1 # 400) ->
             Double.double raw = raw ->
             (exists n : Z,
                 Double.toFixed2 raw = Double.double (inject_Z n / 100) /\
                 inject_Z n <= raw * 100 + (1 # 2) < inject_Z n + 1) /\
             0 <= Double.toFixed2 raw <= 100).
  { intros raw Hrange Hfixed. split.
    - destruct (toFixed2_hundredth raw) as (n & En & Hn); [split; lra|].
      exists n. rewrite Hfixed in Hn. split; assumption.
    - apply toFixed2_percentage_double. exact Hrange. }
  destruct (truthy_bool (useEquivalence input)) eqn:Huse;
    [destruct (equivalencePercentage input) as [e|] eqn:Heq; [|contradiction]|].
  - rewrite (terms_equivalence input e Huse Heq).
    cbn [raw_total raw_net raw_isOALevel raw_equivalence].
    destruct (total_equivalence_near (netScore input) e Hnet Hrest)
      as [Hnear Hrange].
    pose proof (sum_equivalence_near (netScore input) e Hnet Hrest) as Hsum.
    split.
    + split; [reflexivity|]. split; [reflexivity|]. split; [reflexivity|].
      split; [reflexivity|]. split; [exact Hsum | exact Hnear].
    + apply Hround; [rewrite add_fixed; exact Hrange | apply add_fixed].
  - rewrite (terms_local input (or_introl Huse)).
    cbn [raw_total raw_net raw_hsc raw_ssc raw_isOALevel raw_equivalence].
    destruct Hrest as [Hhsc Hssc].
    destruct (total_local_near (netScore input) (hscPercentage input)
                (sscPercentage input) Hnet Hhsc Hssc) as [Hnear Hrange].
    pose proof (sum_local_near (netScore input) (hscPercentage input)
                  (sscPercentage input) Hnet Hhsc Hssc) as Hsum.
    split.
    + destruct (equivalencePercentage input);
        (split; [reflexivity|]; split; [reflexivity|];
         split; [reflexivity|]; split; [exact Hsum | exact Hnear]).
    + apply Hround; [rewrite add_fixed; exact Hrange | apply add_fixed].
Qed.

Lemma calculateAggregate_weighted_total_witness :
  let input := {| netScore := 150; hscPercentage := 85; sscPercentage := 90;
                  useEquivalence := None; equivalencePercentage := None |} in
  isValid (validateAggregateInput input) = true /\
  (exists n : Z,
      totalAggregate (calculateAggregate input)
      = Double.double (inject_Z n / 100) /\
      inject_Z n
      <= raw_total (calculateAggregate_terms input) * 100 + (1 # 2)
      < inject_Z n + 1) /\
  0 <= totalAggregate (calculateAggregate input) <= 100.
Proof.
  intro input.
  split; [reflexivity|].
  exact (proj2 (proj1 calculateAggregate_weighted_total input eq_refl)).
Defined.

(** A sum that falls below a tie of the rounding: over the reals the
    formula gives 63.175 for NET 121, HSC 70 and SSC 73; the sum of the
    doubles is just below it, and the total is 63.17. *)
Example calculateAggregate_just_below_a_tie :
  let input := {| netScore := 121; hscPercentage := 70; sscPercentage := 73;
                  useEquivalence := None; equivalencePercentage := None |} in
  raw_total (calculateAggregate_terms input) < 63175 # 1000 /\
  totalAggregate (calculateAggregate input) = Double.double (6317 # 100) /\
  121 / 200 * 100 * (75 # 100) + 70 * (15 # 100) + 73 * (10 # 100)
  == 63175 # 1000.
Proof. vm_compute. repeat split; reflexivity. Qed.

(** The same for an O/A Level input. *)
Example calculateAggregate_equivalence_example :
  let r := calculateAggregate
             {| netScore := 160; hscPercentage := 0; sscPercentage := 0;
                useEquivalence := Some true;
                equivalencePercentage := Some 88 |} in
  isOALevel r = true /\ totalAggregate r == 82 /\
  hscContribution r == 0 /\ sscContribution r == 0.
Proof. vm_compute. repeat split; reflexivity. Qed.

End CalcAggregateDoubleFacts.

(** ** chancePredictor: the five bands *)

Section ChancePredictorDoubleFacts.
Import JS.
Import ChancePredictor.
Import Binary64.chancePredictor.

Ltac prediction_config :=
  cbv [THRESHOLDS CHANCE_RANGES PREDICTION_CONFIG HIGH_ABOVE
       MEDIUM_HIGH_ABOVE MEDIUM_BELOW LOW_BELOW HIGH MEDIUM_HIGH MEDIUM LOW
       VERY_LOW r_min r_max] in *.

(** The band a computed difference falls in, the value of the band before
    [Math.round], and the category. *)
Lemma calculateChanceFromDifference_bands (d : Q) :
  Double.double d = d ->
  let res := calculateChanceFromDifference d in
  (2 <= d ->
   res = (HighChance,
          Double.Math_round
            (Double.Math_min 95
               (Double.add 80 (Double.mul 3 (Double.sub d 2)))))) /\
  (0 <= d < 2 ->
   res = (MediumChance,
          Double.Math_round
            (Double.add 60 (Double.mul 19 (Double.div d 2))))) /\
  (-1 <= d < 0 ->
   res = (MediumChance,
          Double.Math_round
            (Double.add 40 (Double.mul 19 (Double.add d 1))))) /\
  (-3 <= d < -1 ->
   res = (LowChance,
          Double.Math_round
            (Double.add 15 (Double.mul 24 (Double.div (Double.add d 3) 2))))) /\
  (d < -3 ->
   res = (VeryLowChance,
          Double.Math_round
            (Double.Math_max 5
               (Double.add 14 (Double.mul 2 (Double.add d 3)))))).
Proof.
  intros Hd res. subst res. unfold calculateChanceFromDifference.
  prediction_config.
  assert (E2 : Double.sub 2 0 = 2) by (vm_compute; reflexivity).
  assert (E1 : Double.sub 0 (-1) = 1) by (vm_compute; reflexivity).
  assert (E3 : Double.sub (-1) (-3) = 2) by (vm_compute; reflexivity).
  assert (R1 : Double.sub 79 60 = 19) by (vm_compute; reflexivity).
  assert (R2 : Double.sub 59 40 = 19) by (vm_compute; reflexivity).
  assert (R3 : Double.sub 39 15 = 24) by (vm_compute; reflexivity).
  rewrite E2, E1, E3, R1, R2, R3.
  rewrite (sub_zero d Hd).
  change (-1) with (- (1)). change (-3) with (- (3)).
  rewrite !sub_opp.
  rewrite (div_one (Double.add d 1)) by apply double_fixed.
  rewrite (mul_comm (Double.sub d 2) 3), (mul_comm (Double.add d 3) 2).
  unfold Double.geb. rewrite Hd.
  assert (L2 : Double.double 2 = 2) by (vm_compute; reflexivity).
  assert (L0 : Double.double 0 = 0) by reflexivity.
  assert (L1 : Double.double (- (1)) = - (1)) by (vm_compute; reflexivity).
  assert (L3 : Double.double (- (3)) = - (3)) by (vm_compute; reflexivity).
  rewrite L2, L0, L1, L3.
  destruct (leb_spec 2 d); [|destruct (leb_spec 0 d);
    [|destruct (leb_spec (- (1)) d); [|destruct (leb_spec (- (3)) d)]]];
    repeat split; intros; try reflexivity; exfalso; lra.
Qed.



(** The value of a band before [Math.round] is the band's formula over
    the reals, to within [10^-11]. *)
Lemma band_values_near (d : Q) :
  Double.double d = d ->
  (2 <= d ->
   Qabs (Double.Math_min 95 (Double.add 80 (Double.mul 3 (Double.sub d 2)))
         - Qmin 95 (80 + 3 * (d - 2))) <= 1 # 100000000000) /\
  (0 <= d < 2 ->
   Qabs (Double.add 60 (Double.mul 19 (Double.div d 2))
         - (60 + 19 * d / 2)) <= 1 # 100000000000) /\
  (-1 <= d < 0 ->
   Qabs (Double.add 40 (Double.mul 19 (Double.add d 1))
         - (40 + 19 * (d + 1))) <= 1 # 100000000000) /\
  (-3 <= d < -1 ->
   Qabs (Double.add 15 (Double.mul 24 (Double.div (Double.add d 3) 2))
         - (15 + 12 * (d + 3))) <= 1 # 100000000000) /\
  (d < -3 ->
   Qabs (Double.Math_max 5 (Double.add 14 (Double.mul 2 (Double.add d 3)))
         - Qmax 5 (14 + 2 * (d + 3))) <= 1 # 100000000000).
Proof.
  intros Hd.
  unfold Double.Math_min, Double.Math_max, Double.add, Double.sub,
    Double.mul, Double.div.
  rewrite !double_fixed, !Hd. literal_doubles. literal_inverses.
  repeat apply conj.
  - intros H. destruct (Qlt_le_dec 8 d) as [Big|Small].
    + assert (A1 : 6 <= Double.double (d - 2)).
      { apply double_lower; [reflexivity | lra]. }
      assert (A2 : 18 <= Double.double (3 * Double.double (d - 2))).
      { apply double_lower; [reflexivity | lra]. }
      assert (A3 : 98 <= Double.double (80 + Double.double (3 * Double.double (d - 2)))).
      { apply double_lower; [reflexivity | lra]. }
      set (v := Double.double (80 + _)) in *.
      apply Qabs_Qle_condition. min_max_split; split; lra.
    + bound_doubles. apply Qabs_Qle_condition. min_max_split; split; lra.
  - intros H. bound_doubles. apply Qabs_Qle_condition. split; lra.
  - intros H. bound_doubles. apply Qabs_Qle_condition. split; lra.
  - intros H. bound_doubles. apply Qabs_Qle_condition. split; lra.
  - intros H. destruct (Qlt_le_dec d (-8)) as [Big|Small].
    + assert (A1 : Double.double (d + 3) <= -5).
      { apply double_upper; [reflexivity | lra]. }
      assert (A2 : Double.double (2 * Double.double (d + 3)) <= -10).
      { apply double_upper; [reflexivity | lra]. }
      assert (A3 : Double.double (14 + Double.double (2 * Double.double (d + 3))) <= 4).
      { apply double_upper; [reflexivity | lra]. }
      set (v := Double.double (14 + _)) in *.
      apply Qabs_Qle_condition. min_max_split; split; lra.
    + bound_doubles. apply Qabs_Qle_condition. min_max_split; split; lra.
Qed.


Lemma predictAgainst_chance_double (u r : Q) :
  (category (predictAgainst u r), chancePercentage (predictAgainst u r))
  = calculateChanceFromDifference (Double.sub u r) /\
  md_difference (metadata (predictAgainst u r)) = Some (Double.sub u r).
Proof.
  unfold predictAgainst.
  destruct (calculateChanceFromDifference (Double.sub u r)); split; reflexivity.
Qed.

(** C4. With a reference closing aggregate at hand, [predictChance] takes
    [diff = userAggregate - reference], computed in double arithmetic, and
    returns the rounded value of the five-band map with the band's
    category: from 2 up, [min(95, 80 + 3 * (diff - 2))], High Chance; from
    0 to 2, [60 + 19 * diff / 2], Medium Chance; from -1 to 0,
    [40 + 19 * (diff + 1)], Medium Chance; from -3 to -1,
    [15 + 12 * (diff + 3)], Low Chance; below -3,
    [max(5, 14 + 2 * (diff + 3))], Very Low Chance.  In each band the value
    handed to [Math.round] is the formula evaluated in double arithmetic,
    which lies within [10^-11] of the formula over the reals.  An aggregate
    of 78 against a reference of 75 gives 83 and High Chance. *)
Theorem predictChance_five_bands :
  (forall (input : PredictionInput) (reference : Q),
      referenceAggregate input = Val reference ->
      let diff := Double.sub (userAggregate input) reference in
      let res := predictChance input in
      md_difference (metadata res) = Some diff /\
      (2 <= diff ->
       let raw := Double.Math_min 95
                    (Double.add 80 (Double.mul 3 (Double.sub diff 2))) in
       chancePercentage res = Double.Math_round raw /\
       category res = HighChance /\
       Qabs (raw - Qmin 95 (80 + 3 * (diff - 2))) <= 1 # 100000000000) /\
      (0 <= diff < 2 ->
       let raw := Double.add 60 (Double.mul 19 (Double.div diff 2)) in
       chancePercentage res = Double.Math_round raw /\
       category res = MediumChance /\
       Qabs (raw - (60 + 19 * diff / 2)) <= 1 # 100000000000) /\
      (-1 <= diff < 0 ->
       let raw := Double.add 40 (Double.mul 19 (Double.add diff 1)) in
       chancePercentage res = Double.Math_round raw /\
       category res = MediumChance /\
       Qabs (raw - (40 + 19 * (diff + 1))) <= 1 # 100000000000) /\
      (-3 <= diff < -1 ->
       let raw := Double.add 15
                    (Double.mul 24 (Double.div (Double.add diff 3) 2)) in
       chancePercentage res = Double.Math_round raw /\
       category res = LowChance /\
       Qabs (raw - (15 + 12 * (diff + 3))) <= 1 # 100000000000) /\
      (diff < -3 ->
       let raw := Double.Math_max 5
                    (Double.add 14 (Double.mul 2 (Double.add diff 3))) in
       chancePercentage res = Double.Math_round raw /\
       category res = VeryLowChance /\
       Qabs (raw - Qmax 5 (14 + 2 * (diff + 3))) <= 1 # 100000000000)) /\
  (forall (pid pname : string) (position average : nullable Q),
      let res := predictChance {| userAggregate := 78;
                                  programId := pid;
                                  programName := pname;
                                  lastYearClosingAggregate := Val 75;
                                  lastYearClosingPosition := position;
                                  averageClosingAggregate := average |} in
      chancePercentage res = 83 /\ category res = HighChance).
Proof.
  split; [|intros; vm_compute; split; reflexivity].
  intros input reference Href diff res. subst res.
  unfold predictChance. rewrite Href.
  destruct (predictAgainst_chance_double (userAggregate input) reference)
    as [Hres Hdiff].
  fold diff in Hres, Hdiff.
  assert (Hd : Double.double diff = diff) by apply double_fixed.
  destruct (calculateChanceFromDifference_bands diff Hd)
    as (B1 & B2 & B3 & B4 & B5).
  destruct (band_values_near diff Hd) as (N1 & N2 & N3 & N4 & N5).
  split; [exact Hdiff|].
  repeat apply conj; intros H; cbv zeta.
  - specialize (B1 H). specialize (N1 H). rewrite B1 in Hres.
    injection Hres as Hcat Hchance. repeat split; assumption.
  - specialize (B2 H). specialize (N2 H). rewrite B2 in Hres.
    injection Hres as Hcat Hchance. repeat split; assumption.
  - specialize (B3 H). specialize (N3 H). rewrite B3 in Hres.
    injection Hres as Hcat Hchance. repeat split; assumption.
  - specialize (B4 H). specialize (N4 H). rewrite B4 in Hres.
    injection Hres as Hcat Hchance. repeat split; assumption.
  - specialize (B5 H). specialize (N5 H). rewrite B5 in Hres.
    injection Hres as Hcat Hchance. repeat split; assumption.
Qed.

Lemma predictChance_five_bands_witness :
  let input := {| userAggregate := 76;
                  programId := "p1";
                  programName := "Software Engineering";
                  lastYearClosingAggregate := Null;
                  lastYearClosingPosition := Undefined;
                  averageClosingAggregate := Val 75 |} in
  referenceAggregate input = Val 75 /\
  chancePercentage (predictChance input)
  = Double.Math_round
      (Double.add 60 (Double.mul 19 (Double.div (Double.sub 76 75) 2))) /\
  category (predictChance input) = MediumChance.
Proof.
  intro input.
  split; [reflexivity|].
  destruct (proj1 predictChance_five_bands input 75 eq_refl)
    as (_ & _ & Hband & _).
  destruct Hband as (Hchance & Hcat & _).
  - split; [vm_compute; discriminate | vm_compute; reflexivity].
  - split; assumption.
Defined.

(** Just below a band edge: 64.1 against 62.1 has the computed difference
    1.999999999999993, which falls in the second band. *)
Example predictChance_below_the_edge :
  let res := predictChance {| userAggregate := 641 # 10;
                              programId := "p1";
                              programName := "Software Engineering";
                              lastYearClosingAggregate := Val (621 # 10);
                              lastYearClosingPosition := Undefined;
                              averageClosingAggregate := Undefined |} in
  Double.sub (641 # 10) (621 # 10) < 2 /\
  chancePercentage res = 79 /\ category res = MediumChance.
Proof. vm_compute. repeat split; reflexivity. Qed.

End ChancePredictorDoubleFacts.

(** ** meritListPredictor: the predicted round is a cleared one *)

Section MeritListPredictorDoubleFacts.
Import JS.
Import MeritListPredictor.
Import Binary64.meritListPredictor.

(** The computed margin is not negative exactly when the user's aggregate
    reaches the closing aggregate. *)
Lemma margin_nonneg (u closing : Q) :
  0 <= Double.sub u closing <-> Double.double closing <= Double.double u.
Proof.
  unfold Double.sub. rewrite double_nonneg. split; intros; lra.
Qed.

Lemma getConfidence_cleared_double (margin : Q) :
  Double.double margin = margin ->
  0 <= margin ->
  (2 <= margin -> getConfidence margin = High) /\
  (margin < 2 -> getConfidence margin = Medium).
Proof.
  intros Hd H0. unfold getConfidence, Double.geb.
  cbv [CONFIDENCE_THRESHOLDS MERIT_LIST_CONFIG CT_HIGH CT_MEDIUM].
  rewrite Hd.
  assert (L2 : Double.double 2 = 2) by (vm_compute; reflexivity).
  assert (L0 : Double.double 0 = 0) by reflexivity.
  rewrite L2, L0.
  destruct (leb_spec 2 margin); destruct (leb_spec 0 margin);
    split; intros; try reflexivity; lra.
Qed.

(** One turn of the loop keeps the invariant, whatever threshold of the
    list it looks at. *)
Lemma scanThreshold_cleared_double (u : Q) (ts : list MeritListThreshold)
    (st : ScanState) (t : MeritListThreshold) :
  In t ts ->
  predictionCleared u ts st ->
  predictionCleared u ts (scanThreshold u st t).
Proof.
  intros Hin Hinv. unfold scanThreshold, Double.geb.
  destruct (closingAggregate t) as [closing|] eqn:Hclosing; [|exact Hinv].
  rewrite sub_fixed. change (Double.double 0) with 0.
  assert (Hnew : forall st',
             0 <= Double.sub u closing ->
             st_predictedList st' = Some (meritListNumber t) ->
             st_confidence st' = getConfidence (Double.sub u closing) ->
             predictionCleared u ts st').
  { intros st' Hge Hp Hc p Hsome. rewrite Hp in Hsome.
    injection Hsome as <-. exists t, closing. repeat split; trivial.
    now apply margin_nonneg. }
  destruct (leb_spec 0 (Double.sub u closing)) as [Hge|Hlt].
  - destruct (st_predictedList st) as [previous|] eqn:Hprev.
    + destruct (below_closest _ _).
      * now apply Hnew.
      * intros p Hp. cbn [st_predictedList st_confidence] in *.
        apply Hinv. congruence.
    + now apply Hnew.
  - destruct (st_predictedList st) eqn:Hprev; [exact Hinv|].
    destruct (Double.ltb _ _); [|exact Hinv].
    intros p Hp. cbn [st_predictedList] in Hp. congruence.
Qed.

Lemma scan_cleared_double (u : Q) (all ts : list MeritListThreshold)
    (st : ScanState) :
  (forall t, In t ts -> In t all) ->
  predictionCleared u all st ->
  predictionCleared u all (fold_left (scanThreshold u) ts st).
Proof.
  revert st. induction ts as [|t ts IH]; intros st Hsub Hinv; [exact Hinv|].
  simpl. apply IH.
  - intros t' Ht'. apply Hsub. now right.
  - apply scanThreshold_cleared_double; [apply Hsub; now left | exact Hinv].
Qed.

(** C5. With a non-empty list of thresholds, a predicted list that is not
    null is the number of a threshold of the list whose closing aggregate
    is present and at most the user's aggregate; the clearing margin, the
    difference the code computes in double arithmetic, is then not
    negative, the confidence is High when that margin is at least 2 and
    Medium when it is below 2, and the result is not flagged as an
    estimate; when the list numbers are pairwise distinct, that threshold
    is the only one of the predicted number.  Thresholds closing at 80, 77
    and 74 for lists 1 to 3 and an aggregate of 76 give list 3 with
    confidence High. *)
Theorem predictMeritList_clears_predicted_round :
  (forall (input : MeritListPredictionInput) (p : Z),
      thresholds input <> [] ->
      predictedList (predictMeritList input) = Some p ->
      exists (t : MeritListThreshold) (closing : Q),
        In t (thresholds input) /\
        meritListNumber t = p /\
        closingAggregate t = Some closing /\
        Double.double closing <= Double.double (userAggregate input) /\
        (let margin := Double.sub (userAggregate input) closing in
         0 <= margin /\
         (2 <= margin -> confidence (predictMeritList input) = High) /\
         (margin < 2 -> confidence (predictMeritList input) = Medium)) /\
        isEstimate (predictMeritList input) = false /\
        (List.NoDup (List.map meritListNumber (thresholds input)) ->
         forall t' : MeritListThreshold,
           In t' (thresholds input) -> meritListNumber t' = p -> t' = t)) /\
  (forall pid pname : string,
      let round n c := {| meritListNumber := n;
                          closingAggregate := Some c;
                          closingPosition := None |} in
      let res := predictMeritList
                   {| userAggregate := 76;
                      programId := pid;
                      programName := pname;
                      thresholds := [round 1%Z 80; round 2%Z 77; round 3%Z 74] |} in
      predictedList res = Some 3%Z /\ confidence res = High).
Proof.
  split; [|intros; vm_compute; split; reflexivity].
  intros input p Hne Hp.
  unfold predictMeritList in *.
  destruct (thresholds input) as [|t0 ts] eqn:Hts; [contradiction|].
  cbn [predictedList confidence isEstimate] in *.
  set (sorted := Array_sort byListNumber (t0 :: ts)) in *.
  assert (Hinv : predictionCleared (userAggregate input) (t0 :: ts)
                   (fold_left (scanThreshold (userAggregate input)) sorted
                              initialScan)).
  { apply scan_cleared_double.
    - intros t Ht. unfold sorted in Ht.
      exact (proj1 (Array_sort_In byListNumber t _) Ht).
    - intros q Hq. discriminate. }
  destruct (Hinv p Hp) as (t & closing & Hin & Hnum & Hclosing & Hle & Hconf).
  exists t, closing.
  assert (Hmargin : 0 <= Double.sub (userAggregate input) closing)
    by now apply margin_nonneg.
  destruct (getConfidence_cleared_double _ (sub_fixed _ _) Hmargin)
    as [Hhigh Hmedium].
  rewrite Hconf.
  repeat split; trivial.
  intros Hnodup t' Hin' Hnum'.
  apply (distinct_numbers_identify (t0 :: ts)); trivial. congruence.
Qed.

Lemma predictMeritList_clears_predicted_round_witness :
  let round n c := {| meritListNumber := n;
                      closingAggregate := Some c;
                      closingPosition := None |} in
  let input := {| userAggregate := 76;
                  programId := "p1";
                  programName := "Software Engineering";
                  thresholds := [round 1%Z 80; round 2%Z 77; round 3%Z 74] |} in
  thresholds input <> [] /\
  predictedList (predictMeritList input) = Some 3%Z /\
  exists (t : MeritListThreshold) (closing : Q),
    In t (thresholds input) /\
    meritListNumber t = 3%Z /\
    closingAggregate t = Some closing /\
    Double.double closing <= Double.double 76.
Proof.
  intros round input.
  assert (Hne : thresholds input <> []) by discriminate.
  split; [exact Hne|]. split; [vm_compute; reflexivity|].
  destruct (proj1 predictMeritList_clears_predicted_round input 3%Z Hne
              ltac:(vm_compute; reflexivity))
    as (t & closing & Hin & Hnum & Hclosing & Hle & _).
  exists t, closing. repeat split; assumption.
Defined.

(** Just below the confidence edge: a list closing at 62.1 and an
    aggregate of 64.1 have the computed margin 1.999999999999993, so the
    confidence is Medium. *)
Example predictMeritList_below_the_edge :
  let res := predictMeritList
               {| userAggregate := 641 # 10;
                  programId := "p1";
                  programName := "Software Engineering";
                  thresholds := [{| meritListNumber := 1;
                                    closingAggregate := Some (621 # 10);
                                    closingPosition := None |}] |} in
  Double.sub (641 # 10) (621 # 10) < 2 /\
  predictedList res = Some 1%Z /\ confidence res = Medium.
Proof. vm_compute. repeat split; reflexivity. Qed.

End MeritListPredictorDoubleFacts.

(** ** preferenceGenerator: ranking and risk groups *)

Section ChanceRangeDoubleFacts.
Import JS.
Import ChancePredictor.
Import Binary64.chancePredictor.

Lemma Math_round_integer (x : Q) (lo hi : Z) :
  Double.double x = x ->
  inject_Z lo <= x <= inject_Z hi ->
  exists z : Z, (lo <= z <= hi)%Z /\ Double.Math_round x = inject_Z z.
Proof.
  intros Hd [L U]. unfold Double.Math_round. rewrite Hd.
  exists (Qfloor (x + (1 # 2))). split; [|reflexivity]. split.
  - rewrite <- (Qfloor_Z lo). apply Qfloor_resp_le. lra.
  - assert (H : (Qfloor (x + (1 # 2)) <= Qfloor (inject_Z hi + (1 # 2)))%Z)
      by (apply Qfloor_resp_le; lra).
    assert (E : Qfloor (inject_Z hi + (1 # 2)) = hi).
    { apply Z.le_antisymm.
      - assert (X : (Qfloor (inject_Z hi + (1 # 2)) < hi + 1)%Z); [|lia].
        rewrite Zlt_Qlt. eapply Qle_lt_trans; [apply Qfloor_le|].
        rewrite inject_Z_plus. change (inject_Z 1) with 1. lra.
      - rewrite <- (Qfloor_Z hi) at 1. apply Qfloor_resp_le. lra. }
    lia.
Qed.

(** In double arithmetic too, the chance is a whole number of the range
    of its band. *)
Lemma chance_band_ranges_double (d : Q) :
  Double.double d = d ->
  exists z : Z,
    snd (calculateChanceFromDifference d) = inject_Z z /\
    (d < -3 -> (5 <= z <= 14)%Z) /\
    (-3 <= d < -1 -> (15 <= z <= 39)%Z) /\
    (-1 <= d < 0 -> (40 <= z <= 59)%Z) /\
    (0 <= d < 2 -> (60 <= z <= 79)%Z) /\
    (2 <= d -> (80 <= z <= 95)%Z).
Proof.
  intros Hd.
  destruct (calculateChanceFromDifference_bands d Hd) as (B1 & B2 & B3 & B4 & B5).
  assert (Hband : forall (x : Q) (lo hi : Z) (P : Z -> Prop),
             Double.double x = x -> inject_Z lo <= x <= inject_Z hi ->
             (forall z, (lo <= z <= hi)%Z -> P z) ->
             exists z : Z, Double.Math_round x = inject_Z z /\ P z).
  { intros x lo hi P Hx Hr HP.
    destruct (Math_round_integer x lo hi Hx Hr) as (z & Hz & E).
    exists z. split; [exact E | now apply HP]. }
  destruct (Qlt_le_dec d 2) as [H2|H2];
    [destruct (Qlt_le_dec d 0) as [H0|H0];
      [destruct (Qlt_le_dec d (-1)) as [H1|H1];
        [destruct (Qlt_le_dec d (-3)) as [H3|H3]|]|]|].
  - rewrite (B5 H3). cbn [snd].
    apply (Hband _ 5%Z 14%Z); [apply Math_max_fixed | |].
    + unfold Double.Math_max, Double.add, Double.mul.
      rewrite !double_fixed, Hd. literal_doubles.
      assert (A1 : Double.double (d + 3) <= 0)
        by (apply double_upper; [reflexivity | lra]).
      assert (A2 : Double.double (2 * Double.double (d + 3)) <= 0)
        by (apply double_upper; [reflexivity | lra]).
      assert (A3 : Double.double (14 + Double.double (2 * Double.double (d + 3))) <= 14)
        by (apply double_upper; [reflexivity | lra]).
      set (v := Double.double (14 + _)) in *.
      change (inject_Z 5) with 5. change (inject_Z 14) with 14.
      min_max_split; split; lra.
    + intros z Hz. repeat split; intros; try lia; exfalso; lra.
  - rewrite (B4 (conj H3 H1)). cbn [snd].
    apply (Hband _ 15%Z 39%Z); [apply double_fixed | |].
    + unfold Double.add, Double.mul, Double.div.
      rewrite !double_fixed, Hd. literal_doubles. literal_inverses.
      assert (A1 : 0 <= Double.double (d + 3) <= 2)
        by (split; [apply double_lower | apply double_upper]; try reflexivity; lra).
      assert (A2 : 0 <= Double.double (Double.double (d + 3) * (1 # 2)) <= 1)
        by (split; [apply double_lower | apply double_upper]; try reflexivity; lra).
      assert (A3 : 0 <= Double.double (24 * Double.double (Double.double (d + 3) * (1 # 2))) <= 24)
        by (split; [apply double_lower | apply double_upper]; try reflexivity; lra).
      change (inject_Z 15) with 15. change (inject_Z 39) with 39.
      split; [apply double_lower | apply double_upper]; try reflexivity; lra.
    + intros z Hz. repeat split; intros; try lia; exfalso; lra.
  - rewrite (B3 (conj H1 H0)). cbn [snd].
    apply (Hband _ 40%Z 59%Z); [apply double_fixed | |].
    + unfold Double.add, Double.mul.
      rewrite !double_fixed, Hd. literal_doubles.
      assert (A1 : 0 <= Double.double (d + 1) <= 1)
        by (split; [apply double_lower | apply double_upper]; try reflexivity; lra).
      assert (A2 : 0 <= Double.double (19 * Double.double (d + 1)) <= 19)
        by (split; [apply double_lower | apply double_upper]; try reflexivity; lra).
      change (inject_Z 40) with 40. change (inject_Z 59) with 59.
      split; [apply double_lower | apply double_upper]; try reflexivity; lra.
    + intros z Hz. repeat split; intros; try lia; exfalso; lra.
  - rewrite (B2 (conj H0 H2)). cbn [snd].
    apply (Hband _ 60%Z 79%Z); [apply double_fixed | |].
    + unfold Double.add, Double.mul, Double.div.
      rewrite !double_fixed, Hd. literal_doubles. literal_inverses.
      assert (A1 : 0 <= Double.double (d * (1 # 2)) <= 1)
        by (split; [apply double_lower | apply double_upper]; try reflexivity; lra).
      assert (A2 : 0 <= Double.double (19 * Double.double (d * (1 # 2))) <= 19)
        by (split; [apply double_lower | apply double_upper]; try reflexivity; lra).
      change (inject_Z 60) with 60. change (inject_Z 79) with 79.
      split; [apply double_lower | apply double_upper]; try reflexivity; lra.
    + intros z Hz. repeat split; intros; try lia; exfalso; lra.
  - rewrite (B1 H2). cbn [snd].
    apply (Hband _ 80%Z 95%Z); [apply Math_min_fixed | |].
    + unfold Double.Math_min, Double.add, Double.mul, Double.sub.
      rewrite !double_fixed, Hd. literal_doubles.
      assert (A1 : 0 <= Double.double (d - 2))
        by (apply double_lower; [reflexivity | lra]).
      assert (A2 : 0 <= Double.double (3 * Double.double (d - 2)))
        by (apply double_lower; [reflexivity | lra]).
      assert (A3 : 80 <= Double.double (80 + Double.double (3 * Double.double (d - 2))))
        by (apply double_lower; [reflexivity | lra]).
      set (v := Double.double (80 + _)) in *.
      change (inject_Z 80) with 80. change (inject_Z 95) with 95.
      min_max_split; split; lra.
    + intros z Hz. repeat split; intros; try lia; exfalso; lra.
Qed.

Lemma chance_whole_number (d : Q) :
  Double.double d = d ->
  exists z : Z,
    (5 <= z <= 95)%Z /\ snd (calculateChanceFromDifference d) = inject_Z z.
Proof.
  intros Hd.
  destruct (chance_band_ranges_double d Hd) as (z & E & R1 & R2 & R3 & R4 & R5).
  exists z. split; [|exact E].
  destruct (Qlt_le_dec d 2) as [H2|H2];
    [destruct (Qlt_le_dec d 0) as [H0|H0];
      [destruct (Qlt_le_dec d (-1)) as [H1|H1];
        [destruct (Qlt_le_dec d (-3)) as [H3|H3]|]|]|].
  - specialize (R1 H3). lia.
  - specialize (R2 (conj H3 H1)). lia.
  - specialize (R3 (conj H1 H0)). lia.
  - specialize (R4 (conj H0 H2)). lia.
  - specialize (R5 H2). lia.
Qed.

Lemma predictChance_whole_number (input : PredictionInput) :
  exists z : Z,
    (5 <= z <= 95)%Z /\ chancePercentage (predictChance input) = inject_Z z.
Proof.
  unfold predictChance.
  assert (Hno : exists z : Z,
             (5 <= z <= 95)%Z /\
             chancePercentage
               (createNoDataPrediction (userAggregate input) (programName input))
             = inject_Z z).
  { exists 50%Z. split; [lia | reflexivity]. }
  destruct (referenceAggregate input) as [| |r]; try exact Hno.
  destruct (predictAgainst_chance_double (userAggregate input) r) as [E _].
  destruct (chance_whole_number (Double.sub (userAggregate input) r)
              (sub_fixed _ _)) as (z & Hz & Ez).
  exists z. split; [exact Hz|]. rewrite <- Ez, <- E. reflexivity.
Qed.

End ChanceRangeDoubleFacts.

Section SortComparatorFacts.
Import JS.
Context {A : Type}.

(** [Array_sort] depends on the comparator through its values only. *)
Lemma sort_insert_ext (f g : A -> A -> bool) (x : A) (l : list A) :
  (forall a b, f a b = g a b) -> sort_insert f x l = sort_insert g x l.
Proof.
  intros H. induction l as [|y l IH]; [reflexivity|].
  cbn [sort_insert]. rewrite H, IH. reflexivity.
Qed.

Lemma Array_sort_ext (f g : A -> A -> bool) (l : list A) :
  (forall a b, f a b = g a b) -> Array_sort f l = Array_sort g l.
Proof.
  intros H. induction l as [|x l IH]; [reflexivity|].
  cbn [Array_sort fold_right]. fold (Array_sort f l). fold (Array_sort g l).
  rewrite IH. apply sort_insert_ext, H.
Qed.

Lemma StronglySorted_among (R R' : A -> A -> Prop) (l : list A) :
  (forall a b, In a l -> In b l -> R a b -> R' a b) ->
  StronglySorted R l -> StronglySorted R' l.
Proof.
  intros H Hs. induction Hs as [|x l Hs IH Hall]; constructor.
  - apply IH. intros a b Ha Hb. apply H; now right.
  - rewrite List.Forall_forall in *. intros y Hy.
    apply H; [now left | now right | now apply Hall].
Qed.

End SortComparatorFacts.

Section PreferenceGeneratorDoubleFacts.
Import JS.
Import PreferenceGenerator.
Import Binary64.preferenceGenerator.

(** The comparator of the ranking looks at the scores as doubles. *)
Lemma byOverallScore_key (a b : PreferenceItem) :
  byOverallScore a b
  = gtb (Double.double (overallScore b) - Double.double (overallScore a)) 0.
Proof.
  unfold byOverallScore, Double.gtb, Double.sub, gtb.
  rewrite double_fixed. change (Double.double 0) with 0.
  set (x := Double.double (overallScore b) - Double.double (overallScore a)).
  destruct (leb_spec (Double.double x) 0) as [H|H];
    destruct (leb_spec x 0) as [H'|H']; try reflexivity; exfalso.
  - pose proof (proj2 (double_positive x) H'). lra.
  - pose proof (proj1 (double_positive x) H). lra.
Qed.

Lemma scoreProgram_score_is_double (u : Q) (interests : UserInterests)
    (p : ProgramOption) :
  Double.double (overallScore (scoreProgram u interests p))
  = overallScore (scoreProgram u interests p).
Proof.
  unfold scoreProgram. cbn [overallScore].
  unfold calculateOverallScore. apply add_fixed.
Qed.

Lemma getRiskCategory_cutoffs_double (z : Z) :
  (5 <= z <= 95)%Z ->
  let chance := inject_Z z in
  (getRiskCategory chance = Safe <-> 70 <= chance) /\
  (getRiskCategory chance = Moderate <-> 40 <= chance < 70) /\
  (getRiskCategory chance = Ambitious <-> chance < 40).
Proof.
  intros Hz chance. unfold getRiskCategory, Double.geb.
  cbv [RISK_THRESHOLDS PREFERENCE_CONFIG RT_SAFE RT_MODERATE].
  assert (E : Double.double chance == chance).
  { apply double_Z. assert (2 ^ 53 = 9007199254740992)%Z by reflexivity. lia. }
  assert (L70 : Double.double 70 = 70) by (vm_compute; reflexivity).
  assert (L40 : Double.double 40 = 40) by (vm_compute; reflexivity).
  rewrite L70, L40.
  destruct (leb_spec 70 (Double.double chance));
    destruct (leb_spec 40 (Double.double chance));
    repeat split; intros; try discriminate; try reflexivity;
    rewrite ?E in *; try lra.
Qed.

Lemma scored_programs_double (u : Q) (interests : UserInterests)
    (l : list ProgramOption) :
  List.map program (List.map (scoreProgram u interests) l) = l.
Proof.
  induction l as [|p l IH]; cbn [List.map]; [reflexivity|].
  rewrite IH. reflexivity.
Qed.

Lemma scored_filter_double (u : Q) (interests : UserInterests) (q : Q -> bool)
    (l : list ProgramOption) :
  List.map program
    (List.filter (fun it => q (overallScore it))
                 (List.map (scoreProgram u interests) l))
  = List.filter (fun p => q (overallScore (scoreProgram u interests p))) l.
Proof.
  induction l as [|p l IH]; cbn [List.map List.filter]; [reflexivity|].
  destruct (q _); cbn [List.map]; rewrite IH; reflexivity.
Qed.

(** Every ranked item is a scored program with its rank filled in. *)
Lemma ranked_item_origin_double (u : Q) (interests : UserInterests)
    (l : list ProgramOption) (it : PreferenceItem) :
  In it (map_indexed_from setRank 0
           (Array_sort byOverallScore (List.map (scoreProgram u interests) l))) ->
  exists p k, In p l /\ it = setRank (scoreProgram u interests p) k.
Proof.
  intro Hin.
  destruct (map_indexed_from_In _ _ _ _ Hin) as (x & k & Hx & ->).
  apply (proj1 (Array_sort_In byOverallScore x _)) in Hx.
  apply in_map_iff in Hx. destruct Hx as (p & <- & Hp).
  now exists p, k.
Qed.

Lemma setRank_keeps (it : PreferenceItem) (k : nat) :
  program (setRank it k) = program it /\
  overallScore (setRank it k) = overallScore it /\
  chancePercentage (setRank it k) = chancePercentage it /\
  riskCategory (setRank it k) = riskCategory it.
Proof. repeat split. Qed.

Lemma scoreProgram_program (u : Q) (interests : UserInterests)
    (p : ProgramOption) :
  program (scoreProgram u interests p) = p.
Proof. reflexivity. Qed.

(** The chance of a scored program is a whole number, and its risk
    category is taken from that chance. *)
Lemma scoreProgram_risk (u : Q) (interests : UserInterests)
    (p : ProgramOption) :
  exists z : Z,
    (5 <= z <= 95)%Z /\
    chancePercentage (scoreProgram u interests p) = inject_Z z /\
    riskCategory (scoreProgram u interests p) = getRiskCategory (inject_Z z).
Proof.
  unfold scoreProgram. cbn [chancePercentage riskCategory].
  match goal with
  | |- context [Binary64.chancePredictor.predictChance ?i] =>
      destruct (predictChance_whole_number i) as (z & Hz & E); rewrite E
  end.
  exists z. split; [exact Hz|]. split; reflexivity.
Qed.

Lemma isRisk_category (c : RiskCategory) (l : list PreferenceItem) :
  List.filter (isRisk c) l
  = List.filter
      (fun it =>
         match c, riskCategory it with
         | Safe, Safe | Moderate, Moderate | Ambitious, Ambitious => true
         | _, _ => false
         end) l.
Proof. reflexivity. Qed.

(** C7. For a non-empty list of programs, the ranked list holds the input
    programs, each with the scores [scoreProgram] gives it, in
    non-increasing order of [overallScore]; programs with equal scores stay
    in input order; the rank of the item at position [i] is [i + 1]; each
    count of the summary is the number of ranked items of its risk
    category, and the three counts add up to [totalPrograms], the number of
    programs; and an item is Safe iff its chance is at least 70, Moderate
    iff it is at least 40 and below 70, Ambitious otherwise.  The scores
    are those the code computes in double arithmetic. *)
Theorem generatePreferenceList_ranked_and_partitioned :
  forall (u : Q) (programs : list ProgramOption) (interests : UserInterests),
    programs <> [] ->
    let res := generatePreferenceList u programs interests in
    let scoreOf p := overallScore (scoreProgram u interests p) in
    let count c :=
      List.length
        (List.filter
           (fun it =>
              match c, riskCategory it with
              | Safe, Safe | Moderate, Moderate | Ambitious, Ambitious => true
              | _, _ => false
              end)
           (rankedList res)) in
    StronglySorted (fun a b => overallScore b <= overallScore a)
                   (rankedList res) /\
    Permutation (List.map program (rankedList res)) programs /\
    (forall it, In it (rankedList res) ->
                overallScore it = scoreOf (program it)) /\
    (forall s : Q,
        List.map program
          (List.filter (fun it => eqb (overallScore it) s) (rankedList res))
        = List.filter (fun p => eqb (scoreOf p) s) programs) /\
    (forall i it, nth_error (rankedList res) i = Some it ->
                  rank it = (i + 1)%nat) /\
    totalPrograms (summary res) = List.length programs /\
    safeCount (summary res) = count Safe /\
    moderateCount (summary res) = count Moderate /\
    ambitiousCount (summary res) = count Ambitious /\
    (safeCount (summary res) + moderateCount (summary res)
     + ambitiousCount (summary res))%nat = totalPrograms (summary res) /\
    (forall it, In it (rankedList res) ->
                (riskCategory it = Safe <-> 70 <= chancePercentage it) /\
                (riskCategory it = Moderate <->
                 40 <= chancePercentage it < 70) /\
                (riskCategory it = Ambitious <-> chancePercentage it < 40)).
Proof.
  intros u programs interests Hne res scoreOf count. subst res count.
  unfold generatePreferenceList.
  destruct programs as [|p0 ps] eqn:Hprograms; [contradiction|].
  rewrite <- Hprograms in *. clear Hprograms Hne.
  cbn [rankedList summary totalPrograms safeCount moderateCount
       ambitiousCount byRisk safe moderate ambitious].
  set (scored := List.map (scoreProgram u interests) programs).
  set (key := fun it : PreferenceItem => Double.double (overallScore it)).
  assert (Hsort : Array_sort byOverallScore scored
                  = Array_sort (fun a b => gtb (key b - key a) 0) scored).
  { apply Array_sort_ext. intros a b. apply byOverallScore_key. }
  assert (Hkey : forall it, In it scored -> key it = overallScore it).
  { intros it Hin. unfold scored in Hin. apply in_map_iff in Hin.
    destruct Hin as (p & <- & _). apply scoreProgram_score_is_double. }
  set (sorted := Array_sort byOverallScore scored) in *.
  assert (Hin_sorted : forall it, In it sorted -> In it scored).
  { intros it. apply (Array_sort_In byOverallScore). }
  set (ranked := map_indexed_from setRank 0 sorted).
  repeat apply conj.
  - apply (map_indexed_from_sorted setRank
             (fun a b => overallScore b <= overallScore a)).
    + intros x y k k' H. exact H.
    + apply (StronglySorted_among (fun a b => key b <= key a)).
      * intros a b Ha Hb. rewrite (Hkey a), (Hkey b) by auto. trivial.
      * rewrite Hsort. apply (Array_sort_descending key).
  - unfold ranked.
    rewrite (map_indexed_from_map setRank program program) by reflexivity.
    unfold sorted. rewrite (Array_sort_perm byOverallScore scored).
    unfold scored. now rewrite scored_programs_double.
  - intros it Hin.
    destruct (ranked_item_origin_double u interests programs it Hin)
      as (p & k & _ & ->).
    destruct (setRank_keeps (scoreProgram u interests p) k) as (-> & -> & _).
    unfold scoreOf. rewrite scoreProgram_program. reflexivity.
  - intro s. unfold ranked.
    rewrite (map_indexed_from_filter setRank
               (fun it => eqb (overallScore it) s)
               (fun it => eqb (overallScore it) s) program program)
      by reflexivity.
    rewrite (filter_ext_in (fun it => eqb (overallScore it) s)
               (fun it => eqb (key it) s) sorted)
      by (intros it Hit; rewrite (Hkey it) by auto; reflexivity).
    rewrite Hsort.
    rewrite (Array_sort_stable key s scored).
    rewrite (filter_ext_in (fun it => eqb (key it) s)
               (fun it => eqb (overallScore it) s) scored)
      by (intros it Hit; rewrite (Hkey it) by auto; reflexivity).
    unfold scored. apply (scored_filter_double u interests (fun x => eqb x s)).
  - intros i it Hnth. unfold ranked in Hnth.
    rewrite map_indexed_from_nth in Hnth.
    destruct (nth_error sorted i); [|discriminate].
    injection Hnth as <-. reflexivity.
  - unfold ranked, sorted, scored.
    now rewrite map_indexed_from_length, Array_sort_length, length_map.
  - now rewrite isRisk_category.
  - now rewrite isRisk_category.
  - now rewrite isRisk_category.
  - apply risk_groups_partition.
  - intros it Hin.
    destruct (ranked_item_origin_double u interests programs it Hin)
      as (p & k & _ & ->).
    destruct (setRank_keeps (scoreProgram u interests p) k)
      as (_ & _ & -> & ->).
    destruct (scoreProgram_risk u interests p) as (z & Hz & -> & ->).
    apply getRiskCategory_cutoffs_double, Hz.
Qed.

Lemma generatePreferenceList_ranked_and_partitioned_witness :
  let option name group closing :=
    {| programId := name; programName := name; campus := "H-12";
       school := "SEECS"; disciplineGroup := group;
       lastYearClosingAggregate := closing; seats := Null |} in
  let programs := [ option "Software Engineering" "Computing" (Some 80);
                    option "Civil Engineering" "Engineering" (Some 70);
                    option "Economics" "Social Sciences" None ] in
  let interests := {| disciplineScores := <["Computing"%string := 5]> ∅;
                      preferredCampuses := ["H-12"%string];
                      riskTolerance := ModerateTolerance |} in
  let res := generatePreferenceList 76 programs interests in
  programs <> [] /\
  totalPrograms (summary res) = 3%nat /\
  (safeCount (summary res) + moderateCount (summary res)
   + ambitiousCount (summary res))%nat = totalPrograms (summary res) /\
  StronglySorted (fun a b => overallScore b <= overallScore a) (rankedList res).
Proof.
  intros option programs interests res.
  assert (Hne : programs <> []) by discriminate.
  split; [exact Hne|].
  destruct (generatePreferenceList_ranked_and_partitioned 76 programs interests Hne)
    as (Hsorted & _ & _ & _ & _ & Htotal & _ & _ & _ & Hcounts & _).
  split; [exact Htotal|]. split; [exact Hcounts | exact Hsorted].
Defined.

End PreferenceGeneratorDoubleFacts.

(** * Further properties of the code *)

(** Case analysis on the comparisons and on [min] / [max] in a goal. *)
Ltac compare_cases :=
  unfold JS.leb, JS.ltb, JS.geb, JS.gtb in *;
  repeat match goal with
    | |- context [Qle_bool ?a ?b] => destruct (leb_spec a b)
    end;
  cbn [negb andb orb].

Ltac clamp_cases :=
  unfold JS.Math_min, JS.Math_max in *;
  repeat match goal with
    | |- context [Qmin ?a ?b] =>
        let H := fresh in
        destruct (Q.min_spec a b) as [[? H]|[? H]]; rewrite H; clear H
    | |- context [Qmax ?a ?b] =>
        let H := fresh in
        destruct (Q.max_spec a b) as [[? H]|[? H]]; rewrite H; clear H
    end.

(** The same for nested [min] / [max], in the goal and the hypotheses:
    each one becomes a name with the facts that define it. *)
Ltac clamp_facts :=
  unfold JS.Math_min, JS.Math_max in *;
  repeat match goal with
    | |- context [Qmin ?a ?b] =>
        let m := fresh "m" in
        destruct (Q.min_spec a b) as [[? ?]|[? ?]]; set (m := Qmin a b) in *
    | |- context [Qmax ?a ?b] =>
        let m := fresh "m" in
        destruct (Q.max_spec a b) as [[? ?]|[? ?]]; set (m := Qmax a b) in *
    | _ : context [Qmin ?a ?b] |- _ =>
        let m := fresh "m" in
        destruct (Q.min_spec a b) as [[? ?]|[? ?]]; set (m := Qmin a b) in *
    | _ : context [Qmax ?a ?b] |- _ =>
        let m := fresh "m" in
        destruct (Q.max_spec a b) as [[? ?]|[? ?]]; set (m := Qmax a b) in *
    end.

(** ** Rounding is monotone *)

Section RoundingOrder.
Import JS.





End RoundingOrder.

(** ** calcAggregate: validation, bounds and order *)

Ltac aggregate_constants :=
  cbv [CalcAggregate.MAX_NET_SCORE CalcAggregate.AGGREGATE_CONFIG
       CalcAggregate.WEIGHTS_FSC CalcAggregate.WEIGHTS_OA_LEVEL
       CalcAggregate.FSC_NET CalcAggregate.FSC_HSC CalcAggregate.FSC_SSC
       CalcAggregate.OA_NET CalcAggregate.OA_EQUIVALENCE
       CalcAggregate.MIN_PERCENTAGE CalcAggregate.MAX_PERCENTAGE] in *.

Section MoreCalcAggregateFacts.
Import JS.
Import CalcAggregate.


(** X1. Validation passes exactly on the inputs in range: the NET score in
    [0, 200] and, for an O/A Level input, an equivalence percentage that is
    present and in [0, 100]; for any other input, HSC and SSC percentages
    in [0, 100].  It passes exactly when it reports no message. *)
Theorem validateAggregateInput_accepts_exactly_the_ranges :
  forall input : AggregateInput,
    (isValid (validateAggregateInput input) = true <->
     0 <= netScore input <= 200 /\
     match truthy_bool (useEquivalence input), equivalencePercentage input with
     | true, Some e => 0 <= e <= 100
     | true, None => False
     | false, _ =>
         0 <= hscPercentage input <= 100 /\ 0 <= sscPercentage input <= 100
     end) /\
    (isValid (validateAggregateInput input) = true <->
     errors (validateAggregateInput input) = []).
Proof.
  intro input. split.
  - split; [apply valid_input_ranges|].
    intros [Hnet Hrest]. unfold validateAggregateInput. cbn [isValid].
    aggregate_constants.
    destruct (truthy_bool (useEquivalence input));
      [destruct (equivalencePercentage input); [|contradiction]|];
      compare_cases; cbn [push_if app List.length Nat.eqb];
      try reflexivity; lra.
  - unfold validateAggregateInput. cbn [isValid errors].
    match goal with
    | |- (Nat.eqb (List.length ?l) 0 = true) <-> _ => destruct l
    end; cbn; split; intro; try reflexivity; discriminate.
Qed.

Lemma validateAggregateInput_accepts_exactly_the_ranges_witness :
  let input := {| netScore := 210; hscPercentage := 85; sscPercentage := 90;
                  useEquivalence := None; equivalencePercentage := None |} in
  isValid (validateAggregateInput input) = false /\
  ~ (0 <= netScore input <= 200).
Proof.
  intro input. split; [reflexivity|].
  intro Hrange.
  assert (H : isValid (validateAggregateInput input) = true).
  { apply (proj1 (validateAggregateInput_accepts_exactly_the_ranges input)).
    split; [exact Hrange|]. split; split; discriminate. }
  discriminate H.
Defined.

(** The NET score that solves the formula for a target, before the
    ceiling and the clamp. *)
Lemma solved_score_spec (target hsc ssc : Q) (useEq : bool) (eqPct : option Q) :
  exists solved : Q,
    let res := calculateRequiredNetScore target hsc ssc useEq eqPct in
    let terms n := calculateAggregate_terms
                     {| netScore := n; hscPercentage := hsc;
                        sscPercentage := ssc; useEquivalence := Some useEq;
                        equivalencePercentage := eqPct |} in
    requiredNetScore res = Math_max 0 (Math_min 200 (Math_ceil solved)) /\
    achievable res = geb solved 0 && leb solved 200 /\
    (forall n : Q, raw_total (terms n) - target == (n - solved) * (3 # 8)).
Proof.
  unfold calculateRequiredNetScore, calculateAggregate_terms,
    netScoreToPercentage.
  cbn [requiredNetScore achievable netScore hscPercentage sscPercentage
       useEquivalence equivalencePercentage truthy_bool].
  aggregate_constants.
  destruct useEq; [destruct eqPct|]; cbn [raw_total];
    eexists; (split; [reflexivity|]); (split; [reflexivity|]);
    intro n; field.
Qed.

(** X2. The recommended NET score is always an integer between 0 and 200,
    and the recommended percentage lies between 0 and 100, whatever the
    target and the fixed components are. *)
Theorem calculateRequiredNetScore_within_bounds :
  forall (target hsc ssc : Q) (useEq : bool) (eqPct : option Q),
    let res := calculateRequiredNetScore target hsc ssc useEq eqPct in
    (exists z : Z, requiredNetScore res == inject_Z z /\ (0 <= z <= 200)%Z) /\
    0 <= requiredNetPercentage res <= 100.
Proof.
  intros target hsc ssc useEq eqPct res. split.
  - destruct (solved_score_spec target hsc ssc useEq eqPct)
      as (solved & Hreq & _).
    cbv zeta in Hreq. subst res. rewrite Hreq. unfold Math_ceil.
    set (c := Qceiling solved).
    destruct (Z_lt_le_dec c 0) as [Hlo|Hlo];
      [|destruct (Z_lt_le_dec 200 c) as [Hhi|Hhi]].
    + exists 0%Z. split; [|lia].
      rewrite Zlt_Qlt in Hlo. change (inject_Z 0) with 0 in *.
      clamp_cases; lra.
    + exists 200%Z. split; [|lia].
      rewrite Zlt_Qlt in Hhi. change (inject_Z 200) with 200 in *.
      clamp_cases; lra.
    + exists c. split; [|lia].
      rewrite Zle_Qle in Hlo, Hhi.
      change (inject_Z 0) with 0 in *. change (inject_Z 200) with 200 in *.
      clamp_cases; lra.
  - subst res. unfold calculateRequiredNetScore. cbn [requiredNetPercentage].
    apply toFixed2_percentage. clamp_cases; lra.
Qed.






End MoreCalcAggregateFacts.

(** ** netScoreRecommender: the achievability label *)

Section MoreNetScoreRecommenderFacts.
Import JS.
Import CalcAggregate.
Import NetScoreRecommender.

(** X8. The label [NotAchievable] is never given to a score that
    [calculateRequiredNetScore] returns, not even for a target beyond
    reach: the returned score is clamped to 200, which
    [getAchievability] still labels Very Challenging.  A target within
    reach at a score of at most 120 is labelled Easy. *)
Theorem getAchievability_never_not_achievable :
  forall (target hsc ssc : Q) (useEq : bool) (eqPct : option Q),
    let res := calculateRequiredNetScore target hsc ssc useEq eqPct in
    getAchievability (requiredNetScore res) <> NotAchievable /\
    (requiredNetScore res == 200 ->
     getAchievability (requiredNetScore res) = VeryChallenging) /\
    (requiredNetScore res <= 120 ->
     getAchievability (requiredNetScore res) = Easy).
Proof.
  intros target hsc ssc useEq eqPct res.
  assert (Hle : requiredNetScore res <= 200).
  { subst res. unfold calculateRequiredNetScore. cbn [requiredNetScore].
    aggregate_constants. clamp_cases; lra. }
  unfold getAchievability.
  cbv [ACHIEVABILITY NET_RECOMMENDER_CONFIG EASY MODERATE CHALLENGING
       VERY_CHALLENGING].
  aggregate_constants.
  set (score := requiredNetScore res) in *.
  compare_cases; (split; [|split]); unfold not; intros;
    first [discriminate | reflexivity | lra].
Qed.

Lemma getAchievability_never_not_achievable_witness :
  let res := calculateRequiredNetScore 99 60 60 false None in
  achievable res = false /\
  requiredNetScore res == 200 /\
  getAchievability (requiredNetScore res) = VeryChallenging.
Proof.
  intro res.
  assert (H : requiredNetScore res == 200) by reflexivity.
  split; [reflexivity|]. split; [exact H|].
  exact (proj1 (proj2 (getAchievability_never_not_achievable
                         99 60 60 false None)) H).
Defined.

End MoreNetScoreRecommenderFacts.

(** ** chancePredictor: ranges, categories and positions *)

Section MoreChancePredictorFacts.
Import JS.
Import ChancePredictor.












(** With no seats the estimate is the floor of 50, where a quotient taken
    as 0 would give 90. *)
Example estimateAggregateFromPosition_no_seats :
  (exists e : Q, estimateAggregateFromPosition 80 0 = Some e /\ e == 50) /\
  estimateAggregateFromPosition 0 0 = None /\
  (exists e : Q, estimateAggregateFromPosition 80 100 = Some e /\ e == 74).
Proof.
  split; [eexists; split; [reflexivity | vm_compute; reflexivity]|].
  split; [reflexivity|].
  eexists; split; [reflexivity | vm_compute; reflexivity].
Qed.

End MoreChancePredictorFacts.

(** ** meritListPredictor: which list is predicted *)

Section MoreMeritListPredictorFacts.
Import JS.
Import MeritListPredictor.






(** The alternatives are list numbers of thresholds already seen, and so
    is the prediction. *)
Lemma scanThreshold_alternatives_known (u : Q) (seen : list MeritListThreshold)
    (st : ScanState) (t : MeritListThreshold) :
  (forall n, In n (st_alternatives st) -> In n (List.map meritListNumber seen)) ->
  (forall p, st_predictedList st = Some p -> In p (List.map meritListNumber seen)) ->
  (forall n, In n (st_alternatives (scanThreshold u st t)) ->
             In n (List.map meritListNumber (seen ++ [t]))) /\
  (forall p, st_predictedList (scanThreshold u st t) = Some p ->
             In p (List.map meritListNumber (seen ++ [t]))).
Proof.
  intros Halts Hpred.
  assert (Hold : forall n, In n (List.map meritListNumber seen) ->
                           In n (List.map meritListNumber (seen ++ [t]))).
  { intros n Hn. rewrite map_app. apply in_or_app. now left. }
  assert (Hnew : In (meritListNumber t) (List.map meritListNumber (seen ++ [t]))).
  { rewrite map_app. apply in_or_app. right. now left. }
  unfold scanThreshold.
  destruct (closingAggregate t); [|split; eauto].
  destruct (geb _ _); destruct (st_predictedList st) as [previous|] eqn:Hp;
    try destruct (below_closest _ _); try destruct (ltb _ _);
    cbn [st_alternatives st_predictedList]; rewrite ?Hp;
    (split;
     [ intros n Hn; try apply in_app_or in Hn;
       try destruct Hn as [Hn|[<-|[]]]; eauto
     | intros p Hsome; try discriminate;
       try (injection Hsome as <-); eauto ]).
Qed.

Lemma scan_alternatives_known (u : Q) (ts seen : list MeritListThreshold)
    (st : ScanState) :
  (forall n, In n (st_alternatives st) -> In n (List.map meritListNumber seen)) ->
  (forall p, st_predictedList st = Some p -> In p (List.map meritListNumber seen)) ->
  forall n, In n (st_alternatives (fold_left (scanThreshold u) ts st)) ->
            In n (List.map meritListNumber (seen ++ ts)).
Proof.
  revert seen st. induction ts as [|t ts IH]; intros seen st Halts Hpred.
  - rewrite app_nil_r. exact Halts.
  - cbn [fold_left].
    replace (seen ++ t :: ts) with ((seen ++ [t]) ++ ts)
      by (now rewrite <- app_assoc).
    destruct (scanThreshold_alternatives_known u seen st t Halts Hpred).
    now apply IH.
Qed.

(** With distinct list numbers the prediction is never repeated among the
    alternatives. *)
Lemma scanThreshold_alternatives_apart (u : Q) (seen : list MeritListThreshold)
    (st : ScanState) (t : MeritListThreshold) :
  ~ In (meritListNumber t) (List.map meritListNumber seen) ->
  alternativesSoFar seen st ->
  alternativesSoFar (seen ++ [t]) (scanThreshold u st t).
Proof.
  intros Hfresh [Halts Hpred].
  destruct (scanThreshold_alternatives_known u seen st t Halts
              (fun p Hp => proj1 (Hpred p Hp))) as [Halts' Hpred'].
  split; [exact Halts'|].
  intros p Hp. split; [now apply Hpred'|].
  revert Hp. unfold scanThreshold.
  destruct (closingAggregate t); [|apply Hpred].
  destruct (geb _ _); destruct (st_predictedList st) as [previous|] eqn:Hprev;
    try destruct (below_closest _ _); try destruct (ltb _ _);
    cbn [st_alternatives st_predictedList]; rewrite ?Hprev;
    intros Hsome Hin; try discriminate;
    try (injection Hsome as <-);
    try apply in_app_or in Hin;
    try destruct Hin as [Hin|[Hin|[]]];
    try (apply Hfresh; now apply Halts);
    try (apply Hfresh; rewrite <- Hin; now apply (Hpred previous));
    try (apply Hfresh; rewrite Hin; now apply (Hpred _ eq_refl));
    try (now apply (proj2 (Hpred _ eq_refl))).
Qed.

Lemma scan_alternatives_apart (u : Q) (ts seen : list MeritListThreshold)
    (st : ScanState) :
  List.NoDup (List.map meritListNumber (seen ++ ts)) ->
  alternativesSoFar seen st ->
  alternativesSoFar (seen ++ ts) (fold_left (scanThreshold u) ts st).
Proof.
  revert seen st. induction ts as [|t ts IH]; intros seen st Hnd Hinv.
  - now rewrite app_nil_r.
  - cbn [fold_left].
    replace (seen ++ t :: ts) with ((seen ++ [t]) ++ ts) in *
      by (now rewrite <- app_assoc).
    apply IH; [exact Hnd|].
    apply scanThreshold_alternatives_apart; [|exact Hinv].
    rewrite !map_app in Hnd. apply NoDup_app_remove_r in Hnd.
    apply NoDup_remove_2 in Hnd. now rewrite app_nil_r in Hnd.
Qed.

Lemma In_firstn_In {A : Type} (x : A) (n : nat) (l : list A) :
  In x (firstn n l) -> In x l.
Proof.
  intro H. rewrite <- (firstn_skipn n l). apply in_or_app. now left.
Qed.

(** X12. At most two alternatives are returned.  With thresholds at hand
    each alternative is the list number of one of them, and when the list
    numbers are pairwise distinct the predicted list is not repeated among
    the alternatives.  Without thresholds a predicted list [p] comes with
    the alternatives [p + 1] and [p + 2]. *)
Theorem predictMeritList_alternatives :
  forall input : MeritListPredictionInput,
    let res := predictMeritList input in
    (List.length (alternatives res) <= 2)%nat /\
    (thresholds input <> [] ->
     forall n : Z,
       In n (alternatives res) ->
       In n (List.map meritListNumber (thresholds input))) /\
    (thresholds input <> [] ->
     List.NoDup (List.map meritListNumber (thresholds input)) ->
     forall p : Z,
       predictedList res = Some p -> ~ In p (alternatives res)) /\
    (thresholds input = [] ->
     forall p : Z,
       predictedList res = Some p ->
       alternatives res = [(p + 1)%Z; (p + 2)%Z]).
Proof.
  intros input res. subst res. unfold predictMeritList.
  destruct (thresholds input) as [|t0 ts] eqn:Hts.
  - unfold createNoDataPrediction. cbn [alternatives predictedList].
    repeat apply conj; try (intro; contradiction).
    + compare_cases; vm_compute; lia.
    + intros _ p. compare_cases; intros [= <-]; reflexivity.
  - cbn [alternatives predictedList].
    set (sorted := Array_sort byListNumber (t0 :: ts)).
    assert (Hperm : Permutation (List.map meritListNumber sorted)
                                (List.map meritListNumber (t0 :: ts)))
      by (apply Permutation_map, Array_sort_perm).
    repeat apply conj; try (intro; discriminate).
    + rewrite length_firstn. lia.
    + intros _ n Hn. apply In_firstn_In in Hn.
      eapply Permutation_in; [exact Hperm|].
      apply (scan_alternatives_known (userAggregate input) sorted [] initialScan);
        [intros ? []|discriminate|exact Hn].
    + intros _ Hnd p Hp Hin. apply In_firstn_In in Hin.
      assert (Hinv : alternativesSoFar sorted
                       (fold_left (scanThreshold (userAggregate input)) sorted
                                  initialScan)).
      { apply (scan_alternatives_apart (userAggregate input) sorted [] initialScan).
        - cbn [app]. eapply Permutation_NoDup; [symmetry; exact Hperm|exact Hnd].
        - split; [intros ? []|discriminate]. }
      destruct Hinv as [_ Hapart]. now apply (Hapart p Hp).
Qed.

Lemma predictMeritList_alternatives_witness :
  let round n c := {| meritListNumber := n;
                      closingAggregate := Some c;
                      closingPosition := None |} in
  let input := {| userAggregate := 76;
                  programId := "p1";
                  programName := "Software Engineering";
                  thresholds := [round 1%Z 80; round 2%Z 77; round 3%Z 74;
                                 round 4%Z 72] |} in
  thresholds input <> [] /\
  List.NoDup (List.map meritListNumber (thresholds input)) /\
  predictedList (predictMeritList input) = Some 3%Z /\
  ~ In 3%Z (alternatives (predictMeritList input)).
Proof.
  intros round input.
  assert (Hne : thresholds input <> []) by discriminate.
  assert (Hnd : List.NoDup (List.map meritListNumber (thresholds input))).
  { repeat constructor; cbn; intuition discriminate. }
  split; [exact Hne|]. split; [exact Hnd|]. split; [reflexivity|].
  destruct (predictMeritList_alternatives input) as (_ & _ & Hapart & _).
  exact (Hapart Hne Hnd 3%Z eq_refl).
Defined.

(** Sorting by list number puts the thresholds in ascending order. *)
Lemma sort_insert_ascending (x : MeritListThreshold)
    (l : list MeritListThreshold) :
  StronglySorted (fun a b => (meritListNumber a <= meritListNumber b)%Z) l ->
  StronglySorted (fun a b => (meritListNumber a <= meritListNumber b)%Z)
                 (sort_insert byListNumber x l).
Proof.
  induction l as [|y l IH]; intro Hs; cbn [sort_insert].
  - repeat constructor.
  - inversion Hs as [|? ? Hs' Hall]; subst.
    unfold byListNumber at 1.
    destruct (Z.ltb_spec 0 (meritListNumber x - meritListNumber y)) as [Hgt|Hle].
    + constructor; [now apply IH|].
      apply (Permutation_Forall (x := x :: l)).
      * symmetry. apply sort_insert_perm.
      * constructor; [lia | exact Hall].
    + constructor; [exact Hs|].
      constructor; [lia|].
      revert Hall. apply List.Forall_impl. intros. lia.
Qed.

Lemma Array_sort_ascending (l : list MeritListThreshold) :
  StronglySorted (fun a b => (meritListNumber a <= meritListNumber b)%Z)
                 (Array_sort byListNumber l).
Proof.
  induction l as [|x l IH]; cbn [Array_sort fold_right]; [constructor|].
  now apply sort_insert_ascending.
Qed.








(** *** The estimated ladder *)

Lemma listNumbers_In (i n : Z) :
  In i (listNumbers n) <-> (1 <= i <= n)%Z.
Proof.
  unfold listNumbers. rewrite in_map_iff. split.
  - intros (k & <- & Hk). apply in_seq in Hk. lia.
  - intro Hi. exists (Z.to_nat i). split; [lia|]. apply in_seq. lia.
Qed.

Lemma listNumbers_NoDup (n : Z) : List.NoDup (listNumbers n).
Proof.
  unfold listNumbers. apply Finite.Injective_map_NoDup.
  - intros a b Hab. lia.
  - apply seq_NoDup.
Qed.

Lemma ladder_numbers (base : Q) (n : Z) :
  List.map meritListNumber (generateEstimatedThresholds base n)
  = listNumbers n.
Proof.
  unfold generateEstimatedThresholds. rewrite map_map. cbn [meritListNumber].
  apply map_id.
Qed.

Lemma ladder_In (base : Q) (n : Z) (t : MeritListThreshold) :
  In t (generateEstimatedThresholds base n) ->
  (1 <= meritListNumber t <= n)%Z /\
  closingAggregate t
  = Some (Qmax 50 (base - inject_Z (meritListNumber t - 1) * (15 # 10))).
Proof.
  unfold generateEstimatedThresholds. rewrite in_map_iff.
  intros (i & <- & Hi). apply listNumbers_In in Hi.
  split; [exact Hi | reflexivity].
Qed.


Lemma ladder_falls (base : Q) (n : Z) (a b : MeritListThreshold) (ca cb : Q) :
  In a (generateEstimatedThresholds base n) ->
  In b (generateEstimatedThresholds base n) ->
  closingAggregate a = Some ca -> closingAggregate b = Some cb ->
  (meritListNumber a <= meritListNumber b)%Z -> cb <= ca.
Proof.
  intros Ha Hb Hca Hcb Hle.
  destruct (ladder_In base n a Ha) as [_ Ha'].
  destruct (ladder_In base n b Hb) as [_ Hb'].
  rewrite Ha' in Hca. rewrite Hb' in Hcb.
  injection Hca as <-. injection Hcb as <-.
  assert (Hq : inject_Z (meritListNumber a - 1)
               <= inject_Z (meritListNumber b - 1)).
  { rewrite <- Zle_Qle. lia. }
  clamp_facts; lra.
Qed.

(** X14. The estimated ladder for a closing aggregate [base] has one
    threshold for each list number from 1 to [numLists], each with a
    closing aggregate: the first closes at [max(50, base)], every one
    closes at 50 or above and no higher than the first, and a later list
    never closes higher than an earlier one. *)
Theorem generateEstimatedThresholds_ladder :
  forall (base : Q) (numLists : Z),
    let ladder := generateEstimatedThresholds base numLists in
    List.length ladder = Z.to_nat numLists /\
    List.NoDup (List.map meritListNumber ladder) /\
    (forall i : Z, In i (List.map meritListNumber ladder) <->
                   (1 <= i <= numLists)%Z) /\
    (forall t, In t ladder ->
               exists c, closingAggregate t = Some c /\
                         50 <= c <= Qmax 50 base /\
                         (meritListNumber t = 1%Z -> c == Qmax 50 base)) /\
    (forall a b ca cb,
        In a ladder -> In b ladder ->
        closingAggregate a = Some ca -> closingAggregate b = Some cb ->
        (meritListNumber a <= meritListNumber b)%Z -> cb <= ca).
Proof.
  intros base numLists ladder. subst ladder.
  split; [|split; [|split; [|split]]].
  - unfold generateEstimatedThresholds, listNumbers.
    now rewrite !length_map, length_seq.
  - rewrite ladder_numbers. apply listNumbers_NoDup.
  - intro i. rewrite ladder_numbers. apply listNumbers_In.
  - intros t Ht. destruct (ladder_In base numLists t Ht) as [Hi Hc].
    eexists. split; [exact Hc|].
    assert (Hq : 0 <= inject_Z (meritListNumber t - 1)).
    { change 0 with (inject_Z 0). rewrite <- Zle_Qle. lia. }
    split; [clamp_facts; lra|].
    intros ->. change (inject_Z (1 - 1)) with 0.
    clamp_facts; lra.
  - apply ladder_falls.
Qed.

Lemma generateEstimatedThresholds_ladder_witness :
  let ladder := generateEstimatedThresholds 78 8 in
  List.length ladder = 8%nat /\
  forall a b ca cb,
    In a ladder -> In b ladder ->
    closingAggregate a = Some ca -> closingAggregate b = Some cb ->
    (meritListNumber a <= meritListNumber b)%Z -> cb <= ca.
Proof.
  intro ladder.
  destruct (generateEstimatedThresholds_ladder 78 8)
    as (Hlen & _ & _ & _ & Hfalls).
  split; [exact Hlen | exact Hfalls].
Defined.





(** *** The order of the thresholds *)

Lemma ascending_arrangement_unique (l1 l2 : list MeritListThreshold) :
  StronglySorted (fun a b => (meritListNumber a <= meritListNumber b)%Z) l1 ->
  StronglySorted (fun a b => (meritListNumber a <= meritListNumber b)%Z) l2 ->
  Permutation l1 l2 ->
  List.NoDup (List.map meritListNumber l1) ->
  l1 = l2.
Proof.
  revert l2. induction l1 as [|a l1 IH]; intros l2 Hs1 Hs2 Hperm Hnd.
  - apply Permutation_nil in Hperm. now subst.
  - destruct l2 as [|b l2];
      [apply Permutation_sym, Permutation_nil in Hperm; discriminate|].
    inversion Hs1 as [|? ? Hs1' Hall1]; subst.
    inversion Hs2 as [|? ? Hs2' Hall2]; subst.
    cbn [List.map] in Hnd. apply List.NoDup_cons_iff in Hnd.
    destruct Hnd as [Hfresh Hnd].
    assert (Hab : a = b).
    { assert (Ha : In a (b :: l2))
        by (eapply Permutation_in; [exact Hperm | now left]).
      assert (Hb : In b (a :: l1))
        by (eapply Permutation_in; [symmetry; exact Hperm | now left]).
      destruct Ha as [Ha|Ha]; [now symmetry|].
      destruct Hb as [Hb|Hb]; [exact Hb|].
      exfalso. apply Hfresh.
      rewrite List.Forall_forall in Hall1, Hall2.
      specialize (Hall1 b Hb). specialize (Hall2 a Ha).
      replace (meritListNumber a) with (meritListNumber b) by lia.
      now apply in_map. }
    subst b. f_equal.
    apply IH; trivial. now apply Permutation_cons_inv in Hperm.
Qed.

(** X16. The order in which the thresholds are passed does not matter:
    two lists holding the same thresholds, with pairwise distinct list
    numbers, give the same prediction. *)
Theorem predictMeritList_ignores_threshold_order :
  forall (u : Q) (pid pname : string) (l1 l2 : list MeritListThreshold),
    Permutation l1 l2 ->
    List.NoDup (List.map meritListNumber l1) ->
    predictMeritList {| userAggregate := u; programId := pid;
                        programName := pname; thresholds := l1 |}
    = predictMeritList {| userAggregate := u; programId := pid;
                          programName := pname; thresholds := l2 |}.
Proof.
  intros u pid pname l1 l2 Hperm Hnd.
  assert (Hsorted : Array_sort byListNumber l1 = Array_sort byListNumber l2).
  { apply ascending_arrangement_unique.
    - apply Array_sort_ascending.
    - apply Array_sort_ascending.
    - rewrite (Array_sort_perm byListNumber l1), Hperm.
      symmetry. apply Array_sort_perm.
    - eapply Permutation_NoDup; [|exact Hnd].
      apply Permutation_map. symmetry. apply Array_sort_perm. }
  unfold predictMeritList. cbn [thresholds userAggregate programName].
  destruct l1 as [|a l1]; destruct l2 as [|b l2]; trivial.
  - apply Permutation_nil in Hperm. discriminate.
  - apply Permutation_sym, Permutation_nil in Hperm. discriminate.
  - now rewrite Hsorted.
Qed.

Lemma predictMeritList_ignores_threshold_order_witness :
  let round n c := {| meritListNumber := n;
                      closingAggregate := Some c;
                      closingPosition := None |} in
  let l1 := [round 1%Z 80; round 2%Z 77] in
  let l2 := [round 2%Z 77; round 1%Z 80] in
  Permutation l1 l2 /\
  List.NoDup (List.map meritListNumber l1) /\
  predictMeritList {| userAggregate := 78; programId := "p1";
                      programName := "Software Engineering";
                      thresholds := l1 |}
  = predictMeritList {| userAggregate := 78; programId := "p1";
                        programName := "Software Engineering";
                        thresholds := l2 |}.
Proof.
  intros round l1 l2.
  assert (Hperm : Permutation l1 l2) by apply perm_swap.
  assert (Hnd : List.NoDup (List.map meritListNumber l1)).
  { repeat constructor; cbn; intuition discriminate. }
  split; [exact Hperm|]. split; [exact Hnd|].
  exact (predictMeritList_ignores_threshold_order 78 "p1"
           "Software Engineering" l1 l2 Hperm Hnd).
Defined.

End MoreMeritListPredictorFacts.

(** ** Ordinals *)

Section OrdinalFacts.
Import MeritListPredictor.

(** The suffix English gives a number with the last two digits [r]. *)
Lemma ordinalSuffix_last_two_digits (k : nat) :
  (k < 100)%nat ->
  let r := Z.of_nat k in
  ordinalSuffix r
  = if ((r mod 10 =? 1) && negb (r =? 11))%Z then "st"%string
    else if ((r mod 10 =? 2) && negb (r =? 12))%Z then "nd"%string
    else if ((r mod 10 =? 3) && negb (r =? 13))%Z then "rd"%string
    else "th"%string.
Proof.
  intro Hk.
  do 100 (destruct k as [|k]; [vm_compute; reflexivity|]).
  lia.
Qed.

(** X17. For every non-negative integer below [2^53], [getOrdinal] appends
    the English ordinal suffix to the number: "st", "nd" or "rd" when the
    last digit is 1, 2 or 3, except for numbers ending in 11, 12 and 13,
    and "th" otherwise. *)
Theorem getOrdinal_english_suffix :
  forall n : Z,
    (0 <= n < 2 ^ 53)%Z ->
    getOrdinal n
    = (numberToString n
       ++ if ((n mod 10 =? 1) && negb (n mod 100 =? 11))%Z then "st"
          else if ((n mod 10 =? 2) && negb (n mod 100 =? 12))%Z then "nd"
          else if ((n mod 10 =? 3) && negb (n mod 100 =? 13))%Z then "rd"
          else "th")%string.
Proof.
  intros n [Hn _]. unfold getOrdinal. f_equal.
  assert (Hrem : Z.rem n 100 = (n mod 100)%Z) by (apply Z.rem_mod_nonneg; lia).
  assert (Hdigit : (n mod 10 = (n mod 100) mod 10)%Z).
  { symmetry. apply Z.mod_mod_divide. exists 10%Z. reflexivity. }
  assert (Hr : (0 <= n mod 100 < 100)%Z) by (apply Z.mod_pos_bound; lia).
  assert (Hsuffix : ordinalSuffix n = ordinalSuffix (n mod 100)).
  { unfold ordinalSuffix. rewrite Hrem.
    replace (Z.rem (n mod 100) 100) with (n mod 100)%Z; [reflexivity|].
    rewrite Z.rem_mod_nonneg by lia. symmetry. apply Z.mod_small. lia. }
  rewrite Hsuffix, Hdigit.
  pose proof (ordinalSuffix_last_two_digits (Z.to_nat (n mod 100))) as H.
  cbv zeta in H. rewrite Z2Nat.id in H by lia.
  apply H. lia.
Qed.

Lemma getOrdinal_english_suffix_witness :
  (0 <= 112)%Z /\ getOrdinal 112 = "112th"%string /\
  getOrdinal 23 = "23rd"%string.
Proof.
  assert (H112 : (0 <= 112 < 2 ^ 53)%Z) by (split; [discriminate|reflexivity]).
  assert (H23 : (0 <= 23 < 2 ^ 53)%Z) by (split; [discriminate|reflexivity]).
  split; [exact (proj1 H112)|].
  split; [exact (getOrdinal_english_suffix 112 H112)
         |exact (getOrdinal_english_suffix 23 H23)].
Defined.

End OrdinalFacts.

(** ** AggregateForm: what a run of the calculation shows *)

Section AggregateFormFacts.
Import JS.
Import CalcAggregate.
Import AggregateForm.








End AggregateFormFacts.

(** ** preferenceGenerator: scores and advice *)

Section MorePreferenceGeneratorFacts.
Import JS.
Import PreferenceGenerator.


(** X21. Some advice is always given: the list of recommendations is
    never empty, whatever the programs are, and a list of one to four
    programs is always told to add more options. *)
Theorem generatePreferenceList_always_recommends :
  forall (u : Q) (programs : list ProgramOption) (interests : UserInterests),
    recommendations (generatePreferenceList u programs interests) <> [] /\
    (programs <> [] -> (List.length programs < 5)%nat ->
     In "Consider adding more program options to increase your chances of admission."%string
        (recommendations (generatePreferenceList u programs interests))).
Proof.
  intros u programs interests.
  unfold generatePreferenceList.
  destruct programs as [|p0 ps] eqn:Hprograms;
    [split; [discriminate | intro; contradiction]|].
  rewrite <- Hprograms. cbn [recommendations].
  set (ranked := map_indexed_from setRank 0
                   (Array_sort byOverallScore
                      (List.map (scoreProgram u interests) programs))).
  assert (Hlen : List.length ranked = List.length programs).
  { unfold ranked.
    now rewrite map_indexed_from_length, Array_sort_length, length_map. }
  unfold generateRecommendations.
  cbn [totalPrograms safeCount ambitiousCount moderateCount].
  rewrite Hlen.
  split.
  - match goal with
    | |- (if Nat.eqb (List.length ?l) 0 then _ else _) <> [] =>
        destruct l as [|x l']
    end; cbn; discriminate.
  - intros _ Hfew. apply Nat.ltb_lt in Hfew. rewrite Hfew.
    match goal with
    | |- In _ (if Nat.eqb (List.length ?l) 0 then _ else _) =>
        assert (Hin : In "Consider adding more program options to increase your chances of admission."%string l);
        [|destruct l; [destruct Hin | exact Hin]]
    end.
    repeat match goal with
      | |- context [if ?c then _ else _] => destruct c
      end;
      repeat (apply in_or_app; first [now (right; left) | left]);
      try now (apply in_or_app; right; left).
Qed.

Lemma generatePreferenceList_always_recommends_witness :
  let p := {| programId := "p1"; programName := "Software Engineering";
              campus := "H-12"; school := "SEECS";
              disciplineGroup := "Computing";
              lastYearClosingAggregate := Some 75; seats := Null |} in
  let interests := {| disciplineScores := ∅;
                      preferredCampuses := [];
                      riskTolerance := ModerateTolerance |} in
  [p] <> [] /\ (List.length [p] < 5)%nat /\
  In "Consider adding more program options to increase your chances of admission."%string
     (recommendations (generatePreferenceList 77 [p] interests)).
Proof.
  intros p interests.
  assert (Hne : [p] <> []) by discriminate.
  assert (Hfew : (List.length [p] < 5)%nat) by (cbn; lia).
  split; [exact Hne|]. split; [exact Hfew|].
  exact (proj2 (generatePreferenceList_always_recommends 77 [p] interests)
               Hne Hfew).
Defined.






(** X23. A campus listed fifth or later among the preferred campuses is
    scored below a campus that is not listed at all (which gets the
    neutral 50), and the first listed campus gets 100. *)
Theorem getCampusPreferenceScore_late_listing :
  forall (campus other : string) (preferred : list string) (index : nat),
    indexOfString campus preferred = Some index ->
    indexOfString other preferred = None ->
    (index = 0%nat -> getCampusPreferenceScore campus preferred == 100) /\
    ((4 <= index)%nat <->
     getCampusPreferenceScore campus preferred
     < getCampusPreferenceScore other preferred).
Proof.
  intros campus other preferred index Hlisted Hunlisted.
  unfold getCampusPreferenceScore, of_nat. rewrite Hlisted, Hunlisted.
  split.
  - intros ->. reflexivity.
  - destruct (le_lt_dec 4 index) as [Hlate|Hearly].
    + assert (H4 : 4 <= inject_Z (Z.of_nat index)).
      { change 4 with (inject_Z 4). rewrite <- Zle_Qle. lia. }
      set (i := inject_Z (Z.of_nat index)) in *.
      split; [intros _|intros _; exact Hlate]. clamp_cases; lra.
    + assert (H3 : inject_Z (Z.of_nat index) <= 3).
      { change 3 with (inject_Z 3). rewrite <- Zle_Qle. lia. }
      set (i := inject_Z (Z.of_nat index)) in *.
      split; [lia|]. clamp_cases; lra.
Qed.

Lemma getCampusPreferenceScore_late_listing_witness :
  let preferred := ["H-12"; "Risalpur"; "Rawalpindi"; "Karachi"; "Quetta"]%string in
  indexOfString "Quetta" preferred = Some 4%nat /\
  indexOfString "Lahore" preferred = None /\
  getCampusPreferenceScore "Quetta" preferred
  < getCampusPreferenceScore "Lahore" preferred.
Proof.
  intro preferred.
  assert (H1 : indexOfString "Quetta" preferred = Some 4%nat) by reflexivity.
  assert (H2 : indexOfString "Lahore" preferred = None) by reflexivity.
  split; [exact H1|]. split; [exact H2|].
  apply (proj2 (getCampusPreferenceScore_late_listing
                  "Quetta" "Lahore" preferred 4 H1 H2)).
  apply le_n.
Defined.

End MorePreferenceGeneratorFacts.

(** ** netScoreRecommender: the score points of the scenario table *)

Section ScenarioPointFacts.
Import NetScoreRecommender.

(** X24. [generateScenarios] draws its rows at three to five NET scores:
    after the removal of duplicates, between three and five of the five
    candidate score points remain, for every recommended score. *)
Theorem generateScenarios_draws_three_to_five_points :
  forall recommendedScore : Q,
    (3 <= List.length (scorePoints recommendedScore) <= 5)%nat.
Proof. exact scorePoints_count. Qed.

End ScenarioPointFacts.


(** ** Further properties of the computed values *)

Section RequiredScoreDoubleFacts.
Import JS.
Import CalcAggregate.
Import Binary64.calcAggregate.

Lemma ceiling_bounds (x : Q) :
  x <= inject_Z (Qceiling x) /\ inject_Z (Qceiling x) < x + 1.
Proof.
  split; [apply Qle_ceiling|].
  pose proof (Qceiling_lt x) as H.
  unfold Zminus in H. rewrite inject_Z_plus, inject_Z_opp in H.
  change (inject_Z 1) with 1 in H. lra.
Qed.

(** The score the code solves for: what [achievable] and the returned
    score are taken from, and how far it is from the score solved for over
    the reals when the target and the percentages are between 0 and 100. *)
Lemma solved_score_double (target hsc ssc : Q) (useEq : bool)
    (eqPct : option Q) :
  exists solved : Q,
    let r := calculateRequiredNetScore target hsc ssc useEq eqPct in
    let fixed :=
      match useEq, eqPct with
      | true, Some e => e * (25 # 100)
      | _, _ => hsc * (15 # 100) + ssc * (10 # 100)
      end in
    achievable r = Qle_bool 0 solved && Qle_bool solved 200 /\
    requiredNetScore r
    = Qmax 0 (Double.double
                (Qmin 200 (Double.double (inject_Z (Qceiling solved))))) /\
    (0 <= target <= 100 -> 0 <= hsc <= 100 -> 0 <= ssc <= 100 ->
     match eqPct with Some e => 0 <= e <= 100 | None => True end ->
     Qabs (solved - (target - fixed) / (75 # 100) / 100 * 200)
     <= 1 # 1000000000).
Proof.
  assert (L200 : Double.double 200 = 200) by (vm_compute; reflexivity).
  assert (L0 : Double.double 0 = 0) by reflexivity.
  unfold calculateRequiredNetScore.
  cbv [MAX_NET_SCORE AGGREGATE_CONFIG WEIGHTS_FSC WEIGHTS_OA_LEVEL
       FSC_NET FSC_HSC FSC_SSC OA_NET OA_EQUIVALENCE].
  cbn [achievable requiredNetScore].
  unfold Double.geb, Double.leb, Double.Math_max, Double.Math_min,
    Double.Math_ceil.
  rewrite !mul_fixed, L200, L0.
  match goal with
  | |- context [Qceiling ?x] => exists x
  end.
  split; [reflexivity|]. split; [reflexivity|].
  intros Ht Hh Hs He.
  destruct useEq; [destruct eqPct as [e|]|];
    unfold Double.mul, Double.div, Double.sub;
    rewrite !double_fixed; literal_doubles; literal_inverses;
    bound_doubles_wide; apply Qabs_Qle_condition; split; lra.
Qed.

Lemma clamped_ceiling (x : Q) :
  0 <= x <= 200 ->
  Qmax 0 (Double.double (Qmin 200 (Double.double (inject_Z (Qceiling x)))))
  == inject_Z (Qceiling x).
Proof.
  intros [L U]. destruct (ceiling_bounds x) as [C1 C2].
  set (k := Qceiling x) in *.
  assert (Hk : (0 <= k <= 200)%Z).
  { split.
    - rewrite Zle_Qle. change (inject_Z 0) with 0. lra.
    - assert (X : (k < 201)%Z); [|lia].
      rewrite Zlt_Qlt. change (inject_Z 201) with 201. lra. }
  assert (Ek : Double.double (inject_Z k) == inject_Z k).
  { apply double_Z. assert (2 ^ 53 = 9007199254740992)%Z by reflexivity. lia. }
  assert (Hq : 0 <= inject_Z k <= 200).
  { destruct Hk as [K1 K2]. rewrite Zle_Qle in K1, K2.
    change (inject_Z 0) with 0 in K1. change (inject_Z 200) with 200 in K2.
    split; assumption. }
  rewrite Ek. rewrite (Q.min_r 200 (inject_Z k)) by apply Hq.
  rewrite Ek. apply Q.max_r, Hq.
Qed.

(** X3. For targets and percentages between 0 and 100, [achievable] follows
    the window between the totals the forward formula gives at NET 0 and at
    NET 200, up to the rounding of the double arithmetic: it is true for
    every target at least [10^-9] inside the window and false for every
    target at least [10^-9] outside, where the returned score is 0 below
    the window and 200 above it.  On the edge the rounding decides: for
    target 1, HSC 2 and SSC 7 the target is the total at NET 0 over the
    reals, and [achievable] is false. *)
Theorem calculateRequiredNetScore_achievable_window :
  (forall (target hsc ssc : Q) (useEq : bool) (eqPct : option Q),
      0 <= target <= 100 -> 0 <= hsc <= 100 -> 0 <= ssc <= 100 ->
      match eqPct with Some e => 0 <= e <= 100 | None => True end ->
      let r := calculateRequiredNetScore target hsc ssc useEq eqPct in
      let lowest :=
        match useEq, eqPct with
        | true, Some e => e * (25 # 100)
        | _, _ => hsc * (15 # 100) + ssc * (10 # 100)
        end in
      let highest := 75 + lowest in
      (lowest + (1 # 1000000000) <= target <= highest - (1 # 1000000000) ->
       achievable r = true) /\
      (target <= lowest - (1 # 1000000000) ->
       achievable r = false /\ requiredNetScore r == 0) /\
      (highest + (1 # 1000000000) <= target ->
       achievable r = false /\ requiredNetScore r == 200)) /\
  (let r := calculateRequiredNetScore 1 2 7 false None in
   1 == 2 * (15 # 100) + 7 * (10 # 100) /\ achievable r = false).
Proof.
  split; [|vm_compute; split; reflexivity].
  intros target hsc ssc useEq eqPct Ht Hh Hs He r lowest highest.
  destruct (solved_score_double target hsc ssc useEq eqPct)
    as (solved & Each & Ereq & Hnear).
  cbv zeta in Each, Ereq, Hnear. fold r in Each, Ereq. fold lowest in Hnear.
  specialize (Hnear Ht Hh Hs He). rewrite Each, Ereq.
  apply Qabs_Qle_condition in Hnear. subst highest. clearbody lowest.
  literal_inverses.
  destruct (ceiling_bounds solved) as [C1 C2].
  assert (L200 : Double.double 200 = 200) by (vm_compute; reflexivity).
  repeat apply conj.
  - intros H. apply andb_true_iff. split; apply Qle_bool_iff; lra.
  - intros H. split.
    + destruct (leb_spec 0 solved); [exfalso; lra | reflexivity].
    + assert (Hk : inject_Z (Qceiling solved) <= 0).
      { change 0 with (inject_Z 0). rewrite <- Zle_Qle.
        assert (X : (Qceiling solved < 1)%Z); [|lia].
        rewrite Zlt_Qlt. change (inject_Z 1) with 1. lra. }
      assert (A1 : Double.double (inject_Z (Qceiling solved)) <= 0)
        by (apply double_upper; [reflexivity | exact Hk]).
      rewrite (Q.min_r 200 _) by lra.
      rewrite double_fixed. apply Q.max_l. exact A1.
  - intros H. split.
    + destruct (leb_spec solved 200);
        [exfalso; lra | apply andb_false_r].
    + assert (Hk : 200 <= inject_Z (Qceiling solved)) by lra.
      assert (A1 : 200 <= Double.double (inject_Z (Qceiling solved)))
        by (apply double_lower; [reflexivity | exact Hk]).
      rewrite (Q.min_l 200 _) by lra.
      rewrite L200. apply Q.max_r. discriminate.
Qed.

Lemma calculateRequiredNetScore_achievable_window_witness :
  0 <= 80 <= 100 /\ 0 <= 85 <= 100 /\ 0 <= 90 <= 100 /\
  achievable (calculateRequiredNetScore 80 85 90 false None) = true.
Proof.
  assert (Ht : 0 <= 80 <= 100) by (split; discriminate).
  assert (Hh : 0 <= 85 <= 100) by (split; discriminate).
  assert (Hs : 0 <= 90 <= 100) by (split; discriminate).
  repeat (split; [assumption|]).
  apply (proj1 (proj1 calculateRequiredNetScore_achievable_window
                  80 85 90 false None Ht Hh Hs I)).
  vm_compute. split; discriminate.
Defined.

(** X4. For targets and percentages between 0 and 100 and an achievable
    target, the returned [requiredNetScore] is the ceiling of the score
    solved for over the reals, up to the rounding of the double arithmetic:
    a whole number [k] with [s - 10^-9 <= k < s + 1 + 10^-9].  The rounding
    shows where the solution is a whole number: for target 60, HSC 60 and
    SSC 90 the solved score is 112 over the reals, the doubles give
    112.00000000000001, and the function returns 113. *)
Theorem calculateRequiredNetScore_is_least :
  (forall (target hsc ssc : Q) (useEq : bool) (eqPct : option Q),
      0 <= target <= 100 -> 0 <= hsc <= 100 -> 0 <= ssc <= 100 ->
      match eqPct with Some e => 0 <= e <= 100 | None => True end ->
      let r := calculateRequiredNetScore target hsc ssc useEq eqPct in
      let fixed :=
        match useEq, eqPct with
        | true, Some e => e * (25 # 100)
        | _, _ => hsc * (15 # 100) + ssc * (10 # 100)
        end in
      let s := (target - fixed) / (75 # 100) / 100 * 200 in
      achievable r = true ->
      exists k : Z,
        requiredNetScore r == inject_Z k /\
        s - (1 # 1000000000) <= inject_Z k < s + 1 + (1 # 1000000000)) /\
  (let r := calculateRequiredNetScore 60 60 90 false None in
   (60 - (60 * (15 # 100) + 90 * (10 # 100))) / (75 # 100) / 100 * 200 == 112 /\
   achievable r = true /\ requiredNetScore r == 113).
Proof.
  split; [|vm_compute; repeat split; reflexivity].
  intros target hsc ssc useEq eqPct Ht Hh Hs He r fixed s Hach.
  destruct (solved_score_double target hsc ssc useEq eqPct)
    as (solved & Each & Ereq & Hnear).
  cbv zeta in Each, Ereq, Hnear. fold r in Each, Ereq.
  fold fixed in Hnear. fold s in Hnear.
  specialize (Hnear Ht Hh Hs He).
  rewrite Each in Hach. rewrite Ereq.
  apply andb_true_iff in Hach. destruct Hach as [H0 H200].
  apply Qle_bool_iff in H0, H200.
  exists (Qceiling solved). split; [apply clamped_ceiling; split; assumption|].
  destruct (ceiling_bounds solved) as [C1 C2].
  apply Qabs_Qle_condition in Hnear. split; lra.
Qed.

Lemma calculateRequiredNetScore_is_least_witness :
  0 <= 80 <= 100 /\ 0 <= 85 <= 100 /\ 0 <= 90 <= 100 /\
  achievable (calculateRequiredNetScore 80 85 90 false None) = true /\
  exists k : Z,
    requiredNetScore (calculateRequiredNetScore 80 85 90 false None)
    == inject_Z k.
Proof.
  assert (Ht : 0 <= 80 <= 100) by (split; discriminate).
  assert (Hh : 0 <= 85 <= 100) by (split; discriminate).
  assert (Hs : 0 <= 90 <= 100) by (split; discriminate).
  assert (Hach : achievable (calculateRequiredNetScore 80 85 90 false None) = true)
    by (vm_compute; reflexivity).
  repeat (split; [assumption|]).
  destruct (proj1 calculateRequiredNetScore_is_least 80 85 90 false None
              Ht Hh Hs I Hach)
    as (k & Ek & _).
  exists k. exact Ek.
Defined.

End RequiredScoreDoubleFacts.

Section EquivalenceDoubleFacts.
Import JS.
Import CalcAggregate.
Import Binary64.calcAggregate.

(** X7. The two formulas agree where they overlap, up to one hundredth:
    for a NET score between 0 and 200, the total of an O/A Level input with
    equivalence percentage [e] and the total of the local input whose HSC
    and SSC percentages are both [e] are two-decimal numbers at most one
    hundredth apart.  They need not be equal, because the two sums are
    rounded differently in double arithmetic: NET 3 with [e = 9] gives 3.38
    for the O/A Level input and 3.37 for the local one. *)
Theorem calculateAggregate_equivalence_as_equal_percentages :
  (forall n h s e : Q,
      0 <= n <= 200 -> 0 <= e <= 100 ->
      exists k1 k2 : Z,
        totalAggregate
          (calculateAggregate
             {| netScore := n; hscPercentage := h; sscPercentage := s;
                useEquivalence := Some true; equivalencePercentage := Some e |})
        = Double.double (inject_Z k1 / 100) /\
        totalAggregate
          (calculateAggregate
             {| netScore := n; hscPercentage := e; sscPercentage := e;
                useEquivalence := Some false;
                equivalencePercentage := None |})
        = Double.double (inject_Z k2 / 100) /\
        (Z.abs (k1 - k2) <= 1)%Z) /\
  (totalAggregate
     (calculateAggregate
        {| netScore := 3; hscPercentage := 0; sscPercentage := 0;
           useEquivalence := Some true; equivalencePercentage := Some 9 |})
   = Double.double (338 # 100) /\
   totalAggregate
     (calculateAggregate
        {| netScore := 3; hscPercentage := 9; sscPercentage := 9;
           useEquivalence := Some false; equivalencePercentage := None |})
   = Double.double (337 # 100)).
Proof.
  split; [|split; vm_compute; reflexivity].
  intros n h s e Hn He.
  assert (Dn : 0 <= Double.double n <= 200).
  { split; [apply double_lower | apply double_upper]; try reflexivity; lra. }
  assert (De : 0 <= Double.double e <= 100).
  { split; [apply double_lower | apply double_upper]; try reflexivity; lra. }
  set (oa := {| netScore := n; hscPercentage := h; sscPercentage := s;
                useEquivalence := Some true; equivalencePercentage := Some e |}).
  set (loc := {| netScore := n; hscPercentage := e; sscPercentage := e;
                 useEquivalence := Some false; equivalencePercentage := None |}).
  assert (T1 : totalAggregate (calculateAggregate oa)
               = Double.toFixed2 (raw_total (calculateAggregate_terms oa)))
    by reflexivity.
  assert (T2 : totalAggregate (calculateAggregate loc)
               = Double.toFixed2 (raw_total (calculateAggregate_terms loc)))
    by reflexivity.
  rewrite T1, T2.
  rewrite (terms_equivalence oa e eq_refl eq_refl).
  rewrite (terms_local loc (or_introl eq_refl)).
  cbn [raw_total netScore hscPercentage sscPercentage oa loc].
  destruct (total_equivalence_near n e Dn De) as [N1 R1].
  destruct (total_local_near n e e Dn De De) as [N2 R2].
  cbv zeta in N1, R1, N2, R2.
  set (raw1 := Double.add _ (Double.mul e (25 # 100))) in *.
  set (raw2 := Double.add (Double.add _ _) _) in *.
  assert (F1 : Double.double raw1 = raw1) by apply add_fixed.
  assert (F2 : Double.double raw2 = raw2) by apply add_fixed.
  destruct (toFixed2_hundredth raw1) as (k1 & E1 & B1);
    [rewrite F1; split; lra|].
  destruct (toFixed2_hundredth raw2) as (k2 & E2 & B2);
    [rewrite F2; split; lra|].
  rewrite F1 in B1. rewrite F2 in B2.
  exists k1, k2. split; [exact E1|]. split; [exact E2|].
  apply Qabs_Qle_condition in N1, N2.
  assert (X1 : inject_Z k1 < inject_Z (k2 + 2)).
  { rewrite inject_Z_plus. change (inject_Z 2) with 2. lra. }
  assert (X2 : inject_Z k2 < inject_Z (k1 + 2)).
  { rewrite inject_Z_plus. change (inject_Z 2) with 2. lra. }
  rewrite <- Zlt_Qlt in X1, X2. lia.
Qed.

Lemma calculateAggregate_equivalence_as_equal_percentages_witness :
  0 <= 150 <= 200 /\ 0 <= 88 <= 100 /\
  exists k1 k2 : Z,
    totalAggregate
      (calculateAggregate
         {| netScore := 150; hscPercentage := 0; sscPercentage := 0;
            useEquivalence := Some true; equivalencePercentage := Some 88 |})
    = Double.double (inject_Z k1 / 100) /\
    totalAggregate
      (calculateAggregate
         {| netScore := 150; hscPercentage := 88; sscPercentage := 88;
            useEquivalence := Some false; equivalencePercentage := None |})
    = Double.double (inject_Z k2 / 100) /\
    (Z.abs (k1 - k2) <= 1)%Z.
Proof.
  assert (Hn : 0 <= 150 <= 200) by (split; discriminate).
  assert (He : 0 <= 88 <= 100) by (split; discriminate).
  split; [exact Hn|]. split; [exact He|].
  exact (proj1 calculateAggregate_equivalence_as_equal_percentages
           150 0 0 88 Hn He).
Defined.

End EquivalenceDoubleFacts.

Section RiskByMarginDoubleFacts.
Import JS.
Import PreferenceGenerator.
Import Binary64.preferenceGenerator.

(** Around a margin of one point: from 1 on the chance is at least 70, and
    up to [1 - 2^-50] it is at most 69. *)
Lemma chance_around_one (d : Q) :
  Double.double d = d ->
  (1 <= d < 2 ->
   70 <= snd (Binary64.chancePredictor.calculateChanceFromDifference d)) /\
  (0 <= d <= 1 - (1 # 1125899906842624) ->
   snd (Binary64.chancePredictor.calculateChanceFromDifference d) <= 69).
Proof.
  intros Hd.
  destruct (calculateChanceFromDifference_bands d Hd) as (_ & B2 & _).
  split; intros H.
  - rewrite (B2 ltac:(split; lra)). cbn [snd].
    unfold Double.Math_round, Double.add, Double.mul, Double.div.
    rewrite !double_fixed, Hd. literal_doubles. literal_inverses.
    assert (A1 : (1 # 2) <= Double.double (d * (1 # 2)))
      by (apply double_lower; [reflexivity | lra]).
    assert (A2 : (19 # 2) <= Double.double (19 * Double.double (d * (1 # 2))))
      by (apply double_lower; [reflexivity | lra]).
    assert (A3 : (139 # 2)
                 <= Double.double (60 + Double.double (19 * Double.double (d * (1 # 2)))))
      by (apply double_lower; [reflexivity | lra]).
    set (v := Double.double (60 + _)) in *.
    change 70 with (inject_Z 70). rewrite <- Zle_Qle.
    rewrite <- (Qfloor_Z 70). apply Qfloor_resp_le.
    change (inject_Z 70) with 70. lra.
  - rewrite (B2 ltac:(split; lra)). cbn [snd].
    unfold Double.Math_round, Double.add, Double.mul, Double.div.
    rewrite !double_fixed, Hd. literal_doubles. literal_inverses.
    set (c1 := Double.double ((1 - (1 # 1125899906842624)) * (1 # 2))).
    set (c2 := Double.double (19 * c1)).
    set (c3 := Double.double (60 + c2)).
    assert (A1 : Double.double (d * (1 # 2)) <= c1).
    { apply double_mono. lra. }
    assert (A2 : Double.double (19 * Double.double (d * (1 # 2))) <= c2).
    { apply double_mono. lra. }
    assert (A3 : Double.double (60 + Double.double (19 * Double.double (d * (1 # 2))))
                 <= c3).
    { apply double_mono. lra. }
    assert (C : c3 < 139 # 2) by (vm_compute; reflexivity).
    set (v := Double.double (60 + Double.double _)) in *.
    clearbody c3. clear A1 A2 c1 c2.
    change 69 with (inject_Z 69). rewrite <- Zle_Qle.
    assert (X : (Qfloor (v + (1 # 2)) < 70)%Z); [|lia].
    rewrite Zlt_Qlt. eapply Qle_lt_trans; [apply Qfloor_le|].
    change (inject_Z 70) with 70. lra.
Qed.

(** X20. In the preference list the risk of a program with a known
    closing aggregate depends on the margin alone, the difference [d] the
    code computes in double arithmetic: Ambitious exactly when [d < -1];
    Safe whenever [d >= 1]; Moderate whenever [-1 <= d <= 1 - 2^-50], which
    includes the margins that fall a rounding error short of one point
    (64.1 against 63.1 is Moderate with chance 69).  A program without a
    closing aggregate is Moderate with chance 50. *)
Theorem scoreProgram_by_margin :
  (forall (u : Q) (interests : UserInterests) (p : ProgramOption),
      let it := scoreProgram u interests p in
      match lastYearClosingAggregate p with
      | Some c =>
          let d := Double.sub u c in
          (riskCategory it = Ambitious <-> d < -1) /\
          (1 <= d -> riskCategory it = Safe) /\
          (-1 <= d <= 1 - (1 # 1125899906842624) ->
           riskCategory it = Moderate)
      | None => riskCategory it = Moderate /\ chancePercentage it = 50
      end) /\
  (forall (interests : UserInterests) (p : ProgramOption),
      lastYearClosingAggregate p = Some (631 # 10) ->
      let it := scoreProgram (641 # 10) interests p in
      Double.sub (641 # 10) (631 # 10) < 1 /\
      riskCategory it = Moderate /\ chancePercentage it = 69).
Proof.
  assert (Hmain : forall (u c : Q) (interests : UserInterests) (p : ProgramOption),
             lastYearClosingAggregate p = Some c ->
             let it := scoreProgram u interests p in
             chancePercentage it
             = snd (Binary64.chancePredictor.calculateChanceFromDifference
                      (Double.sub u c)) /\
             riskCategory it = getRiskCategory (chancePercentage it)).
  { intros u c interests p Hc it. subst it. unfold scoreProgram.
    cbn [chancePercentage riskCategory]. rewrite Hc.
    unfold Binary64.chancePredictor.predictChance,
      ChancePredictor.referenceAggregate.
    cbn [of_option coalesce ChancePredictor.lastYearClosingAggregate
         ChancePredictor.averageClosingAggregate
         ChancePredictor.userAggregate].
    destruct (predictAgainst_chance_double u c) as [E _].
    split; [|reflexivity].
    rewrite <- E. reflexivity. }
  split.
  - intros u interests p it.
    destruct (lastYearClosingAggregate p) as [c|] eqn:Hc.
    + destruct (Hmain u c interests p Hc) as [Hchance Hrisk].
      fold it in Hchance, Hrisk. rewrite Hrisk, Hchance.
      set (d := Double.sub u c).
      assert (Hd : Double.double d = d) by apply sub_fixed.
      destruct (chance_band_ranges_double d Hd)
        as (z & Ez & R1 & R2 & R3 & R4 & R5).
      destruct (chance_around_one d Hd) as [Hup Hdown].
      rewrite Ez in *.
      assert (Hz : (5 <= z <= 95)%Z).
      { destruct (chance_whole_number d Hd) as (z' & Hz' & Ez').
        rewrite Ez in Ez'. injection Ez' as ->. exact Hz'. }
      destruct (getRiskCategory_cutoffs_double z Hz) as (Hs & Hm & Ha).
      cbv zeta in Hs, Hm, Ha.
      split; [|split].
      * rewrite Ha. change 40 with (inject_Z 40). rewrite <- Zlt_Qlt.
        split; intros H.
        -- apply Qnot_le_lt. intros Hge.
           destruct (Qlt_le_dec d 0) as [H0|H0];
             [specialize (R3 (conj Hge H0)); lia|].
           destruct (Qlt_le_dec d 2) as [H2|H2];
             [specialize (R4 (conj H0 H2)); lia | specialize (R5 H2); lia].
        -- destruct (Qlt_le_dec d (-3)) as [H3|H3];
             [specialize (R1 H3); lia | specialize (R2 (conj H3 H)); lia].
      * intros H. apply Hs. change 70 with (inject_Z 70). rewrite <- Zle_Qle.
        destruct (Qlt_le_dec d 2) as [H2|H2].
        -- specialize (Hup (conj H H2)).
           change 70 with (inject_Z 70) in Hup. rewrite <- Zle_Qle in Hup.
           exact Hup.
        -- specialize (R5 H2). lia.
      * intros [Hlo Hhi]. apply Hm.
        change 40 with (inject_Z 40). change 70 with (inject_Z 70).
        rewrite <- Zle_Qle, <- Zlt_Qlt.
        destruct (Qlt_le_dec d 0) as [H0|H0].
        -- specialize (R3 (conj Hlo H0)). lia.
        -- specialize (Hdown (conj H0 Hhi)).
           change 69 with (inject_Z 69) in Hdown. rewrite <- Zle_Qle in Hdown.
           specialize (R4 ltac:(split; lra)). lia.
    + subst it. unfold scoreProgram. cbn [chancePercentage riskCategory].
      rewrite Hc. split; vm_compute; reflexivity.
  - intros interests p Hc it.
    destruct (Hmain (641 # 10) (631 # 10) interests p Hc) as [Hchance Hrisk].
    fold it in Hchance, Hrisk.
    assert (E : snd (Binary64.chancePredictor.calculateChanceFromDifference
                       (Double.sub (641 # 10) (631 # 10))) = 69)
      by (vm_compute; reflexivity).
    rewrite E in Hchance. rewrite Hrisk, Hchance.
    split; [vm_compute; reflexivity|]. split; [vm_compute|]; reflexivity.
Qed.

Lemma scoreProgram_by_margin_witness :
  let p := {| programId := "p1"; programName := "Software Engineering";
              campus := "H-12"; school := "SEECS";
              disciplineGroup := "Computing";
              lastYearClosingAggregate := Some (631 # 10); seats := Null |} in
  let interests := {| disciplineScores := ∅;
                      preferredCampuses := [];
                      riskTolerance := ModerateTolerance |} in
  lastYearClosingAggregate p = Some (631 # 10) /\
  riskCategory (scoreProgram (641 # 10) interests p) = Moderate /\
  chancePercentage (scoreProgram (641 # 10) interests p) = 69.
Proof.
  intros p interests.
  assert (H : lastYearClosingAggregate p = Some (631 # 10)) by reflexivity.
  split; [exact H|].
  exact (proj2 (proj2 scoreProgram_by_margin interests p H)).
Defined.

End RiskByMarginDoubleFacts.
